(** * A shallow embedding of the shopping application [app.py]

    The development follows the layout of the source file: the SQLite
    tables behind [Database], the [AuthService], the singleton [Cart], the
    [OrderProcessor], the [PaymentProcessor] and the [checkout] route.

    Python values are modelled as the code has them:
    - [int] is [Z] (unbounded), [float] is a binary64 primitive float;
    - a [dict] is an association list in insertion order without repeated
      keys (Python dictionaries keep insertion order, and the order is
      visible through [sum] and through the rendered order summary);
    - dictionaries are mutable objects that live in a heap, because
      [Order.__init__] stores the very dictionary object of the cart;
    - exceptions are values of [exn], and every method is a computation in
      a state-and-exception monad over the [World]. *)

From Stdlib Require Import ZArith List String Ascii Floats Lia.
From stdpp Require Import base option list sorting strings pretty.

Local Open Scope string_scope.
Local Open Scope list_scope.
Local Open Scope Z_scope.

(** ** Python exceptions and results *)

Inductive exn : Type :=
  | ValueError (msg : string)
  | OverflowError (msg : string)
  | TypeError (msg : string)
  | AttributeError (msg : string)
  | IntegrityError (msg : string)
  | Exception (msg : string)
  | SystemError (msg : string).

Inductive result (A : Type) : Type :=
  | Ok (a : A)
  | Raise (e : exn).

Arguments Ok {A} a.
Arguments Raise {A} e.

(** ** Python numbers: [int] and [float] *)

Inductive number : Type :=
  | PyInt (z : Z)
  | PyFloat (f : float).

(** [float(z)] for a Python [int]: the nearest binary64 value (ties to
    even); a magnitude that rounds out of range raises [OverflowError]. *)
Definition float_of_int (z : Z) : result float :=
  match binary_normalize prec emax z 0 false with
  | S754_infinity _ => Raise (OverflowError "int too large to convert to float")
  | sf => Ok (SF2Prim sf)
  end.

(** [f * q] for a [float] [f] and an [int] [q]: the integer is converted
    first, then the product is the binary64 product. *)
Definition float_mul_int (f : float) (q : Z) : result float :=
  match float_of_int q with
  | Ok x => Ok (PrimFloat.mul f x)
  | Raise e => Raise e
  end.

(** The builtin [sum] on a sequence of floats, with its default start [0]
    (an [int]): the empty sum is the integer [0]; otherwise the start is
    converted to [0.0] and the terms are added from left to right in
    binary64 (the accumulation of CPython up to 3.11; later versions
    compensate the rounding error of the same left-to-right pass). *)
Definition py_sum (xs : list float) : number :=
  match xs with
  | [] => PyInt 0
  | _ :: _ => PyFloat (fold_left PrimFloat.add xs PrimFloat.zero)
  end.

(** ** Python dictionaries with string keys *)

(** The type of the dictionaries with values in [V]. *)
Abbreviation dict V := (list (string * V)) (only parsing).

Section dict.
Context {V : Type}.

Definition dict_keys (d : dict V) : list string := map fst d.
Definition dict_values (d : dict V) : list V := map snd d.

(** [d.get(k)] *)
Fixpoint dict_get (k : string) (d : dict V) : option V :=
  match d with
  | [] => None
  | (k', v) :: d' => if String.eqb k k' then Some v else dict_get k d'
  end.

(** [k in d] *)
Definition dict_contains (k : string) (d : dict V) : bool :=
  match dict_get k d with Some _ => true | None => false end.

(** [d[k] = v]: an existing key keeps its position, a new key goes last. *)
Fixpoint dict_setitem (k : string) (v : V) (d : dict V) : dict V :=
  match d with
  | [] => [(k, v)]
  | (k', v') :: d' =>
      if String.eqb k k' then (k, v) :: d' else (k', v') :: dict_setitem k v d'
  end.

(** [del d[k]] *)
Fixpoint dict_delitem (k : string) (d : dict V) : dict V :=
  match d with
  | [] => []
  | (k', v') :: d' =>
      if String.eqb k k' then dict_delitem k d' else (k', v') :: dict_delitem k d'
  end.

(** Truth value of a dictionary: empty is false. *)
Definition dict_truthy (d : dict V) : bool :=
  match d with [] => false | _ :: _ => true end.

(** Number of entries stored under key [k]. *)
Definition dict_count (k : string) (d : dict V) : nat :=
  length (filter (fun kv => String.eqb k (fst kv) = true) d).
End dict.

(** ** Products and cart lines *)

Record Product : Type := mkProduct {
  name : string;
  price : float;
  category : string
}.

(** A line of the cart, the inner dictionary
    [{'product': product, 'quantity': quantity}]. *)
Record CartLine : Type := mkLine {
  product : Product;
  quantity : Z
}.

Abbreviation items_dict := (dict CartLine) (only parsing).

(** ** The SQLite tables of [Database]

    A table is the list of its rows in rowid order. The keys are
    [INTEGER PRIMARY KEY AUTOINCREMENT], so a new row takes the rowid after
    the largest one ever used (kept in [seq_products], [seq_users] and
    [seq_orders], as SQLite does in [sqlite_sequence]) and rowid order is
    insertion order. No statement of the program deletes or updates a row.
    A [SELECT] without [ORDER BY] walks the table in rowid order, which is
    what SQLite does for these queries on the [products] and [orders]
    tables (neither has an index on the searched column). *)

Record ProductRow : Type := mkProductRow {
  p_id : Z;
  p_name : string;
  p_price : float;
  p_category : string
}.

Record UserRow : Type := mkUserRow {
  u_id : Z;
  u_username : string;
  u_password : string
}.

(** What the [REAL] column [total_amount] gives back for a float that was
    bound to it: SQLite keeps a NaN as [NULL], which Python reads as [None];
    it keeps a float without fractional part as an integer, so either zero
    comes back as [0.0]; every other float comes back as it is. *)
Definition stored_real (f : float) : option float :=
  match Prim2SF f with
  | S754_nan => None
  | S754_zero _ => Some PrimFloat.zero
  | _ => Some f
  end.

(** A row of [orders]; [total_amount] is what a [SELECT] reads in that
    column, [None] for [NULL]. *)
Record OrderRow : Type := mkOrderRow {
  order_id : Z;
  o_user_id : Z;
  total_amount : option float;
  payment_method : string;
  summary : string
}.

Record Database : Type := mkDatabase {
  products : list ProductRow;
  users : list UserRow;
  orders : list OrderRow;
  seq_products : Z;
  seq_users : Z;
  seq_orders : Z
}.

(** The dictionary [{"order_id", "total_amount", "payment_method",
    "summary"}] built by [fetch_orders_by_user_id]. *)
Record OrderData : Type := mkOrderData {
  od_order_id : Z;
  od_total_amount : option float;
  od_payment_method : string;
  od_summary : string
}.

(** [insert_product]. The column [price] is [REAL NOT NULL]: it keeps the
    prices that the program inserts, the numbers of the seed, as they
    are (a NaN, which this column refuses, is not among them). *)
Definition insert_product (n : string) (pr : float) (c : string)
    (d : Database) : Database :=
  let i := seq_products d + 1 in
  mkDatabase (products d ++ [mkProductRow i n pr c]) (users d) (orders d)
             i (seq_users d) (seq_orders d).

(** The row dictionaries [{"name", "price", "category"}] carry the fields
    of a [Product] and are written as such. *)
Definition product_of_row (r : ProductRow) : Product :=
  mkProduct (p_name r) (p_price r) (p_category r).

Definition fetch_products (d : Database) : list Product :=
  map product_of_row (products d).

(** [SELECT ... WHERE name = ?] followed by [fetchone]. *)
Definition fetch_product_by_name (n : string) (d : Database) : option Product :=
  match filter (fun r => String.eqb (p_name r) n = true) (products d) with
  | r :: _ => Some (product_of_row r)
  | [] => None
  end.

(** [SELECT ... WHERE username = ?] followed by [fetchone]. *)
Definition fetch_user (u : string) (d : Database) : option UserRow :=
  match filter (fun r => String.eqb (u_username r) u = true) (users d) with
  | r :: _ => Some r
  | [] => None
  end.

(** [username] is declared [UNIQUE]: the store itself refuses a second row
    with the same username. *)
Definition insert_user (u pw : string) (d : Database) : result Database :=
  match fetch_user u d with
  | Some _ => Raise (IntegrityError "UNIQUE constraint failed: users.username")
  | None =>
      let i := seq_users d + 1 in
      Ok (mkDatabase (products d) (users d ++ [mkUserRow i u pw]) (orders d)
                     (seq_products d) i (seq_orders d))
  end.

(** [insert_order] with a [float] for [total_amount], as its signature
    has it. *)
Definition insert_order (uid : Z) (total : float) (method : string)
    (text : string) (d : Database) : Database :=
  let i := seq_orders d + 1 in
  mkDatabase (products d) (users d)
             (orders d ++ [mkOrderRow i uid (stored_real total) method text])
             (seq_products d) (seq_users d) i.

Definition order_data_of_row (r : OrderRow) : OrderData :=
  mkOrderData (order_id r) (total_amount r) (payment_method r) (summary r).

(** [SELECT ... FROM orders WHERE user_id = ?] followed by [fetchall]. *)
Definition fetch_orders_by_user_id (uid : Z) (d : Database) : list OrderData :=
  map order_data_of_row
      (filter (fun r => Z.eqb (o_user_id r) uid = true) (orders d)).

(** ** The world: the database, the heap of dictionaries, the singleton *)

(** References to dictionary objects. *)
Abbreviation loc := nat (only parsing).

(** The one [Cart] object; its attribute [items] refers to a dictionary. *)
Record Cart : Type := mkCart {
  items : loc
}.

Record World : Type := mkWorld {
  db : Database;
  heap : list items_dict;
  Cart_instance : option Cart
}.

(** ** The state-and-exception monad of the methods *)

Definition M (A : Type) : Type := World -> result (A * World).

Definition ret {A : Type} (a : A) : M A := fun w => Ok (a, w).

Definition bind {A B : Type} (m : M A) (k : A -> M B) : M B :=
  fun w =>
    match m w with
    | Ok (a, w') => k a w'
    | Raise e => Raise e
    end.

Definition raise {A : Type} (e : exn) : M A := fun _ => Raise e.

Definition lift {A : Type} (r : result A) : M A :=
  fun w => match r with Ok a => Ok (a, w) | Raise e => Raise e end.

Definition get_db : M Database := fun w => Ok (db w, w).

Definition put_db (d : Database) : M unit :=
  fun w => Ok (tt, mkWorld d (heap w) (Cart_instance w)).

Declare Scope monad_scope.
Delimit Scope monad_scope with monad.
Notation "x <- c1 ;; c2" := (bind c1 (fun x => c2))
  (at level 100, c1 at next level, right associativity) : monad_scope.
Notation "c1 ;;; c2" := (bind c1 (fun _ => c2))
  (at level 100, right associativity) : monad_scope.
Local Open Scope monad_scope.

(** A new dictionary object [{}]. *)
Definition new_dict : M loc :=
  fun w => Ok (length (heap w), mkWorld (db w) (heap w ++ [[]]) (Cart_instance w)).

(** Reading and updating a dictionary object through a reference. *)
Definition deref (l : loc) : M items_dict :=
  fun w =>
    match heap w !! l with
    | Some d => Ok (d, w)
    | None => Raise (SystemError "dangling reference")
    end.

Definition update (l : loc) (f : items_dict -> items_dict) : M unit :=
  fun w =>
    match heap w !! l with
    | Some d => Ok (tt, mkWorld (db w) (<[l := f d]> (heap w)) (Cart_instance w))
    | None => Raise (SystemError "dangling reference")
    end.

(** ** The singleton [Cart] *)

(** Reading and binding the class attribute [Cart._instance]. *)
Definition get_Cart_instance : M (option Cart) :=
  fun w => Ok (Cart_instance w, w).

Definition set_Cart_instance (c : Cart) : M unit :=
  fun w => Ok (tt, mkWorld (db w) (heap w) (Some c)).

(** [Cart.__init__] *)
Definition Cart_init : M unit :=
  i <- get_Cart_instance ;;
  match i with
  | None => l <- new_dict ;; set_Cart_instance (mkCart l)
  | Some _ => raise (Exception "This class is a singleton!")
  end.

(** The receiver of a cart method: every [user.cart] is the singleton. *)
Definition the_cart : M Cart :=
  i <- get_Cart_instance ;;
  match i with
  | Some c => ret c
  | None => raise (AttributeError "'NoneType' object has no attribute")
  end.

(** [Cart.get_instance] *)
Definition get_instance : M Cart :=
  i <- get_Cart_instance ;;
  match i with
  | None => Cart_init
  | Some _ => ret tt
  end ;;;
  the_cart.

(** The effect of [add_item] on the dictionary [self.items]. *)
Definition add_item_dict (p : Product) (q : Z) (d : items_dict) : items_dict :=
  match dict_get (name p) d with
  | Some l => dict_setitem (name p) (mkLine (product l) (quantity l + q)) d
  | None => dict_setitem (name p) (mkLine p q) d
  end.

Definition add_item (p : Product) (q : Z) : M unit :=
  c <- the_cart ;; update (items c) (add_item_dict p q).

(** The effect of [remove_item] on the dictionary [self.items]. *)
Definition remove_item_dict (p : Product) (d : items_dict) : items_dict :=
  if dict_contains (name p) d then dict_delitem (name p) d else d.

Definition remove_item (p : Product) : M unit :=
  c <- the_cart ;; update (items c) (remove_item_dict p).

(** [get_items] returns the dictionary object itself, not a copy. *)
Definition get_items : M loc :=
  c <- the_cart ;; ret (items c).

(** [clear] binds [self.items] to a new empty dictionary; the dictionary
    it referred to before is left as it is. *)
Definition clear : M unit :=
  _ <- the_cart ;;
  l <- new_dict ;;
  set_Cart_instance (mkCart l).

(** ** Rendering numbers as text

    [str] of an [int] is its decimal numeral ([pretty]). A [float] is
    rendered from its exact value [m * 2^e]. *)

Definition newline : string := String (ascii_of_nat 10) EmptyString.

Fixpoint zeros (n : nat) : string :=
  match n with
  | O => ""
  | S n' => "0" +:+ zeros n'
  end.

(** [format(x, '.2f')]: the exact value rounded to hundredths, ties to
    even, with the sign of [x]. *)
Definition hundredths (m : positive) (e : Z) : Z :=
  if 0 <=? e then Z.pos m * 2 ^ e * 100
  else
    let num := Z.pos m * 100 in
    let den := 2 ^ (- e) in
    let q := num / den in
    let r := num mod den in
    if (den <? 2 * r) || ((den =? 2 * r) && Z.odd q) then q + 1 else q.

Definition two_digits (r : Z) : string :=
  if r <? 10 then "0" +:+ pretty r else pretty r.

Definition sign_text (s : bool) : string := if s then "-" else "".

Definition format_2f (x : float) : string :=
  match Prim2SF x with
  | S754_nan => "nan"
  | S754_infinity s => sign_text s +:+ "inf"
  | S754_zero s => sign_text s +:+ "0.00"
  | S754_finite s m e =>
      let n := hundredths m e in
      sign_text s +:+ pretty (n / 100) +:+ "." +:+ two_digits (n mod 100)
  end.

(** [format(t, '.2f')] for the value of [sum]: an [int] is converted to
    [float] first. *)
Definition format_2f_number (t : number) : result string :=
  match t with
  | PyFloat f => Ok (format_2f f)
  | PyInt z =>
      match float_of_int z with
      | Ok f => Ok (format_2f f)
      | Raise e => Raise e
      end
  end.

(** [repr(x)], which is also [str(x)] and the text of [x] in an f-string:
    the shortest decimal numeral that reads back as [x].

    The value is [m * 2^e]; its neighbourhood of decimals that read back
    as [x] runs from [lo] to [hi] in units of [2^(e-2)], bounds included
    when [m] is even. *)

(** [d * 10^j] compared with [x * 2^(e-2)]. *)
Definition cmp_scaled (d j x e : Z) : comparison :=
  let a := d * 10 ^ (Z.max j 0) * 2 ^ (Z.max (2 - e) 0) in
  let b := x * 2 ^ (Z.max (e - 2) 0) * 10 ^ (Z.max (- j) 0) in
  a ?= b.

Definition reads_back (m : positive) (e : Z) (d j : Z) : bool :=
  let lo := if (Z.pos m =? 2 ^ 52) && (-1074 <? e)
            then 4 * Z.pos m - 1 else 4 * Z.pos m - 2 in
  let hi := 4 * Z.pos m + 2 in
  let even := Z.even (Z.pos m) in
  match cmp_scaled d j lo e, cmp_scaled d j hi e with
  | Gt, Lt => true
  | Eq, _ => even
  | _, Eq => even
  | _, _ => false
  end.

(** The least [k], from [k0] on, with [m * 2^e < 10^k]. *)
Fixpoint decimal_point (fuel : nat) (m : positive) (e k : Z) : Z :=
  match fuel with
  | O => k
  | S fuel' =>
      match cmp_scaled 1 k (4 * Z.pos m) e with
      | Gt => k
      | _ => decimal_point fuel' m e (k + 1)
      end
  end.

(** [floor (m * 2^e / 10^j)] *)
Definition floor_scaled (m : positive) (e j : Z) : Z :=
  (Z.pos m * 2 ^ (Z.max e 0) * 10 ^ (Z.max (- j) 0))
  / (2 ^ (Z.max (- e) 0) * 10 ^ (Z.max j 0)).

(** Which of [d] and [d + 1] (times [10^j]) is nearer to [m * 2^e]. *)
Definition nearer_low (m : positive) (e d j : Z) : bool :=
  match cmp_scaled (2 * d + 1) j (8 * Z.pos m) e with
  | Gt => true
  | Eq => Z.even d
  | Lt => false
  end.

(** The digits [d] and the exponent [j], [d * 10^j] being the shortest
    numeral that reads back, tried with [n], [n + 1], ... digits. *)
Fixpoint shortest (fuel : nat) (m : positive) (e k : Z) (n : Z) : Z * Z :=
  let j := k - n in
  let d := floor_scaled m e j in
  match fuel with
  | O => (d, j)
  | S fuel' =>
      match reads_back m e d j, reads_back m e (d + 1) j with
      | true, true => if nearer_low m e d j then (d, j) else (d + 1, j)
      | true, false => (d, j)
      | false, true => (d + 1, j)
      | false, false => shortest fuel' m e k (n + 1)
      end
  end.

Fixpoint strip_zeros (fuel : nat) (d j : Z) : Z * Z :=
  match fuel with
  | O => (d, j)
  | S fuel' =>
      if (d mod 10 =? 0) && (0 <? d) then strip_zeros fuel' (d / 10) (j + 1)
      else (d, j)
  end.

Definition float_repr (x : float) : string :=
  match Prim2SF x with
  | S754_nan => "nan"
  | S754_infinity s => sign_text s +:+ "inf"
  | S754_zero s => sign_text s +:+ "0.0"
  | S754_finite s m e =>
      let k := decimal_point 700 m e (-330) in
      let '(d, j) := shortest 17 m e k 1 in
      let '(d, j) := strip_zeros 20 d j in
      let ds := pretty d in
      let n := Z.of_nat (String.length ds) in
      let decpt := j + n in
      sign_text s +:+
      (if (-4 <? decpt) && (decpt <=? 16) then
         if decpt <=? 0 then "0." +:+ zeros (Z.to_nat (- decpt)) +:+ ds
         else if n <=? decpt then ds +:+ zeros (Z.to_nat (decpt - n)) +:+ ".0"
         else String.substring 0 (Z.to_nat decpt) ds +:+ "." +:+
              String.substring (Z.to_nat decpt) (Z.to_nat (n - decpt)) ds
       else
         String.substring 0 1 ds +:+
         (if 1 <? n then "." +:+ String.substring 1 (Z.to_nat (n - 1)) ds else "") +:+
         "e" +:+ (if decpt - 1 <? 0 then "-" else "+") +:+
         two_digits (Z.abs (decpt - 1)))
  end.

(** ** Users and the [AuthService] *)

(** A [User] object. Its attribute [cart] is [Cart.get_instance()], the
    singleton, for every user; it is not stored in the record. *)
Record User : Type := mkUser {
  user_id : Z;
  username : string;
  password : string
}.

(** [User.__init__]: fetching the singleton creates it on first use. *)
Definition User_init (i : Z) (u pw : string) : M User :=
  _ <- get_instance ;; ret (mkUser i u pw).

Definition register_user (u pw : string) : M User :=
  d <- get_db ;;
  match fetch_user u d with
  | Some _ => raise (ValueError "User already exists.")
  | None =>
      d' <- lift (insert_user u pw d) ;;
      put_db d' ;;;
      d'' <- get_db ;;
      match fetch_user u d'' with
      | Some user_data => User_init (u_id user_data) u pw
      | None => raise (TypeError "'NoneType' object is not subscriptable")
      end
  end.

Definition login (u pw : string) : M User :=
  d <- get_db ;;
  match fetch_user u d with
  | Some user_data =>
      if String.eqb (u_password user_data) pw
      then User_init (u_id user_data) u pw
      else raise (ValueError "Invalid username or password.")
  | None => raise (ValueError "Invalid username or password.")
  end.

(** ** The [Catalog] *)

(** [ConcreteProductFactory.create_product] *)
Definition create_product (n : string) (pr : float) (c : string) : Product :=
  mkProduct n pr c.

Definition add_product (p : Product) : M unit :=
  d <- get_db ;; put_db (insert_product (name p) (price p) (category p) d).

Definition get_product (n : string) : M (option Product) :=
  d <- get_db ;; ret (fetch_product_by_name n d).

Definition list_products : M (list Product) :=
  d <- get_db ;; ret (fetch_products d).

(** The products that the module adds to the catalog at start-up when the
    [products] table is empty, category by category. *)
Definition categories : list (string * list (string * float)) :=
  [("Electronics",
    [("Laptop", 1200%float); ("Smartphone", 800%float); ("Tablet", 500%float)]);
   ("Home Appliances",
    [("Refrigerator", 1500%float); ("Microwave", 200%float);
     ("Washing Machine", 1000%float)]);
   ("Books",
    [("The Hobbit", 40%float); ("Train to Pakistan", 35%float);
     ("Harry Potter and the Deathly Hallows", 55%float)]);
   ("Clothing",
    [("Shirt", 30%float); ("Jeans", 50%float); ("Jacket", 100%float)])].

(** A [for] loop over a list. *)
Fixpoint for_each {A : Type} (body : A -> M unit) (l : list A) : M unit :=
  match l with
  | [] => ret tt
  | x :: l' => body x ;;; for_each body l'
  end.

Definition seed_catalog : M unit :=
  d <- get_db ;;
  match fetch_products d with
  | [] =>
      for_each
        (fun entry =>
           let '(cat, prods) := entry in
           for_each
             (fun np => let '(n, pr) := np in add_product (create_product n pr cat))
             prods)
        categories
  | _ :: _ => ret tt
  end.

(** ** Orders and the [OrderProcessor] *)

(** An [Order] object: [items] is what [user.cart.get_items()] returned,
    a reference to the dictionary of the cart. *)
Record Order : Type := mkOrder {
  order_user : User;
  order_items : loc
}.

(** [Order.__init__] *)
Definition Order_init (u : User) : M Order :=
  l <- get_items ;; ret (mkOrder u l).

Definition create_order (u : User) : M Order :=
  l <- get_items ;;
  d <- deref l ;;
  if negb (dict_truthy d) then raise (ValueError "Cart is empty.")
  else Order_init u.

(** [confirm_order] clears [user.cart]. *)
Definition confirm_order (u : User) : M unit := clear.

(** ** Payment *)

(** The abstract class [PaymentGateway]: an answer for every amount. A
    gateway is given the amount only; it leaves the cart and the store
    alone. *)
Class PaymentGateway : Type := {
  process_payment : number -> bool
}.

(** [MockPaymentGateway] approves every amount. *)
#[export] Instance MockPaymentGateway : PaymentGateway := {
  process_payment := fun _ => true
}.

(** The terms [item['product'].price * item['quantity']] in the order of
    [order.items.values()]; the first product that fails is the error. *)
Fixpoint line_amounts (ls : list CartLine) : result (list float) :=
  match ls with
  | [] => Ok []
  | l :: ls' =>
      match float_mul_int (price (product l)) (quantity l) with
      | Ok x =>
          match line_amounts ls' with
          | Ok xs => Ok (x :: xs)
          | Raise e => Raise e
          end
      | Raise e => Raise e
      end
  end.

(** The total of a dictionary of lines. *)
Definition total_of (d : items_dict) : result number :=
  match line_amounts (dict_values d) with
  | Ok xs => Ok (py_sum xs)
  | Raise e => Raise e
  end.

Definition process_order_payment {gw : PaymentGateway} (o : Order)
    (method : string) : M (bool * number) :=
  d <- deref (order_items o) ;;
  total <- lift (total_of d) ;;
  ret (process_payment total, total).

(** ** The routes [add_to_cart] and [checkout] *)

(** The Flask session after a login: the keys ['user_id'] and
    ['username']; [None] is a session without them. *)
Record Session : Type := mkSession {
  s_user_id : Z;
  s_username : string
}.

Inductive http_method : Type := GET | POST.

Inductive response : Type :=
  | Redirect (endpoint : string)
  | Render (template : string).

(** The user object that the routes build from the session. *)
Definition session_user (s : Session) : M User :=
  d <- get_db ;;
  match fetch_user (s_username s) d with
  | Some user => User_init (u_id user) (u_username user) (u_password user)
  | None => raise (TypeError "'NoneType' object is not subscriptable")
  end.

(** [add_to_cart] once the quantity is read: [q] is the value of
    [int(request.form['quantity'])]. The reading itself, which fails on a
    text that is no integer, is [py_int] below, and the route on the text
    of the field is [add_to_cart_form]. *)
Definition add_to_cart (session : option Session) (product_name : string)
    (q : Z) : M response :=
  match session with
  | None => ret (Redirect "login")
  | Some s =>
      p <- get_product product_name ;;
      match p with
      | Some prod =>
          _ <- session_user s ;;
          add_item prod q ;;;
          ret (Redirect "view_catalog")
      | None => ret (Redirect "view_catalog")
      end
  end.

(** ** The quantity field of [add_to_cart]

    The field is a [str]. A [string] holds the UTF-8 bytes of a [str], and
    [code_points] gives its characters back. Bytes that are not UTF-8 are
    the text of no [str]; they are read as the character [-1], which is
    neither a digit nor white space. *)

Definition byte_values (text : string) : list Z :=
  map (fun a => Z.of_N (N_of_ascii a)) (list_ascii_of_string text).

Definition continuation (b : Z) : bool := (0x80 <=? b) && (b <? 0xc0).

(** The character of a sequence of two, three or four bytes: each range
    has one encoding only, and the surrogates have none. *)
Definition two_bytes (b c1 : Z) : Z :=
  let c := (b - 0xc0) * 0x40 + (c1 - 0x80) in
  if 0x80 <=? c then c else -1.

Definition three_bytes (b c1 c2 : Z) : Z :=
  let c := (b - 0xe0) * 0x1000 + (c1 - 0x80) * 0x40 + (c2 - 0x80) in
  if (0x800 <=? c) && negb ((0xd800 <=? c) && (c <? 0xe000)) then c else -1.

Definition four_bytes (b c1 c2 c3 : Z) : Z :=
  let c := (b - 0xf0) * 0x40000 + (c1 - 0x80) * 0x1000 + (c2 - 0x80) * 0x40
           + (c3 - 0x80) in
  if (0x10000 <=? c) && (c <? 0x110000) then c else -1.

Fixpoint code_points (bytes : list Z) : list Z :=
  match bytes with
  | [] => []
  | b :: r1 =>
      if b <? 0x80 then b :: code_points r1
      else
        match r1 with
        | [] => [-1]
        | c1 :: r2 =>
            if (0xc0 <=? b) && (b <? 0xe0) && continuation c1
            then two_bytes b c1 :: code_points r2
            else
              match r2 with
              | [] => -1 :: code_points r1
              | c2 :: r3 =>
                  if (0xe0 <=? b) && (b <? 0xf0) && continuation c1
                     && continuation c2
                  then three_bytes b c1 c2 :: code_points r3
                  else
                    match r3 with
                    | [] => -1 :: code_points r1
                    | c3 :: r4 =>
                        if (0xf0 <=? b) && (b <? 0xf8) && continuation c1
                           && continuation c2 && continuation c3
                        then four_bytes b c1 c2 c3 :: code_points r4
                        else -1 :: code_points r1
                    end
              end
        end
  end.

(** The characters that [int] skips before and after the number: those
    of [str.isspace] but for the four separators [0x1c] to [0x1f]. *)
Definition whitespace : list Z :=
  [0x9; 0xa; 0xb; 0xc; 0xd; 0x20; 0x85; 0xa0; 0x1680; 0x2000; 0x2001; 0x2002;
   0x2003; 0x2004; 0x2005; 0x2006; 0x2007; 0x2008; 0x2009; 0x200a; 0x2028;
   0x2029; 0x202f; 0x205f; 0x3000].

Definition is_space (c : Z) : bool := existsb (Z.eqb c) whitespace.

(** The decimal digits ([str.isdecimal], Unicode 14 in Python 3.11): the
    digits zero to nine of a script follow each other, and these are the
    zeros. *)
Definition decimal_zeros : list Z :=
  [0x30; 0x660; 0x6f0; 0x7c0; 0x966; 0x9e6; 0xa66; 0xae6; 0xb66; 0xbe6; 0xc66;
   0xce6; 0xd66; 0xde6; 0xe50; 0xed0; 0xf20; 0x1040; 0x1090; 0x17e0; 0x1810;
   0x1946; 0x19d0; 0x1a80; 0x1a90; 0x1b50; 0x1bb0; 0x1c40; 0x1c50; 0xa620;
   0xa8d0; 0xa900; 0xa9d0; 0xa9f0; 0xaa50; 0xabf0; 0xff10; 0x104a0; 0x10d30;
   0x11066; 0x110f0; 0x11136; 0x111d0; 0x112f0; 0x11450; 0x114d0; 0x11650;
   0x116c0; 0x11730; 0x118e0; 0x11950; 0x11c50; 0x11d50; 0x11da0; 0x16a60;
   0x16ac0; 0x16b50; 0x1d7ce; 0x1d7d8; 0x1d7e2; 0x1d7ec; 0x1d7f6; 0x1e140;
   0x1e2f0; 0x1e950; 0x1fbf0].

Definition decimal_value (c : Z) : option Z :=
  match find (fun z => (z <=? c) && (c <? z + 10)) decimal_zeros with
  | Some z => Some (c - z)
  | None => None
  end.

Definition underscore : Z := 0x5f.

(** The digits of the number, with single underscores between them: the
    value read, the number of digits, and the characters that follow; or
    nothing when an underscore is doubled or comes last. *)
Fixpoint scan_digits (after_underscore : bool) (n digits : Z) (cs : list Z)
    : option (Z * Z * list Z) :=
  match cs with
  | [] => if after_underscore then None else Some (n, digits, [])
  | c :: rest =>
      if c =? underscore then
        if after_underscore then None else scan_digits true n digits rest
      else
        match decimal_value c with
        | Some v => scan_digits false (n * 10 + v) (digits + 1) rest
        | None => if after_underscore then None else Some (n, digits, cs)
        end
  end.

Fixpoint skip_spaces (cs : list Z) : list Z :=
  match cs with
  | c :: rest => if is_space c then skip_spaces rest else cs
  | [] => []
  end.

Section int_of_str.

(** The text as the message of the error shows it: its [repr], cut after
    200 characters. *)
Variable shown : string -> string.

Definition invalid_literal (text : string) : exn :=
  ValueError ("invalid literal for int() with base 10: " +:+ shown text).

Definition too_many_digits (digits : Z) : exn :=
  ValueError ("Exceeds the limit (4300 digits) for integer string conversion: value has "
              +:+ pretty digits +:+
              " digits; use sys.set_int_max_str_digits() to increase the limit").

(** The number after the sign: more than 4300 digits are refused before
    what follows them is looked at. *)
Definition int_digits (text : string) (sign : Z) (body : list Z) : result Z :=
  match body with
  | c :: _ =>
      if c =? underscore then Raise (invalid_literal text)
      else
        match scan_digits false 0 0 body with
        | Some (n, digits, rest) =>
            if digits =? 0 then Raise (invalid_literal text)
            else if 4300 <? digits then Raise (too_many_digits digits)
            else
              match skip_spaces rest with
              | [] => Ok (sign * n)
              | _ :: _ => Raise (invalid_literal text)
              end
        | None => Raise (invalid_literal text)
        end
  | [] => Raise (invalid_literal text)
  end.

(** [int(text)] for a [str]: white space, a sign, decimal digits, white
    space. *)
Definition py_int (text : string) : result Z :=
  let cs := skip_spaces (code_points (byte_values text)) in
  match cs with
  | c :: rest =>
      if c =? 0x2b then int_digits text 1 rest
      else if c =? 0x2d then int_digits text (-1) rest
      else int_digits text 1 cs
  | [] => Raise (invalid_literal text)
  end.

(** [add_to_cart] on the fields of the form: the session is looked at
    first, then the quantity is read. *)
Definition add_to_cart_form (session : option Session)
    (product_name form_quantity : string) : M response :=
  match session with
  | None => ret (Redirect "login")
  | Some _ =>
      quantity <- lift (py_int form_quantity) ;;
      add_to_cart session product_name quantity
  end.

End int_of_str.

(** The ASCII digits, and the number that a run of them writes after the
    digits of [n]. *)
Definition ascii_digit (c : Z) : Prop := 0x30 <= c < 0x3a.

Definition digits_value (ds : list Z) (n : Z) : Z :=
  fold_left (fun a c => a * 10 + (c - 0x30)) ds n.

(** One line of the summary. *)
Definition line_text (item : CartLine) : string :=
  pretty (quantity item) +:+ "x " +:+ name (product item) +:+ " at $" +:+
  float_repr (price (product item)) +:+ " each".

(** The summary text of [checkout]. *)
Definition render_summary (d : items_dict) (total : number) : result string :=
  match format_2f_number total with
  | Ok t =>
      Ok (String.concat newline (map line_text (dict_values d)) +:+
          newline +:+ "Total Amount: $" +:+ t)
  | Raise e => Raise e
  end.

(** The float that [insert_order] stores for the total that [checkout]
    passes to it. A [float] is bound as it is. An [int] (the total of an
    order without lines) is bound as a 64-bit integer, which the [REAL]
    column turns into a float, and is refused when it does not fit. *)
Definition real_argument (t : number) : result float :=
  match t with
  | PyFloat f => Ok f
  | PyInt z =>
      if (- 2 ^ 63 <=? z) && (z <? 2 ^ 63) then float_of_int z
      else Raise (OverflowError "Python int too large to convert to SQLite INTEGER")
  end.

(** [checkout], for any payment gateway in the place of the
    [MockPaymentGateway()] that the route creates. *)
Definition checkout_with (gw : PaymentGateway) (session : option Session)
    (method : http_method) (form_payment_method : string) : M response :=
  match session with
  | None => ret (Redirect "login")
  | Some s =>
      user_obj <- session_user s ;;
      match method with
      | POST =>
          order <- create_order user_obj ;;
          r <- process_order_payment order form_payment_method ;;
          let '(payment_successful, total) := r in
          if (payment_successful : bool) then
            confirm_order user_obj ;;;
            d <- deref (order_items order) ;;
            text <- lift (render_summary d total) ;;
            amount <- lift (real_argument total) ;;
            database <- get_db ;;
            put_db (insert_order (user_id user_obj) amount form_payment_method
                                 text database) ;;;
            ret (Redirect "order_history")
          else ret (Render "checkout.html")
      | GET => ret (Render "checkout.html")
      end
  end.

Definition checkout : option Session -> http_method -> string -> M response :=
  checkout_with MockPaymentGateway.

(** ** Runs of store insertions *)

(** The arguments of one [insert_product] call and of one [insert_order]
    call. *)
Definition product_args : Type := (string * float * string)%type.
Definition order_args : Type := (Z * float * string * string)%type.

Definition insert_products (calls : list product_args) (d : Database) : Database :=
  fold_left (fun d c => let '(n, pr, cat) := c in insert_product n pr cat d)
            calls d.

Definition insert_orders (calls : list order_args) (d : Database) : Database :=
  fold_left (fun d c => let '(uid, t, m, s) := c in insert_order uid t m s d)
            calls d.

(** The records that a run of [insert_order] calls, made when the last
    rowid used was [last], adds for the user [uid]: in call order. *)
Fixpoint inserted_for (uid : Z) (last : Z) (calls : list order_args)
    : list OrderData :=
  match calls with
  | [] => []
  | (u, t, m, s) :: calls' =>
      (if Z.eqb u uid then [mkOrderData (last + 1) (stored_real t) m s] else [])
      ++ inserted_for uid (last + 1) calls'
  end.

(** ** Runs of cart operations *)

Inductive cart_op : Type :=
  | AddItem (p : Product) (q : Z)
  | RemoveItem (p : Product)
  | Clear.

Definition run_op (o : cart_op) : M unit :=
  match o with
  | AddItem p q => add_item p q
  | RemoveItem p => remove_item p
  | Clear => clear
  end.

Fixpoint run_ops (os : list cart_op) : M unit :=
  match os with
  | [] => ret tt
  | o :: os' => run_op o ;;; run_ops os'
  end.

Definition is_clear (o : cart_op) : bool :=
  match o with Clear => true | _ => false end.

(** The calls [add_item(p, q)] for the pairs of a list. *)
Definition add_calls (calls : list (Product * Z)) : list cart_op :=
  map (fun c => AddItem (fst c) (snd c)) calls.

(** What one operation does to the lines of the cart. *)
Definition op_lines (o : cart_op) (d : items_dict) : items_dict :=
  match o with
  | AddItem p q => add_item_dict p q d
  | RemoveItem p => remove_item_dict p d
  | Clear => []
  end.

Definition sum_quantities (calls : list (Product * Z)) : Z :=
  fold_right Z.add 0 (map snd calls).

(** The operations of a run that come before its first [clear]. *)
Fixpoint until_clear (os : list cart_op) : list cart_op :=
  match os with
  | [] => []
  | Clear :: _ => []
  | o :: os' => o :: until_clear os'
  end.

(** The lines after a run of operations on the lines [d]. *)
Definition run_lines (os : list cart_op) (d : items_dict) : items_dict :=
  fold_left (fun d o => op_lines o d) os d.

(** The lines that the cart holds: the dictionary its [items] refers to. *)
Definition cart_lines (w : World) : option items_dict :=
  match Cart_instance w with
  | Some c => heap w !! items c
  | None => None
  end.

(** The lines that an order holds. *)
Definition order_lines (o : Order) (w : World) : option items_dict :=
  heap w !! order_items o.

Definition positive_lines (d : items_dict) : Prop :=
  Forall (fun l => 0 < quantity l) (dict_values d).

Definition positive_adds (os : list cart_op) : Prop :=
  Forall (fun o => match o with AddItem _ q => 0 < q | _ => True end) os.

(** The reading of an order as a copy of the cart: whatever [add_item] and
    [remove_item] calls come between [create_order] and the payment, the
    total is the one of the lines the cart held at [create_order]. *)
Definition total_is_of_creation_time : Prop :=
  forall (gw : PaymentGateway) (w w1 w2 w3 : World) (u : User) (o : Order)
         (os : list cart_op) (d : items_dict) (m : string) (b : bool)
         (t : number),
    cart_lines w = Some d ->
    create_order u w = Ok (o, w1) ->
    forallb (fun x => negb (is_clear x)) os = true ->
    run_ops os w1 = Ok (tt, w2) ->
    process_order_payment o m w2 = Ok ((b, t), w3) ->
    total_of d = Ok t.

(** ** Users of a name, text search, the scenario of the specification *)

Definition user_exists (u : string) (d : Database) : Prop :=
  exists r, r ∈ users d /\ u_username r = u.

Definition users_named (u : string) (d : Database) : list UserRow :=
  filter (fun r => String.eqb (u_username r) u = true) (users d).



(** The text that [checkout] stores for the lines [d] and the total [f]. *)
Definition summary_text (d : items_dict) (f : float) : string :=
  String.concat newline (map line_text (dict_values d)) +:+
  newline +:+ "Total Amount: $" +:+ format_2f f.


(** A gateway that declines every payment. *)
Definition DecliningGateway : PaymentGateway :=
  {| process_payment := fun _ => false |}.

(** The reading of the stored total as the paid total: after every
    approved checkout the new order record holds, in [total_amount], the
    very number that [process_order_payment] returned. *)
Definition stored_total_is_paid_total : Prop :=
  forall (gw : PaymentGateway) (s : Session) (pm : string) (w w1 w2 : World)
         (r : UserRow) (o : Order) (t : number),
    fetch_user (s_username s) (db w) = Some r ->
    create_order (mkUser (u_id r) (u_username r) (u_password r)) w = Ok (o, w1) ->
    process_order_payment o pm w1 = Ok ((true, t), w2) ->
    exists w' row,
      checkout_with gw (Some s) POST pm w = Ok (Redirect "order_history", w') /\
      cart_lines w' = Some [] /\
      orders (db w') = orders (db w) ++ [row] /\
      PyFloat <$> total_amount row = Some t.

(** ** Sample data *)

Definition laptop : Product := mkProduct "Laptop" 1200%float "Electronics".
Definition shirt : Product := mkProduct "Shirt" 30%float "Clothing".

(** An empty store, no dictionary and no cart yet: a fresh process on a
    fresh database file. *)
Definition fresh_world : World :=
  mkWorld (mkDatabase [] [] [] 0 0 0) [] None.

(** The world once the singleton exists, with an empty cart. *)
Definition empty_cart_world : World :=
  mkWorld (mkDatabase [] [] [] 0 0 0) [[]] (Some (mkCart 0%nat)).

(** A world whose cart holds two laptops. *)
Definition laptops_world : World :=
  mkWorld (mkDatabase [] [mkUserRow 1 "alice" "pw1"] [] 0 1 0)
          [[("Laptop", mkLine laptop 2)]] (Some (mkCart 0%nat)).

(** ** The other routes

    The routes answer with a [response] and, where they write the Flask
    session, with the session they leave; a page that is rendered with data
    answers with that data too. Flashed messages and the log are left
    out. *)

(** [try: body except ValueError: handler]. The two bodies it is used for,
    [register_user] and [login], raise their [ValueError] before they write
    anything, so the handler goes on in the world of the call. *)
Definition try_except_ValueError {A : Type} (body handler : M A) : M A :=
  fun w =>
    match body w with
    | Raise (ValueError _) => handler w
    | r => r
    end.

Definition home : M response := ret (Render "home.html").

(** The route [register]. *)
Definition register (method : http_method) (form_username form_password : string)
    (session : option Session) : M (response * option Session) :=
  match method with
  | POST =>
      try_except_ValueError
        (user <- register_user form_username form_password ;;
         ret (Redirect "home",
              Some (mkSession (user_id user) (username user))))
        (ret (Render "register.html", session))
  | GET => ret (Render "register.html", session)
  end.

(** The route [login] (the name [login] is the method of [AuthService]). *)
Definition login_route (method : http_method)
    (form_username form_password : string) (session : option Session)
    : M (response * option Session) :=
  match method with
  | POST =>
      try_except_ValueError
        (user <- login form_username form_password ;;
         ret (Redirect "home",
              Some (mkSession (user_id user) (username user))))
        (ret (Render "login.html", session))
  | GET => ret (Render "login.html", session)
  end.

(** The route [logout]: [session.clear()]. *)
Definition logout (session : option Session) : M (response * option Session) :=
  ret (Redirect "home", None).

(** The route [view_catalog], with the products given to the page. *)
Definition view_catalog : M (response * list Product) :=
  ps <- list_products ;; ret (Render "catalog.html", ps).

(** The route [view_cart], with the lines given to the page. *)
Definition view_cart (session : option Session) : M (response * items_dict) :=
  match session with
  | None => ret (Redirect "login", [])
  | Some s =>
      _ <- session_user s ;;
      l <- get_items ;;
      cart_items <- deref l ;;
      ret (Render "cart.html", cart_items)
  end.

(** The route [order_history], with the orders given to the page. *)
Definition order_history (session : option Session)
    : M (response * list OrderData) :=
  match session with
  | None => ret (Redirect "login", [])
  | Some s =>
      d <- get_db ;;
      match fetch_user (s_username s) d with
      | Some user => ret (Render "orders.html", fetch_orders_by_user_id (u_id user) d)
      | None => raise (TypeError "'NoneType' object is not subscriptable")
      end
  end.

(** ** Requests

    The requests that the application routes, each with the form fields its
    route reads, and the answer of the application to a request that comes
    with a session. The quantity of [ReqAddToCart] is the integer that
    [int] read from the field: a request whose quantity [int] refuses is
    not among these, and [add_to_cart_form] says how it ends. *)

Inductive request : Type :=
  | ReqHome
  | ReqRegister (method : http_method) (form_username form_password : string)
  | ReqLogin (method : http_method) (form_username form_password : string)
  | ReqLogout
  | ReqCatalog
  | ReqAddToCart (product_name : string) (q : Z)
  | ReqCart
  | ReqCheckout (method : http_method) (form_payment_method : string)
  | ReqOrders.

Definition serve (rq : request) (session : option Session)
    : M (response * option Session) :=
  match rq with
  | ReqHome => r <- home ;; ret (r, session)
  | ReqRegister m u pw => register m u pw session
  | ReqLogin m u pw => login_route m u pw session
  | ReqLogout => logout session
  | ReqCatalog => r <- view_catalog ;; ret (fst r, session)
  | ReqAddToCart n q => r <- add_to_cart session n q ;; ret (r, session)
  | ReqCart => r <- view_cart session ;; ret (fst r, session)
  | ReqCheckout m pm => r <- checkout session m pm ;; ret (r, session)
  | ReqOrders => r <- order_history session ;; ret (fst r, session)
  end.

(** ** Well-formed stores, heaps and sessions *)

(** Keys in rowid order: increasing, none above the last rowid used. *)
Definition ids_ok (ids : list Z) (last : Z) : Prop :=
  StronglySorted Z.lt ids /\ Forall (fun i => i <= last) ids.

Definition store_ok (d : Database) : Prop :=
  NoDup (map u_username (users d)) /\
  ids_ok (map u_id (users d)) (seq_users d) /\
  ids_ok (map order_id (orders d)) (seq_orders d) /\
  ids_ok (map p_id (products d)) (seq_products d) /\
  Forall (fun o => o_user_id o ∈ map u_id (users d)) (orders d).

(** The cart, once there is one, refers to a dictionary of the heap, and
    no dictionary has a key twice. *)
Definition heap_ok (w : World) : Prop :=
  (forall c, Cart_instance w = Some c -> (items c < length (heap w))%nat) /\
  Forall (fun d : items_dict => NoDup (dict_keys d)) (heap w).

(** A session is that of a stored user. *)
Definition session_ok (d : Database) (session : option Session) : Prop :=
  match session with
  | None => True
  | Some s =>
      exists r, fetch_user (s_username s) d = Some r /\ u_id r = s_user_id s
  end.

(** The exceptions that a request can end with. *)
Definition request_error (e : exn) : Prop :=
  e = ValueError "Cart is empty." \/ exists msg, e = OverflowError msg.

(** The world once some [User] object was built: the singleton is there,
    with an empty cart if it had to be created. *)
Definition ensure_cart (w : World) : World :=
  match Cart_instance w with
  | Some _ => w
  | None => mkWorld (db w) (heap w ++ [[]]) (Some (mkCart (length (heap w))))
  end.

(** The store after a row for [u] with the password [pw] was added. *)
Definition with_user (u pw : string) (d : Database) : Database :=
  mkDatabase (products d) (users d ++ [mkUserRow (seq_users d + 1) u pw])
             (orders d) (seq_products d) (seq_users d + 1) (seq_orders d).

(** ** Runs of requests

    Several clients, each with its own session cookie, send requests one
    after the other; [serve_all] answers them in turn and keeps the session
    of each client. *)

Definition clients : Type := nat -> option Session.

Definition set_session (c : nat) (s : option Session) (ss : clients) : clients :=
  fun c' => if Nat.eqb c' c then s else ss c'.

Fixpoint serve_all (rqs : list (nat * request)) (ss : clients) : M clients :=
  match rqs with
  | [] => ret ss
  | (c, rq) :: rest =>
      r <- serve rq (ss c) ;;
      serve_all rest (set_session c (snd r) ss)
  end.

(** The arguments of the insertions that seeding makes, in their order. *)
Definition seed_args : list product_args :=
  flat_map (fun entry : string * list (string * float) =>
              map (fun np : string * float => (fst np, snd np, fst entry))
                  (snd entry))
           categories.

(** The product that an insertion stores. *)
Definition args_product (c : product_args) : Product :=
  mkProduct (fst (fst c)) (snd (fst c)) (snd c).

(** The world in which the stored total is not the paid total: a fresh
    process on a fresh database, seeded at start-up, then three requests
    of one client, who registers as alice and puts [10^306] laptops and
    [-10^307] shirts into the cart. The two amounts are [inf] and [-inf]. *)
Definition overflow_requests : list (nat * request) :=
  [(0%nat, ReqRegister POST "alice" "pw1");
   (0%nat, ReqAddToCart "Laptop" (10 ^ 306));
   (0%nat, ReqAddToCart "Shirt" (- 10 ^ 307))].

Definition overflow_world : World :=
  match (seed_catalog ;;; serve_all overflow_requests (fun _ => None))
          fresh_world with
  | Ok (_, w) => w
  | Raise _ => fresh_world
  end.

(** * Properties *)

(** ** The store *)

Lemma fetch_orders_insert_order (uid u : Z) (t : float) (m s : string)
    (d : Database) :
  fetch_orders_by_user_id uid (insert_order u t m s d) =
  fetch_orders_by_user_id uid d ++
  (if Z.eqb u uid then [mkOrderData (seq_orders d + 1) (stored_real t) m s]
   else []).
Proof.
  unfold fetch_orders_by_user_id, insert_order; simpl.
  rewrite filter_app, map_app. f_equal.
  rewrite filter_cons, filter_nil; simpl.
  destruct (Z.eqb u uid) eqn:E; case_decide; simpl in *;
    first [reflexivity | congruence].
Qed.

(** C9. [fetch_orders_by_user_id uid] returns exactly the order records of
    the user [uid], in insertion order with the oldest first: whatever the
    store holds, after any run of [insert_order] calls the result is the
    earlier result followed by the records inserted for [uid], in the
    order of the calls, and it is empty on an empty [orders] table. *)
Theorem fetch_orders_by_user_id_insertion_order (uid : Z) :
  (forall d : Database, orders d = [] -> fetch_orders_by_user_id uid d = []) /\
  (forall (calls : list order_args) (d : Database),
     fetch_orders_by_user_id uid (insert_orders calls d) =
     fetch_orders_by_user_id uid d ++ inserted_for uid (seq_orders d) calls).
Proof.
  split.
  - intros d H. unfold fetch_orders_by_user_id. now rewrite H.
  - induction calls as [|[[[u t] m] s] calls IH]; intros d; simpl.
    + now rewrite app_nil_r.
    + unfold insert_orders in *; simpl. rewrite IH.
      rewrite fetch_orders_insert_order. simpl. now rewrite <- app_assoc.
Qed.

Lemma fetch_product_insert_product (n n' : string) (pr : float) (c : string)
    (d : Database) (p : Product) :
  fetch_product_by_name n d = Some p ->
  fetch_product_by_name n (insert_product n' pr c d) = Some p.
Proof.
  unfold fetch_product_by_name, insert_product; simpl.
  rewrite filter_app.
  destruct (filter _ (products d)) as [|r rs]; [discriminate|]. now simpl.
Qed.

Lemma fetch_product_insert_first (n : string) (pr : float) (c : string)
    (d : Database) :
  fetch_product_by_name n d = None ->
  fetch_product_by_name n (insert_product n pr c d) = Some (mkProduct n pr c).
Proof.
  unfold fetch_product_by_name, insert_product; simpl.
  rewrite filter_app.
  destruct (filter _ (products d)) as [|r rs]; [|discriminate]. intros _.
  rewrite filter_cons; simpl. rewrite String.eqb_refl.
  case_decide; [reflexivity|congruence].
Qed.

(** C10. With several products of one name in the store,
    [fetch_product_by_name] returns the one inserted first: once a product
    named [n] is inserted into a store that has none, every later run of
    insertions, of that name or of others, leaves the answer for [n] at
    that first product. *)
Theorem fetch_product_by_name_earliest (n : string) (pr : float) (c : string)
    (later : list product_args) (d : Database) :
  fetch_product_by_name n d = None ->
  fetch_product_by_name n (insert_products later (insert_product n pr c d))
  = Some (mkProduct n pr c).
Proof.
  intros H. apply (fetch_product_insert_first n pr c) in H.
  revert H. generalize (insert_product n pr c d). clear d.
  induction later as [|[[n' pr'] c'] later IH]; intros d H; simpl; [exact H|].
  apply IH. now apply fetch_product_insert_product.
Qed.

Lemma fetch_product_by_name_earliest_witness :
  fetch_product_by_name "Laptop"
    (insert_products [("Shirt", 30%float, "Clothing");
                      ("Laptop", 999%float, "Refurbished")]
       (insert_product "Laptop" 1200%float "Electronics"
          (mkDatabase [] [] [] 0 0 0)))
  = Some (mkProduct "Laptop" 1200%float "Electronics").
Proof.
  apply (fetch_product_by_name_earliest "Laptop" 1200%float "Electronics"
           [("Shirt", 30%float, "Clothing");
            ("Laptop", 999%float, "Refurbished")]
           (mkDatabase [] [] [] 0 0 0)).
  reflexivity.
Defined.

(** ** Dictionaries *)

Section dict_facts.
Context {V : Type}.
Implicit Types (d : dict V) (k : string) (v : V).

Lemma dict_get_None_keys k d : dict_get k d = None <-> k ∉ dict_keys d.
Proof.
  induction d as [|[k' v'] d IH]; simpl.
  - split; [intros _; apply not_elem_of_nil | reflexivity].
  - destruct (String.eqb_spec k k') as [->|Hne].
    + split; [discriminate|]. intros H. exfalso. apply H. left.
    + rewrite IH. rewrite not_elem_of_cons. tauto.
Qed.

Lemma dict_get_setitem_eq k v d : dict_get k (dict_setitem k v d) = Some v.
Proof.
  induction d as [|[k' v'] d IH]; simpl.
  - now rewrite String.eqb_refl.
  - destruct (String.eqb k k') eqn:E; simpl.
    + now rewrite String.eqb_refl.
    + now rewrite E.
Qed.

Lemma dict_get_setitem_ne k k' v d :
  k <> k' -> dict_get k' (dict_setitem k v d) = dict_get k' d.
Proof.
  intros Hne. induction d as [|[k0 v0] d IH]; simpl.
  - destruct (String.eqb_spec k' k); congruence.
  - destruct (String.eqb_spec k k0) as [->|Hk]; simpl.
    + destruct (String.eqb_spec k' k0); congruence.
    + destruct (String.eqb_spec k' k0); congruence.
Qed.

Lemma dict_keys_setitem_present k v d :
  k ∈ dict_keys d -> dict_keys (dict_setitem k v d) = dict_keys d.
Proof.
  induction d as [|[k' v'] d IH]; simpl; intros H.
  - now apply elem_of_nil in H.
  - destruct (String.eqb_spec k k') as [->|Hne]; simpl; [reflexivity|].
    f_equal. apply IH. apply elem_of_cons in H. tauto.
Qed.

Lemma dict_keys_setitem_absent k v d :
  k ∉ dict_keys d -> dict_keys (dict_setitem k v d) = dict_keys d ++ [k].
Proof.
  induction d as [|[k' v'] d IH]; simpl; intros H; [reflexivity|].
  apply not_elem_of_cons in H as [Hne H].
  destruct (String.eqb_spec k k'); [congruence|]. simpl. f_equal. now apply IH.
Qed.

Lemma dict_setitem_NoDup k v d :
  NoDup (dict_keys d) -> NoDup (dict_keys (dict_setitem k v d)).
Proof.
  intros Hd. destruct (decide (k ∈ dict_keys d)) as [Hin|Hin].
  - now rewrite dict_keys_setitem_present.
  - rewrite dict_keys_setitem_absent by assumption.
    apply NoDup_app. split; [assumption|]. split.
    + intros x Hx Hx'. apply list_elem_of_singleton in Hx'. now subst.
    + apply NoDup_singleton.
Qed.

Lemma dict_keys_delitem k d :
  dict_keys (dict_delitem k d) = filter (fun k' => k' <> k) (dict_keys d).
Proof.
  induction d as [|[k' v'] d IH]; simpl; [reflexivity|].
  rewrite filter_cons. simpl.
  destruct (String.eqb_spec k k') as [->|Hne]; case_decide; simpl;
    congruence.
Qed.

Lemma dict_delitem_NoDup k d :
  NoDup (dict_keys d) -> NoDup (dict_keys (dict_delitem k d)).
Proof. intros H. rewrite dict_keys_delitem. now apply NoDup_filter. Qed.

Lemma dict_values_delitem_sub k d x :
  x ∈ dict_values (dict_delitem k d) -> x ∈ dict_values d.
Proof.
  induction d as [|[k' v'] d IH]; simpl; [trivial|].
  destruct (String.eqb k k'); simpl; rewrite ?elem_of_cons; intuition.
Qed.

Lemma dict_values_setitem k v d x :
  x ∈ dict_values (dict_setitem k v d) -> x = v \/ x ∈ dict_values d.
Proof.
  induction d as [|[k' v'] d IH]; simpl.
  - rewrite list_elem_of_singleton. tauto.
  - destruct (String.eqb k k'); simpl; rewrite !elem_of_cons; intuition.
Qed.

Lemma dict_get_values k v d : dict_get k d = Some v -> v ∈ dict_values d.
Proof.
  induction d as [|[k' v'] d IH]; simpl; [discriminate|].
  destruct (String.eqb k k').
  - intros [= ->]. left.
  - intros H. right. now apply IH.
Qed.

Lemma dict_count_absent k d : k ∉ dict_keys d -> dict_count k d = 0%nat.
Proof.
  unfold dict_count. induction d as [|[k' v'] d IH]; intros H;
    [reflexivity|].
  simpl in H. apply not_elem_of_cons in H as [Hne H].
  rewrite filter_cons; simpl.
  destruct (String.eqb_spec k k'); [congruence|].
  case_decide; [discriminate|]. now apply IH.
Qed.

Lemma dict_count_present k d :
  NoDup (dict_keys d) -> k ∈ dict_keys d -> dict_count k d = 1%nat.
Proof.
  unfold dict_count. induction d as [|[k' v'] d IH]; intros Hd Hin.
  - now apply elem_of_nil in Hin.
  - simpl in Hd, Hin.
    apply NoDup_cons in Hd as [Hk' Hd]. rewrite filter_cons; simpl.
    destruct (String.eqb_spec k k') as [->|Hne]; case_decide; try congruence.
    + simpl. f_equal. now apply (dict_count_absent k' d).
    + apply IH; [assumption|]. apply elem_of_cons in Hin. tauto.
Qed.
End dict_facts.

(** ** The cart *)

Lemma cart_lines_Some (w : World) (d : items_dict) :
  cart_lines w = Some d ->
  exists c, Cart_instance w = Some c /\ heap w !! items c = Some d.
Proof.
  unfold cart_lines. destruct (Cart_instance w) as [c|]; [|discriminate].
  intros H. now exists c.
Qed.

Lemma the_cart_spec (w : World) (c : Cart) :
  Cart_instance w = Some c -> the_cart w = Ok (c, w).
Proof.
  intros Hc. unfold the_cart, bind, get_Cart_instance, ret. now rewrite Hc.
Qed.

Lemma update_cart_spec (f : items_dict -> items_dict) (w : World)
    (d : items_dict) :
  cart_lines w = Some d ->
  exists w', (c <- the_cart ;; update (items c) f) w = Ok (tt, w') /\
             cart_lines w' = Some (f d) /\ db w' = db w /\
             Cart_instance w' = Cart_instance w /\
             length (heap w') = length (heap w) /\
             (forall l, Some (mkCart l) <> Cart_instance w ->
                        heap w' !! l = heap w !! l).
Proof.
  intros H. destruct (cart_lines_Some w d H) as (c & Hc & Hd).
  unfold bind at 1. rewrite (the_cart_spec w c Hc). unfold update. rewrite Hd.
  eexists. split; [reflexivity|]. unfold cart_lines; simpl. rewrite Hc.
  repeat split.
  - apply list_lookup_insert_eq. eapply lookup_lt_Some, Hd.
  - apply length_insert.
  - intros l Hl. apply list_lookup_insert_ne. intros E. apply Hl.
    destruct c; simpl in E. congruence.
Qed.

Lemma clear_spec (w : World) (d : items_dict) :
  cart_lines w = Some d ->
  exists w', clear w = Ok (tt, w') /\ cart_lines w' = Some [] /\
             db w' = db w /\ heap w' = heap w ++ [[]] /\
             Cart_instance w' = Some (mkCart (length (heap w))).
Proof.
  intros H. destruct (cart_lines_Some w d H) as (c & Hc & Hd).
  unfold clear. unfold bind at 1. rewrite (the_cart_spec w c Hc).
  eexists. split; [reflexivity|].
  unfold cart_lines; simpl. repeat split.
  rewrite lookup_app_r by lia. now rewrite Nat.sub_diag.
Qed.

Lemma run_op_spec (o : cart_op) (w : World) (d : items_dict) :
  cart_lines w = Some d ->
  exists w', run_op o w = Ok (tt, w') /\ cart_lines w' = Some (op_lines o d) /\
             db w' = db w.
Proof.
  intros H. destruct o as [p q|p|]; simpl.
  - destruct (update_cart_spec (add_item_dict p q) w d H) as (w' & ? & ? & ? & _).
    now exists w'.
  - destruct (update_cart_spec (remove_item_dict p) w d H) as (w' & ? & ? & ? & _).
    now exists w'.
  - destruct (clear_spec w d H) as (w' & ? & ? & ? & _). now exists w'.
Qed.

Lemma run_ops_spec (os : list cart_op) (w : World) (d : items_dict) :
  cart_lines w = Some d ->
  exists w', run_ops os w = Ok (tt, w') /\
             cart_lines w' = Some (run_lines os d) /\
             db w' = db w.
Proof.
  revert w d. induction os as [|o os IH]; intros w d H; simpl.
  - now exists w.
  - destruct (run_op_spec o w d H) as (w1 & Hrun & Hl & Hdb).
    destruct (IH w1 _ Hl) as (w2 & Hrun2 & Hl2 & Hdb2).
    exists w2. unfold bind. rewrite Hrun. split; [exact Hrun2|].
    split; [exact Hl2|congruence].
Qed.

Lemma add_item_dict_get (p : Product) (q : Z) (d : items_dict) :
  dict_get (name p) (add_item_dict p q d) =
  Some (match dict_get (name p) d with
        | Some l => mkLine (product l) (quantity l + q)
        | None => mkLine p q
        end).
Proof.
  unfold add_item_dict. destruct (dict_get (name p) d);
    apply dict_get_setitem_eq.
Qed.

Lemma add_item_dict_NoDup (p : Product) (q : Z) (d : items_dict) :
  NoDup (dict_keys d) -> NoDup (dict_keys (add_item_dict p q d)).
Proof.
  unfold add_item_dict. destruct (dict_get (name p) d);
    apply dict_setitem_NoDup.
Qed.

Lemma remove_item_dict_NoDup (p : Product) (d : items_dict) :
  NoDup (dict_keys d) -> NoDup (dict_keys (remove_item_dict p d)).
Proof.
  unfold remove_item_dict. destruct (dict_contains (name p) d); [|trivial].
  apply dict_delitem_NoDup.
Qed.

Lemma op_lines_NoDup (o : cart_op) (d : items_dict) :
  NoDup (dict_keys d) -> NoDup (dict_keys (op_lines o d)).
Proof.
  destruct o; simpl.
  - apply add_item_dict_NoDup.
  - apply remove_item_dict_NoDup.
  - intros _. apply NoDup_nil_2.
Qed.

(** A dictionary keeps its keys apart under every run of operations. *)
Lemma run_lines_NoDup (os : list cart_op) (d : items_dict) :
  NoDup (dict_keys d) ->
  NoDup (dict_keys (run_lines os d)).
Proof.
  revert d. induction os as [|o os IH]; intros d H; simpl; [exact H|].
  apply IH. now apply op_lines_NoDup.
Qed.

(** Adding to a line that exists: the line keeps its product and gains
    the quantities. *)
Lemma add_calls_present (n : string) (calls : list (Product * Z))
    (d : items_dict) (l : CartLine) :
  Forall (fun c => name (fst c) = n) calls ->
  dict_get n d = Some l ->
  dict_get n (run_lines (add_calls calls) d) =
  Some (mkLine (product l) (quantity l + sum_quantities calls)).
Proof.
  revert d l. induction calls as [|[p q] calls IH]; intros d l Hn Hl; simpl.
  - unfold sum_quantities; simpl. rewrite Z.add_0_r. now destruct l.
  - apply Forall_cons in Hn as [Hp Hn]. simpl in Hp. subst n.
    erewrite IH; [|exact Hn|].
    2:{ rewrite add_item_dict_get, Hl. reflexivity. }
    simpl. unfold sum_quantities; simpl. f_equal. f_equal. lia.
Qed.

Lemma add_item_dict_positive (p : Product) (q : Z) (d : items_dict) :
  0 < q -> positive_lines d -> positive_lines (add_item_dict p q d).
Proof.
  unfold positive_lines. rewrite !Forall_forall. intros Hq Hd x Hx.
  unfold add_item_dict in Hx.
  destruct (dict_get (name p) d) as [l|] eqn:E;
    apply dict_values_setitem in Hx as [->|Hx]; simpl; auto.
  apply dict_get_values, Hd in E. lia.
Qed.

Lemma remove_item_dict_positive (p : Product) (d : items_dict) :
  positive_lines d -> positive_lines (remove_item_dict p d).
Proof.
  unfold positive_lines, remove_item_dict. rewrite !Forall_forall.
  intros Hd x Hx. destruct (dict_contains (name p) d); auto.
  eapply Hd, dict_values_delitem_sub, Hx.
Qed.

Lemma op_lines_positive (o : cart_op) (d : items_dict) :
  match o with AddItem _ q => 0 < q | _ => True end ->
  positive_lines d -> positive_lines (op_lines o d).
Proof.
  destruct o as [p q|p|]; simpl; intros Ho Hd.
  - now apply add_item_dict_positive.
  - now apply remove_item_dict_positive.
  - apply Forall_nil_2.
Qed.

(** C2. After any run of cart operations ([add_item], [remove_item],
    [clear]) in which every [add_item] is given a positive quantity, on a
    cart whose lines are positive (an empty one in particular), the run
    completes and every line of the cart has a strictly positive
    quantity. *)
Theorem cart_quantities_stay_positive (os : list cart_op) (w : World)
    (d : items_dict) :
  cart_lines w = Some d ->
  positive_lines d ->
  positive_adds os ->
  exists w' d',
    run_ops os w = Ok (tt, w') /\ cart_lines w' = Some d' /\ positive_lines d'.
Proof.
  intros Hw Hd Hos.
  destruct (run_ops_spec os w d Hw) as (w' & Hrun & Hl & _).
  exists w', (run_lines os d).
  split; [exact Hrun|]. split; [exact Hl|].
  clear Hw Hrun Hl w w'. revert d Hd.
  induction Hos as [|o os Ho Hos IH]; intros d Hd; simpl; [exact Hd|].
  apply IH. now apply op_lines_positive.
Qed.

Lemma cart_quantities_stay_positive_witness :
  exists w' d',
    run_ops [AddItem laptop 2; AddItem laptop 3; RemoveItem shirt;
             AddItem shirt 1; Clear; AddItem shirt 4] empty_cart_world
    = Ok (tt, w') /\
    cart_lines w' = Some d' /\ positive_lines d'.
Proof.
  apply (cart_quantities_stay_positive
           [AddItem laptop 2; AddItem laptop 3; RemoveItem shirt;
            AddItem shirt 1; Clear; AddItem shirt 4] empty_cart_world []).
  - reflexivity.
  - apply Forall_nil_2.
  - unfold positive_adds. repeat constructor.
Defined.

(** [add_item] itself does not look at the sign of the quantity: what it
    is given is what the line holds. *)
Remark add_item_keeps_given_quantity (p : Product) (q : Z) :
  exists w',
    add_item p q empty_cart_world = Ok (tt, w') /\
    cart_lines w' = Some [(name p, mkLine p q)].
Proof. eexists. split; reflexivity. Qed.

(** C6. A run of one or more [add_item] calls that all name the same
    product, on a cart without a line of that name, leaves exactly one
    line of that name, and its quantity is the sum of the quantities of
    the calls. *)
Theorem add_item_same_product_sums (n : string) (calls : list (Product * Z))
    (w : World) (d : items_dict) :
  cart_lines w = Some d ->
  NoDup (dict_keys d) ->
  dict_get n d = None ->
  calls <> [] ->
  Forall (fun c => name (fst c) = n) calls ->
  exists w' d' l,
    run_ops (add_calls calls) w = Ok (tt, w') /\
    cart_lines w' = Some d' /\
    dict_count n d' = 1%nat /\
    dict_get n d' = Some l /\
    quantity l = sum_quantities calls.
Proof.
  intros Hw Hd Hn Hne Hall.
  destruct (run_ops_spec (add_calls calls) w d Hw) as (w' & Hrun & Hl & _).
  destruct calls as [|[p q] calls]; [congruence|]. clear Hne.
  apply Forall_cons in Hall as [Hp Hall]. simpl in Hp.
  assert (Hget : dict_get n (run_lines (add_calls ((p, q) :: calls)) d)
                 = Some (mkLine p (q + sum_quantities calls))).
  { simpl. rewrite (add_calls_present n calls _ (mkLine p q) Hall);
      [reflexivity|].
    subst n. rewrite add_item_dict_get, Hn. reflexivity. }
  eexists w', _, _. split; [exact Hrun|]. split; [exact Hl|].
  split; [|split; [exact Hget|reflexivity]].
  apply dict_count_present.
  - now apply run_lines_NoDup.
  - destruct (decide (n ∈ dict_keys (run_lines (add_calls ((p, q) :: calls)) d)))
      as [Hin|Hin]; [exact Hin|].
    apply dict_get_None_keys in Hin. congruence.
Qed.

Lemma add_item_same_product_sums_witness :
  exists w' d' l,
    run_ops (add_calls [(laptop, 2); (laptop, 3); (laptop, 1)])
            empty_cart_world = Ok (tt, w') /\
    cart_lines w' = Some d' /\
    dict_count "Laptop" d' = 1%nat /\
    dict_get "Laptop" d' = Some l /\
    quantity l = sum_quantities [(laptop, 2); (laptop, 3); (laptop, 1)].
Proof.
  apply (add_item_same_product_sums "Laptop"
           [(laptop, 2); (laptop, 3); (laptop, 1)] empty_cart_world []).
  - reflexivity.
  - apply NoDup_nil_2.
  - reflexivity.
  - discriminate.
  - repeat constructor.
Defined.

(** The same on a cart that holds the product already: the quantities
    are added to the one the line had. *)
Lemma add_item_same_product_adds (n : string) (calls : list (Product * Z))
    (w : World) (d : items_dict) (l0 : CartLine) :
  cart_lines w = Some d ->
  dict_get n d = Some l0 ->
  Forall (fun c => name (fst c) = n) calls ->
  exists w' d',
    run_ops (add_calls calls) w = Ok (tt, w') /\
    cart_lines w' = Some d' /\
    dict_get n d' = Some (mkLine (product l0) (quantity l0 + sum_quantities calls)).
Proof.
  intros Hw Hn Hall.
  destruct (run_ops_spec (add_calls calls) w d Hw) as (w' & Hrun & Hl & _).
  eexists w', _. split; [exact Hrun|]. split; [exact Hl|].
  now apply add_calls_present.
Qed.

(** ** Orders *)

Lemma create_order_spec (u : User) (w : World) (c : Cart) (d : items_dict) :
  Cart_instance w = Some c ->
  heap w !! items c = Some d ->
  create_order u w =
  match d with
  | [] => Raise (ValueError "Cart is empty.")
  | _ :: _ => Ok (mkOrder u (items c), w)
  end.
Proof.
  intros Hc Hd.
  assert (Hget : get_items w = Ok (items c, w)).
  { unfold get_items, bind. now rewrite (the_cart_spec w c Hc). }
  unfold create_order, Order_init. unfold bind at 1. rewrite Hget.
  unfold bind at 1. unfold deref. rewrite Hd.
  destruct d; simpl; [reflexivity|]. unfold bind. now rewrite Hget.
Qed.

(** C3. [create_order] on an empty cart raises the error
    [ValueError("Cart is empty.")], the code's empty-cart error; on a cart
    with lines it returns an order without changing anything, and the lines
    of the order are the lines of the cart at the call. *)
Theorem create_order_empty_or_lines (u : User) (w : World) (d : items_dict) :
  cart_lines w = Some d ->
  (d = [] -> create_order u w = Raise (ValueError "Cart is empty.")) /\
  (d <> [] ->
   exists o, create_order u w = Ok (o, w) /\ order_user o = u /\
             order_lines o w = Some d).
Proof.
  intros H. destruct (cart_lines_Some w d H) as (c & Hc & Hd).
  rewrite (create_order_spec u w c d Hc Hd). split.
  - now intros ->.
  - intros Hne. destruct d as [|x d]; [congruence|].
    exists (mkOrder u (items c)). repeat split. exact Hd.
Qed.

Lemma create_order_empty_or_lines_witness :
  ([("Laptop", mkLine laptop 2)] = [] ->
   create_order (mkUser 1 "alice" "pw1") laptops_world
   = Raise (ValueError "Cart is empty.")) /\
  ([("Laptop", mkLine laptop 2)] <> [] ->
   exists o, create_order (mkUser 1 "alice" "pw1") laptops_world
             = Ok (o, laptops_world) /\
             order_user o = mkUser 1 "alice" "pw1" /\
             order_lines o laptops_world = Some [("Laptop", mkLine laptop 2)]).
Proof.
  apply (create_order_empty_or_lines (mkUser 1 "alice" "pw1") laptops_world
           [("Laptop", mkLine laptop 2)]).
  reflexivity.
Defined.

Lemma process_order_payment_spec (gw : PaymentGateway) (o : Order)
    (m : string) (w : World) (d : items_dict) :
  order_lines o w = Some d ->
  process_order_payment o m w =
  match total_of d with
  | Ok t => Ok ((process_payment t, t), w)
  | Raise e => Raise e
  end.
Proof.
  unfold order_lines, process_order_payment, bind, deref, lift, ret.
  intros ->. now destruct (total_of d).
Qed.

Lemma run_ops_cons (o : cart_op) (os : list cart_op) (w : World) :
  run_ops (o :: os) w =
  match run_op o w with
  | Ok (_, w1) => run_ops os w1
  | Raise e => Raise e
  end.
Proof. reflexivity. Qed.

(** One operation: [add_item] and [remove_item] change the dictionary of
    the cart where it is; [clear] gives the cart a new dictionary and
    changes none. *)
Lemma run_op_step (o : cart_op) (w : World) (c : Cart) (d : items_dict) :
  Cart_instance w = Some c ->
  heap w !! items c = Some d ->
  exists w1,
    run_op o w = Ok (tt, w1) /\
    ((is_clear o = false /\ Cart_instance w1 = Some c /\
      heap w1 !! items c = Some (op_lines o d) /\
      (forall l, items c <> l -> heap w1 !! l = heap w !! l))
     \/
     (is_clear o = true /\
      Cart_instance w1 = Some (mkCart (length (heap w))) /\
      heap w1 = heap w ++ [[]])).
Proof.
  intros Hc Hd.
  assert (Hw : cart_lines w = Some d) by (unfold cart_lines; now rewrite Hc).
  assert (Hupd : forall f, exists w1,
             (c <- the_cart ;; update (items c) f) w = Ok (tt, w1) /\
             Cart_instance w1 = Some c /\ heap w1 !! items c = Some (f d) /\
             (forall l, items c <> l -> heap w1 !! l = heap w !! l)).
  { intros f. destruct (update_cart_spec f w d Hw)
      as (w1 & Hrun & Hl1 & _ & Hc1 & _ & Hfr).
    exists w1. split; [exact Hrun|]. split; [congruence|]. split.
    - unfold cart_lines in Hl1. rewrite Hc1, Hc in Hl1. exact Hl1.
    - intros l Hl. apply Hfr. rewrite Hc. destruct c; simpl in Hl. congruence. }
  destruct o as [p q|p|].
  - destruct (Hupd (add_item_dict p q)) as (w1 & Hrun & H).
    exists w1. split; [exact Hrun|]. left. split; [reflexivity|exact H].
  - destruct (Hupd (remove_item_dict p)) as (w1 & Hrun & H).
    exists w1. split; [exact Hrun|]. left. split; [reflexivity|exact H].
  - destruct (clear_spec w d Hw) as (w1 & Hrun & _ & _ & Hh & Hc1).
    exists w1. split; [exact Hrun|]. right. now repeat split.
Qed.

(** What a run of cart operations leaves untouched: a dictionary that is
    not the one of the cart. *)
Lemma run_ops_frame (os : list cart_op) (w w' : World) (c : Cart)
    (d dl : items_dict) (l : loc) :
  Cart_instance w = Some c ->
  heap w !! items c = Some d ->
  items c <> l ->
  heap w !! l = Some dl ->
  run_ops os w = Ok (tt, w') ->
  heap w' !! l = Some dl.
Proof.
  revert w c d. induction os as [|o os IH]; intros w c d Hc Hd Hne Hl.
  - now intros [= <-].
  - rewrite run_ops_cons.
    destruct (run_op_step o w c d Hc Hd)
      as (w1 & -> & [(_ & Hc1 & Hd1 & Hfr)|(_ & Hc1 & Hh)]).
    + apply (IH w1 c _ Hc1 Hd1 Hne). now rewrite Hfr.
    + pose proof (lookup_lt_Some _ _ _ Hl) as Hlt.
      apply (IH w1 (mkCart (length (heap w))) [] Hc1).
      * rewrite Hh. simpl. rewrite lookup_app_r by lia.
        now rewrite Nat.sub_diag.
      * simpl. lia.
      * rewrite Hh. rewrite lookup_app_l by exact Hlt. exact Hl.
Qed.

(** The dictionary that the cart referred to at the start of a run is
    changed by the operations up to the first [clear], and by no other. *)
Lemma run_ops_alias (os : list cart_op) (w w' : World) (c : Cart)
    (d : items_dict) :
  Cart_instance w = Some c ->
  heap w !! items c = Some d ->
  run_ops os w = Ok (tt, w') ->
  heap w' !! items c = Some (run_lines (until_clear os) d).
Proof.
  revert w d. induction os as [|o os IH]; intros w d Hc Hd.
  - now intros [= <-].
  - rewrite run_ops_cons.
    destruct (run_op_step o w c d Hc Hd)
      as (w1 & -> & [(Ho & Hc1 & Hd1 & _)|(Ho & Hc1 & Hh)]).
    + intros Hrun. rewrite (IH w1 _ Hc1 Hd1 Hrun).
      destruct o; simpl in *; congruence.
    + pose proof (lookup_lt_Some _ _ _ Hd) as Hlt.
      destruct o; simpl in Ho; try discriminate. simpl.
      apply (run_ops_frame os w1 w' _ [] d (items c) Hc1).
      * rewrite Hh. simpl. rewrite lookup_app_r by lia.
        now rewrite Nat.sub_diag.
      * simpl. lia.
      * rewrite Hh. rewrite lookup_app_l by exact Hlt. exact Hd.
Qed.

Lemma until_clear_no_clear (os : list cart_op) :
  forallb (fun x => negb (is_clear x)) os = true -> until_clear os = os.
Proof.
  induction os as [|o os IH]; simpl; [reflexivity|].
  destruct o; simpl; try discriminate; intros H; now rewrite IH.
Qed.

Lemma until_clear_all_clear (os : list cart_op) :
  forallb is_clear os = true -> until_clear os = [].
Proof. destruct os as [|[]]; simpl; congruence. Qed.

(** C1, as amended. [process_order_payment] computes its total from the
    lines of the order's dictionary as they are at the payment. That
    dictionary is the one the cart had at [create_order]: it takes every
    [add_item] and [remove_item] made on the cart up to the next [clear],
    so with none in between (or only [clear]) the total is the sum over
    the lines at [create_order], and while no [clear] intervenes the
    order's lines are those of the cart at the payment. *)
Theorem payment_total_follows_order_lines (gw : PaymentGateway) (u : User)
    (w : World) (d : items_dict) (os : list cart_op) (m : string) :
  cart_lines w = Some d ->
  d <> [] ->
  exists o w2,
    create_order u w = Ok (o, w) /\
    run_ops os w = Ok (tt, w2) /\
    order_lines o w2 = Some (run_lines (until_clear os) d) /\
    process_order_payment o m w2 =
      match total_of (run_lines (until_clear os) d) with
      | Ok t => Ok ((process_payment t, t), w2)
      | Raise e => Raise e
      end /\
    (forallb is_clear os = true -> order_lines o w2 = Some d) /\
    (forallb (fun x => negb (is_clear x)) os = true ->
     order_lines o w2 = cart_lines w2).
Proof.
  intros Hw Hne. destruct (cart_lines_Some w d Hw) as (c & Hc & Hd).
  destruct (run_ops_spec os w d Hw) as (w2 & Hrun & Hl2 & _).
  exists (mkOrder u (items c)), w2.
  assert (Ho : order_lines (mkOrder u (items c)) w2
               = Some (run_lines (until_clear os) d)).
  { unfold order_lines; simpl. now apply (run_ops_alias os w w2 c d). }
  split.
  { rewrite (create_order_spec u w c d Hc Hd). destruct d; congruence. }
  split; [exact Hrun|]. split; [exact Ho|]. split.
  { now apply process_order_payment_spec. }
  split.
  - intros Hall. rewrite Ho. now rewrite until_clear_all_clear.
  - intros Hnone. rewrite Ho, Hl2. now rewrite until_clear_no_clear.
Qed.

Lemma payment_total_follows_order_lines_witness :
  exists o w2,
    create_order (mkUser 1 "alice" "pw1") laptops_world = Ok (o, laptops_world) /\
    run_ops [AddItem shirt 1; Clear; AddItem laptop 5] laptops_world
    = Ok (tt, w2) /\
    order_lines o w2 =
      Some (run_lines (until_clear [AddItem shirt 1; Clear; AddItem laptop 5])
                      [("Laptop", mkLine laptop 2)]) /\
    process_order_payment (gw := MockPaymentGateway) o "card" w2 =
      match total_of
              (run_lines (until_clear [AddItem shirt 1; Clear; AddItem laptop 5])
                         [("Laptop", mkLine laptop 2)]) with
      | Ok t => Ok ((process_payment t, t), w2)
      | Raise e => Raise e
      end /\
    (forallb is_clear [AddItem shirt 1; Clear; AddItem laptop 5] = true ->
     order_lines o w2 = Some [("Laptop", mkLine laptop 2)]) /\
    (forallb (fun x => negb (is_clear x))
             [AddItem shirt 1; Clear; AddItem laptop 5] = true ->
     order_lines o w2 = cart_lines w2).
Proof.
  apply (payment_total_follows_order_lines MockPaymentGateway
           (mkUser 1 "alice" "pw1") laptops_world
           [("Laptop", mkLine laptop 2)]
           [AddItem shirt 1; Clear; AddItem laptop 5] "card").
  - reflexivity.
  - discriminate.
Defined.

(** C1, as stated, fails: an order created on a cart of two laptops is
    charged for the shirt that is put in the cart afterwards, 2430.0
    instead of the 2400.0 of the lines at [create_order]. *)
Lemma total_is_of_creation_time_fails : ~ total_is_of_creation_time.
Proof.
  intros H.
  specialize (H MockPaymentGateway laptops_world laptops_world
                (mkWorld (db laptops_world)
                         [[("Laptop", mkLine laptop 2); ("Shirt", mkLine shirt 1)]]
                         (Some (mkCart 0%nat)))
                (mkWorld (db laptops_world)
                         [[("Laptop", mkLine laptop 2); ("Shirt", mkLine shirt 1)]]
                         (Some (mkCart 0%nat)))
                (mkUser 1 "alice" "pw1")
                (mkOrder (mkUser 1 "alice" "pw1") 0%nat)
                [AddItem shirt 1]
                [("Laptop", mkLine laptop 2)]
                "card" true (PyFloat 2430%float)).
  assert (E : total_of [("Laptop", mkLine laptop 2)] = Ok (PyFloat 2400%float))
    by (vm_compute; reflexivity).
  rewrite E in H.
  assert (Hc : Ok (PyFloat 2400%float) = Ok (PyFloat 2430%float)).
  { apply H; vm_compute; reflexivity. }
  apply (f_equal (fun r => match r with
                           | Ok (PyFloat f) => Prim2SF f
                           | _ => S754_nan
                           end)) in Hc.
  vm_compute in Hc. discriminate.
Qed.

(** ** Checkout *)

Lemma create_order_inv (u : User) (w w1 : World) (o : Order) :
  create_order u w = Ok (o, w1) ->
  exists c d, Cart_instance w = Some c /\ heap w !! items c = Some d /\
              d <> [] /\ o = mkOrder u (items c) /\ w1 = w.
Proof.
  destruct (Cart_instance w) as [c|] eqn:Hc.
  - destruct (heap w !! items c) as [d|] eqn:Hd.
    + rewrite (create_order_spec u w c d Hc Hd).
      destruct d as [|x d]; [discriminate|]. intros [= <- <-].
      exists c, (x :: d). now repeat split.
    + unfold create_order, get_items, bind.
      rewrite (the_cart_spec w c Hc). unfold ret, deref. now rewrite Hd.
  - unfold create_order, get_items, bind, the_cart, bind, get_Cart_instance.
    now rewrite Hc.
Qed.

Lemma process_order_payment_inv (gw : PaymentGateway) (o : Order)
    (m : string) (w w' : World) (d : items_dict) (b : bool) (t : number) :
  order_lines o w = Some d ->
  process_order_payment o m w = Ok ((b, t), w') ->
  total_of d = Ok t /\ b = process_payment t /\ w' = w.
Proof.
  intros Hd. rewrite (process_order_payment_spec gw o m w d Hd).
  destruct (total_of d); [|discriminate]. now intros [= <- <- <-].
Qed.

Lemma line_amounts_length (ls : list CartLine) (xs : list float) :
  line_amounts ls = Ok xs -> length xs = length ls.
Proof.
  revert xs. induction ls as [|l ls IH]; intros xs; simpl.
  - now intros [= <-].
  - destruct (float_mul_int _ _); [|discriminate].
    destruct (line_amounts ls); [|discriminate].
    intros [= <-]. simpl. f_equal. now apply IH.
Qed.

(** The total of an order with lines is a [float]. *)
Lemma total_of_lines_is_float (d : items_dict) (t : number) :
  d <> [] -> total_of d = Ok t -> exists f, t = PyFloat f.
Proof.
  unfold total_of. intros Hne.
  destruct (line_amounts (dict_values d)) as [xs|] eqn:E; [|discriminate].
  apply line_amounts_length in E. intros [= <-].
  destruct xs as [|x xs]; [|eexists; reflexivity].
  destruct d; [congruence|discriminate].
Qed.

Lemma session_user_spec (s : Session) (w : World) (r : UserRow) (c : Cart) :
  fetch_user (s_username s) (db w) = Some r ->
  Cart_instance w = Some c ->
  session_user s w = Ok (mkUser (u_id r) (u_username r) (u_password r), w).
Proof.
  intros Hr Hc. unfold session_user, bind, get_db. simpl. rewrite Hr.
  unfold User_init, bind, get_instance, bind, get_Cart_instance.
  rewrite Hc. unfold ret at 1. now rewrite (the_cart_spec w c Hc).
Qed.

(** [checkout] on a cart with lines, step by step. *)
Lemma checkout_with_spec (gw : PaymentGateway) (s : Session) (pm : string)
    (w : World) (r : UserRow) (c : Cart) (d : items_dict) (f : float) :
  fetch_user (s_username s) (db w) = Some r ->
  Cart_instance w = Some c ->
  heap w !! items c = Some d ->
  d <> [] ->
  total_of d = Ok (PyFloat f) ->
  checkout_with gw (Some s) POST pm w =
  if process_payment (PyFloat f)
  then Ok (Redirect "order_history",
           mkWorld (insert_order (u_id r) f pm (summary_text d f) (db w))
                   (heap w ++ [[]])
                   (Some (mkCart (length (heap w)))))
  else Ok (Render "checkout.html", w).
Proof.
  intros Hr Hc Hd Hne Ht.
  unfold checkout_with. unfold bind at 1.
  rewrite (session_user_spec s w r c Hr Hc).
  unfold bind at 1. rewrite (create_order_spec _ w c d Hc Hd).
  destruct d as [|x d]; [congruence|].
  unfold bind at 1.
  rewrite (process_order_payment_spec gw (mkOrder _ (items c)) pm w (x :: d) Hd),
    Ht.
  destruct (process_payment (PyFloat f)); [|reflexivity].
  unfold bind at 1. unfold confirm_order, clear. unfold bind at 1.
  rewrite (the_cart_spec w c Hc).
  unfold bind at 1. unfold new_dict. unfold set_Cart_instance.
  unfold bind at 1. unfold deref.
  cbn [heap db Cart_instance order_items].
  rewrite lookup_app_l by (eapply lookup_lt_Some, Hd). rewrite Hd.
  reflexivity.
Qed.

(** The facts behind a checkout whose order was created and paid. *)
Lemma checkout_premises (gw : PaymentGateway) (pm : string) (u : User)
    (w w1 w2 : World) (o : Order) (b : bool) (t : number) :
  create_order u w = Ok (o, w1) ->
  process_order_payment o pm w1 = Ok ((b, t), w2) ->
  exists c d f,
    Cart_instance w = Some c /\ heap w !! items c = Some d /\ d <> [] /\
    t = PyFloat f /\ total_of d = Ok (PyFloat f) /\
    b = process_payment (PyFloat f).
Proof.
  intros Hcreate Hpay.
  destruct (create_order_inv u w w1 o Hcreate) as (c & d & Hc & Hd & Hne & -> & ->).
  destruct (process_order_payment_inv gw (mkOrder u (items c)) pm w w2 d b t
              Hd Hpay) as (Ht & Hb & _).
  destruct (total_of_lines_is_float d t Hne Ht) as (f & ->).
  now exists c, d, f.
Qed.

(** C4, as amended. When the payment of a checkout is approved, the
    checkout ends on the order history with the cart empty and exactly one
    order record added to the store, for the user of the session. Its
    [total_amount] is the total that [process_order_payment] returned for
    the order, as the [REAL] column keeps it: that very float, except that
    a total that is NaN is kept as [NULL] (and a zero as [0.0]). *)
Theorem checkout_approved_clears_and_records (gw : PaymentGateway)
    (s : Session) (pm : string) (w w1 w2 : World) (r : UserRow) (o : Order)
    (t : number) :
  fetch_user (s_username s) (db w) = Some r ->
  create_order (mkUser (u_id r) (u_username r) (u_password r)) w = Ok (o, w1) ->
  process_order_payment o pm w1 = Ok ((true, t), w2) ->
  exists w' row f,
    checkout_with gw (Some s) POST pm w = Ok (Redirect "order_history", w') /\
    cart_lines w' = Some [] /\
    orders (db w') = orders (db w) ++ [row] /\
    t = PyFloat f /\
    total_amount row = stored_real f /\
    (total_amount row = None <-> Prim2SF f = S754_nan) /\
    (forall sg m e, Prim2SF f = S754_finite sg m e -> total_amount row = Some f) /\
    (forall sg, Prim2SF f = S754_infinity sg -> total_amount row = Some f) /\
    o_user_id row = u_id r /\
    payment_method row = pm /\
    order_id row = seq_orders (db w) + 1 /\
    users (db w') = users (db w) /\
    products (db w') = products (db w).
Proof.
  intros Hr Hcreate Hpay.
  destruct (checkout_premises gw pm _ w w1 w2 o true t Hcreate Hpay)
    as (c & d & f & Hc & Hd & Hne & -> & Ht & Hb).
  rewrite (checkout_with_spec gw s pm w r c d f Hr Hc Hd Hne Ht), <- Hb.
  eexists _, _, f. split; [reflexivity|].
  unfold cart_lines; cbn [heap db Cart_instance items].
  split.
  { rewrite lookup_app_r by lia. now rewrite Nat.sub_diag. }
  unfold insert_order; cbn [orders users products total_amount o_user_id
                            payment_method order_id db].
  split; [reflexivity|]. split; [reflexivity|]. split; [reflexivity|].
  split; [|split; [|split]].
  - unfold stored_real.
    destruct (Prim2SF f); split; intros E; first [reflexivity|discriminate E].
  - intros sg m e E. unfold stored_real. now rewrite E.
  - intros sg E. unfold stored_real. now rewrite E.
  - now repeat split.
Qed.

Lemma checkout_approved_clears_and_records_witness :
  exists w' row f,
    checkout_with MockPaymentGateway (Some (mkSession 1 "alice")) POST "card"
                  laptops_world = Ok (Redirect "order_history", w') /\
    cart_lines w' = Some [] /\
    orders (db w') = orders (db laptops_world) ++ [row] /\
    PyFloat 2400%float = PyFloat f /\
    total_amount row = stored_real f /\
    (total_amount row = None <-> Prim2SF f = S754_nan) /\
    (forall sg m e, Prim2SF f = S754_finite sg m e -> total_amount row = Some f) /\
    (forall sg, Prim2SF f = S754_infinity sg -> total_amount row = Some f) /\
    o_user_id row = u_id (mkUserRow 1 "alice" "pw1") /\
    payment_method row = "card" /\
    order_id row = seq_orders (db laptops_world) + 1 /\
    users (db w') = users (db laptops_world) /\
    products (db w') = products (db laptops_world).
Proof.
  apply (checkout_approved_clears_and_records MockPaymentGateway
           (mkSession 1 "alice") "card" laptops_world laptops_world
           laptops_world (mkUserRow 1 "alice" "pw1")
           (mkOrder (mkUser 1 "alice" "pw1") 0%nat) (PyFloat 2400%float)).
  - reflexivity.
  - reflexivity.
  - vm_compute. reflexivity.
Defined.

(** C4, as stated, fails. After start-up and the requests of
    [overflow_requests] the cart holds [10^306] laptops and [-10^307]
    shirts; at the checkout the two amounts are [inf] and [-inf], the
    total that is paid is NaN, and the order record holds [NULL], not that
    total. *)
Lemma stored_total_is_paid_total_fails : ~ stored_total_is_paid_total.
Proof.
  intros H.
  destruct (H MockPaymentGateway (mkSession 1 "alice") "card"
              overflow_world overflow_world overflow_world
              (mkUserRow 1 "alice" "pw1")
              (mkOrder (mkUser 1 "alice" "pw1") 0%nat) (PyFloat PrimFloat.nan))
    as (w' & row & Hco & _ & Hrows & Htot).
  - vm_compute. reflexivity.
  - vm_compute. reflexivity.
  - vm_compute. reflexivity.
  - assert (E : match checkout_with MockPaymentGateway
                        (Some (mkSession 1 "alice")) POST "card" overflow_world
                with
                | Ok (_, w) => map total_amount (orders (db w))
                | Raise _ => []
                end = [None]) by (vm_compute; reflexivity).
    assert (Ho : orders (db overflow_world) = []) by (vm_compute; reflexivity).
    rewrite Hco, Hrows, Ho in E. cbn [app map] in E.
    assert (Hnone : total_amount row = None) by congruence.
    rewrite Hnone in Htot. discriminate Htot.
Qed.

(** C5. When the payment of a checkout is declined, the checkout page is
    shown again and the world is the one before the checkout: the cart
    with its lines as they were, and no order record written. *)
Theorem checkout_declined_changes_nothing (gw : PaymentGateway)
    (s : Session) (pm : string) (w w1 w2 : World) (r : UserRow) (o : Order)
    (t : number) :
  fetch_user (s_username s) (db w) = Some r ->
  create_order (mkUser (u_id r) (u_username r) (u_password r)) w = Ok (o, w1) ->
  process_order_payment o pm w1 = Ok ((false, t), w2) ->
  exists w',
    checkout_with gw (Some s) POST pm w = Ok (Render "checkout.html", w') /\
    cart_lines w' = cart_lines w /\
    orders (db w') = orders (db w) /\
    w' = w.
Proof.
  intros Hr Hcreate Hpay.
  destruct (checkout_premises gw pm _ w w1 w2 o false t Hcreate Hpay)
    as (c & d & f & Hc & Hd & Hne & -> & Ht & Hb).
  rewrite (checkout_with_spec gw s pm w r c d f Hr Hc Hd Hne Ht), <- Hb.
  now exists w.
Qed.

Lemma checkout_declined_changes_nothing_witness :
  exists w',
    checkout_with DecliningGateway (Some (mkSession 1 "alice")) POST "card"
                  laptops_world = Ok (Render "checkout.html", w') /\
    cart_lines w' = cart_lines laptops_world /\
    orders (db w') = orders (db laptops_world) /\
    w' = laptops_world.
Proof.
  apply (checkout_declined_changes_nothing DecliningGateway
           (mkSession 1 "alice") "card" laptops_world laptops_world
           laptops_world (mkUserRow 1 "alice" "pw1")
           (mkOrder (mkUser 1 "alice" "pw1") 0%nat) (PyFloat 2400%float)).
  - reflexivity.
  - reflexivity.
  - vm_compute. reflexivity.
Defined.

(** The route as written pays through [MockPaymentGateway], which approves
    every amount: a checkout with a cart of lines is never declined. *)
Remark checkout_never_declined (s : Session) (pm : string) (w w' : World)
    (method : http_method) :
  checkout (Some s) method pm w = Ok (Render "checkout.html", w') ->
  method = GET.
Proof.
  destruct method; [reflexivity|]. unfold checkout, checkout_with.
  unfold bind at 1. destruct (session_user s w) as [[u w0]|]; [|discriminate].
  unfold bind at 1. destruct (create_order u w0) as [[o w1]|]; [|discriminate].
  unfold bind at 1.
  destruct (process_order_payment o pm w1) as [[[b t] w2]|] eqn:E; [|discriminate].
  assert (b = true) as ->.
  { unfold process_order_payment, bind, deref, lift, ret in E.
    destruct (heap w1 !! order_items o); [|discriminate].
    destruct (total_of _); [|discriminate]. now injection E as <- _ _. }
  unfold bind at 1. destruct (confirm_order u w2) as [[? w3]|]; [|discriminate].
  unfold bind at 1. destruct (deref (order_items o) w3) as [[d w4]|]; [|discriminate].
  unfold bind at 1. destruct (lift (render_summary d t) w4) as [[x w5]|]; [|discriminate].
  unfold bind at 1. destruct (lift (real_argument t) w5) as [[a w6]|]; [|discriminate].
  discriminate.
Qed.

(** ** The summary text *)






(** ** Registration *)

Lemma fetch_user_named (u : string) (d : Database) :
  fetch_user u d = match users_named u d with r :: _ => Some r | [] => None end.
Proof. reflexivity. Qed.

Lemma user_exists_named (u : string) (d : Database) :
  user_exists u d <-> users_named u d <> [].
Proof.
  unfold user_exists, users_named. split.
  - intros (r & Hin & Hu) Hnil.
    assert (H : r ∈ filter (fun r => String.eqb (u_username r) u = true) (users d)).
    { apply list_elem_of_filter. split; [|exact Hin]. now apply String.eqb_eq. }
    rewrite Hnil in H. now apply elem_of_nil in H.
  - destruct (filter _ (users d)) as [|r rs] eqn:E; [congruence|]. intros _.
    assert (H : r ∈ filter (fun r => String.eqb (u_username r) u = true) (users d))
      by (rewrite E; left).
    apply list_elem_of_filter in H as [Hu Hin]. exists r.
    split; [exact Hin|]. now apply String.eqb_eq.
Qed.

Lemma user_exists_fetch (u : string) (d : Database) :
  user_exists u d <-> exists r, fetch_user u d = Some r.
Proof.
  rewrite user_exists_named, fetch_user_named.
  destruct (users_named u d) as [|r rs]; split.
  - congruence.
  - intros (r & H). discriminate.
  - intros _. now exists r.
  - discriminate.
Qed.

Lemma users_named_insert (u pw : string) (d d' : Database) :
  insert_user u pw d = Ok d' ->
  users_named u d = [] /\
  users d' = users d ++ [mkUserRow (seq_users d + 1) u pw] /\
  users_named u d' = [mkUserRow (seq_users d + 1) u pw] /\
  products d' = products d /\ orders d' = orders d.
Proof.
  unfold insert_user. rewrite fetch_user_named.
  destruct (users_named u d) as [|r rs] eqn:E; [|discriminate].
  intros [= <-]. split; [reflexivity|]. split; [reflexivity|].
  split; [|now split].
  unfold users_named in *; cbn [users]. rewrite filter_app, E.
  rewrite filter_cons, filter_nil; cbn [u_username app].
  case_decide as H; [reflexivity|]. now rewrite String.eqb_refl in H.
Qed.

(** [User.__init__] always returns the user it is given and leaves the
    store alone. *)
Lemma User_init_spec (i : Z) (u pw : string) (w : World) :
  exists w', User_init i u pw w = Ok (mkUser i u pw, w') /\ db w' = db w.
Proof.
  unfold User_init, get_instance, Cart_init, the_cart, bind,
    get_Cart_instance, set_Cart_instance, new_dict, ret.
  destruct (Cart_instance w) as [c|] eqn:Hc; cbn; rewrite ?Hc;
    eexists; split; reflexivity.
Qed.

(** C8. [register_user] raises [ValueError("User already exists.")], the
    code's duplicate-user error, exactly when the store holds a user of
    that username; otherwise it returns the new user, whose row is added
    to the store, which then holds exactly one user of that username. *)
Theorem register_user_duplicate_or_new (u pw : string) (w : World) :
  (user_exists u (db w) <->
   register_user u pw w = Raise (ValueError "User already exists.")) /\
  (~ user_exists u (db w) ->
   exists usr w',
     register_user u pw w = Ok (usr, w') /\
     username usr = u /\ password usr = pw /\
     users (db w') = users (db w) ++ [mkUserRow (user_id usr) u pw] /\
     users_named u (db w') = [mkUserRow (user_id usr) u pw] /\
     fetch_user u (db w') = Some (mkUserRow (user_id usr) u pw) /\
     products (db w') = products (db w) /\
     orders (db w') = orders (db w)).
Proof.
  assert (Hnew : fetch_user u (db w) = None ->
    exists usr w',
      register_user u pw w = Ok (usr, w') /\
      username usr = u /\ password usr = pw /\
      users (db w') = users (db w) ++ [mkUserRow (user_id usr) u pw] /\
      users_named u (db w') = [mkUserRow (user_id usr) u pw] /\
      fetch_user u (db w') = Some (mkUserRow (user_id usr) u pw) /\
      products (db w') = products (db w) /\
      orders (db w') = orders (db w)).
  { intros Hnone.
    destruct (insert_user u pw (db w)) as [d'|e] eqn:Hins.
    2:{ unfold insert_user in Hins. now rewrite Hnone in Hins. }
    destruct (users_named_insert u pw (db w) d' Hins)
      as (_ & Husers & Hnamed & Hprod & Hord).
    assert (Hf : fetch_user u d' = Some (mkUserRow (seq_users (db w) + 1) u pw))
      by (now rewrite fetch_user_named, Hnamed).
    destruct (User_init_spec (seq_users (db w) + 1) u pw
                (mkWorld d' (heap w) (Cart_instance w))) as (w' & Hinit & Hdb).
    exists (mkUser (seq_users (db w) + 1) u pw), w'.
    split.
    { unfold register_user, bind, get_db, put_db, lift. cbn [db].
      rewrite Hnone, Hins. cbn [db]. rewrite Hf. exact Hinit. }
    rewrite Hdb. cbn [db user_id username password]. now repeat split. }
  split; [split|].
  - intros H. apply user_exists_fetch in H as (r & Hr).
    unfold register_user, bind, get_db. cbn [db]. now rewrite Hr.
  - intros H. apply user_exists_fetch.
    destruct (fetch_user u (db w)) as [r|] eqn:E; [now exists r|].
    destruct (Hnew eq_refl) as (usr & w' & Hreg & _). congruence.
  - intros H. apply Hnew.
    destruct (fetch_user u (db w)) as [r|] eqn:E; [|reflexivity].
    exfalso. apply H, user_exists_fetch. now exists r.
Qed.

(** Registering alice on an empty store succeeds with the id 1; doing it
    again is refused. *)
Example register_twice :
  exists w1,
    register_user "alice" "pw1" fresh_world = Ok (mkUser 1 "alice" "pw1", w1) /\
    register_user "alice" "other" w1 = Raise (ValueError "User already exists.").
Proof. eexists. split; reflexivity. Qed.

(** * Further properties of the code *)

(** ** The store: products *)

Lemma fetch_products_insert_product (n : string) (pr : float) (c : string)
    (d : Database) :
  fetch_products (insert_product n pr c d) = fetch_products d ++ [mkProduct n pr c].
Proof. unfold fetch_products, insert_product; cbn [products]. now rewrite map_app. Qed.

(** [fetch_products] lists every product inserted, in the order of the
    insertions, a name as often as it was inserted: no insertion replaces
    or drops a row. *)
Theorem fetch_products_lists_insertions (calls : list product_args)
    (d : Database) :
  fetch_products (insert_products calls d) =
  fetch_products d ++ map (fun c => mkProduct (fst (fst c)) (snd (fst c)) (snd c)) calls.
Proof.
  revert d. induction calls as [|[[n pr] c] calls IH]; intros d.
  - simpl. now rewrite app_nil_r.
  - unfold insert_products in *. simpl. rewrite IH.
    rewrite fetch_products_insert_product. now rewrite <- app_assoc.
Qed.

Lemma fetch_product_by_name_elem (n : string) (d : Database) (p : Product) :
  fetch_product_by_name n d = Some p -> name p = n /\ p ∈ fetch_products d.
Proof.
  unfold fetch_product_by_name, fetch_products.
  destruct (filter _ (products d)) as [|r rs] eqn:E; [discriminate|].
  intros [= <-].
  assert (H : r ∈ filter (fun r => String.eqb (p_name r) n = true) (products d))
    by (rewrite E; left).
  apply list_elem_of_filter in H as [Hn Hin]. split.
  - now apply String.eqb_eq.
  - apply list_elem_of_fmap. now exists r.
Qed.

(** [fetch_product_by_name] answers with a product of the name asked that
    is in the store, and with [None] exactly when the store has no product
    of that name. *)
Theorem fetch_product_by_name_found_or_none (n : string) (d : Database) :
  (forall p, fetch_product_by_name n d = Some p ->
             name p = n /\ p ∈ fetch_products d) /\
  (fetch_product_by_name n d = None <->
   forall p, p ∈ fetch_products d -> name p <> n).
Proof.
  split; [intros p; apply fetch_product_by_name_elem|].
  unfold fetch_product_by_name, fetch_products. split.
  - destruct (filter _ (products d)) as [|r rs] eqn:E; [|discriminate].
    intros _ p Hp Hn. apply list_elem_of_fmap in Hp as (r & -> & Hr).
    assert (H : r ∈ filter (fun r => String.eqb (p_name r) n = true) (products d)).
    { apply list_elem_of_filter. split; [|exact Hr]. now apply String.eqb_eq. }
    rewrite E in H. now apply elem_of_nil in H.
  - intros H. destruct (filter _ (products d)) as [|r rs] eqn:E; [reflexivity|].
    assert (Hr : r ∈ filter (fun r => String.eqb (p_name r) n = true) (products d))
      by (rewrite E; left).
    apply list_elem_of_filter in Hr as [Hn Hin]. exfalso.
    apply (H (product_of_row r)).
    + apply list_elem_of_fmap. now exists r.
    + now apply String.eqb_eq.
Qed.

(** ** The store: users *)

Lemma user_exists_usernames (u : string) (d : Database) :
  user_exists u d <-> u ∈ map u_username (users d).
Proof.
  unfold user_exists. rewrite list_elem_of_fmap. split.
  - intros (r & Hr & <-). now exists r.
  - intros (r & -> & Hr). now exists r.
Qed.

Lemma fetch_user_elem (u : string) (d : Database) (r : UserRow) :
  fetch_user u d = Some r -> r ∈ users d /\ u_username r = u.
Proof.
  unfold fetch_user. destruct (filter _ (users d)) as [|r' rs] eqn:E;
    [discriminate|]. intros [= <-].
  assert (H : r' ∈ filter (fun r => String.eqb (u_username r) u = true) (users d))
    by (rewrite E; left).
  apply list_elem_of_filter in H as [Hu Hin]. split; [exact Hin|].
  now apply String.eqb_eq.
Qed.

Lemma fetch_user_None_usernames (u : string) (d : Database) :
  fetch_user u d = None <-> u ∉ map u_username (users d).
Proof.
  rewrite <- user_exists_usernames, user_exists_fetch. split.
  - intros H (r & Hr). congruence.
  - intros H. destruct (fetch_user u d) as [r|]; [|reflexivity].
    exfalso. apply H. now exists r.
Qed.

Lemma filter_username_unique (u : string) (l : list UserRow) (r : UserRow) :
  NoDup (map u_username l) -> r ∈ l -> u_username r = u ->
  filter (fun r => String.eqb (u_username r) u = true) l = [r].
Proof.
  induction l as [|x l IH]; intros Hnd Hin Hu.
  - now apply elem_of_nil in Hin.
  - simpl in Hnd. apply NoDup_cons in Hnd as [Hx Hnd]. rewrite filter_cons.
    apply elem_of_cons in Hin as [->|Hin].
    + rewrite Hu, String.eqb_refl. case_decide; [|congruence]. f_equal.
      destruct (filter _ l) as [|y ys] eqn:E; [reflexivity|].
      assert (Hy : y ∈ filter (fun r => String.eqb (u_username r) u = true) l)
        by (rewrite E; left).
      apply list_elem_of_filter in Hy as [Hyu Hy]. apply String.eqb_eq in Hyu.
      exfalso. apply Hx. apply list_elem_of_fmap. exists y. split; congruence.
    + destruct (String.eqb_spec (u_username x) u) as [Hxu|Hxu].
      * exfalso. apply Hx. apply list_elem_of_fmap. exists r. split; congruence.
      * case_decide; [discriminate|]. now apply IH.
Qed.

(** Looking up the username of a stored row gives back that row, and
    whatever [fetch_user] returns is a stored row of the username asked. *)
Theorem fetch_user_stored_row (d : Database) :
  NoDup (map u_username (users d)) ->
  (forall r, r ∈ users d -> fetch_user (u_username r) d = Some r) /\
  (forall u r, fetch_user u d = Some r -> r ∈ users d /\ u_username r = u).
Proof.
  intros Hnd. split.
  - intros r Hr. unfold fetch_user.
    now rewrite (filter_username_unique (u_username r) (users d) r Hnd Hr eq_refl).
  - intros u r. apply fetch_user_elem.
Qed.

Lemma fetch_user_stored_row_witness :
  (forall r, r ∈ users (db laptops_world) ->
             fetch_user (u_username r) (db laptops_world) = Some r) /\
  (forall u r, fetch_user u (db laptops_world) = Some r ->
               r ∈ users (db laptops_world) /\ u_username r = u).
Proof.
  apply (fetch_user_stored_row (db laptops_world)).
  simpl. apply NoDup_singleton.
Defined.

(** [insert_user] is refused with the [IntegrityError] of the [UNIQUE]
    column exactly when the username is stored already; when it goes
    through, usernames stay unique, the new row is what [fetch_user]
    finds for the name, and the lookup of every other name is as
    before. *)
Theorem insert_user_unique_usernames (u pw : string) (d : Database) :
  (u ∈ map u_username (users d) <->
   insert_user u pw d
   = Raise (IntegrityError "UNIQUE constraint failed: users.username")) /\
  (forall d',
     insert_user u pw d = Ok d' ->
     (NoDup (map u_username (users d)) -> NoDup (map u_username (users d'))) /\
     fetch_user u d' = Some (mkUserRow (seq_users d + 1) u pw) /\
     (forall u', u' <> u -> fetch_user u' d' = fetch_user u' d)).
Proof.
  split.
  - rewrite <- user_exists_usernames, user_exists_fetch. unfold insert_user.
    destruct (fetch_user u d) as [r|]; split; try discriminate.
    + reflexivity.
    + intros _. now exists r.
    + intros (r & Hr). discriminate.
  - intros d' Hins.
    pose proof (proj1 (fetch_user_None_usernames u d)) as Hnone.
    destruct (users_named_insert u pw d d' Hins) as (Hn & Husers & Hnamed & _).
    split; [|split].
    + intros Hnd. rewrite Husers, map_app. apply NoDup_app.
      split; [exact Hnd|]. split; [|apply NoDup_singleton].
      intros x Hx Hx'. apply list_elem_of_singleton in Hx'. simpl in Hx'. subst x.
      revert Hx. apply Hnone. rewrite fetch_user_named. now rewrite Hn.
    + now rewrite fetch_user_named, Hnamed.
    + intros u' Hne. unfold fetch_user. rewrite Husers, filter_app.
      rewrite filter_cons, filter_nil; cbn [u_username].
      destruct (String.eqb_spec u u'); [congruence|].
      case_decide; [discriminate|]. now rewrite app_nil_r.
Qed.

(** ** Users: [User.__init__], [register_user], [login] *)

Lemma get_instance_ensure (w : World) :
  exists c, get_instance w = Ok (c, ensure_cart w) /\
            Cart_instance (ensure_cart w) = Some c.
Proof.
  unfold get_instance, ensure_cart, Cart_init, the_cart, bind,
    get_Cart_instance, set_Cart_instance, new_dict, ret.
  destruct (Cart_instance w) as [c|] eqn:Hc; cbn; rewrite ?Hc;
    eexists; split; reflexivity.
Qed.

Lemma User_init_ensure (i : Z) (u pw : string) (w : World) :
  User_init i u pw w = Ok (mkUser i u pw, ensure_cart w).
Proof.
  unfold User_init, bind. destruct (get_instance_ensure w) as (c & -> & _).
  reflexivity.
Qed.

Lemma ensure_cart_db (w : World) : db (ensure_cart w) = db w.
Proof. unfold ensure_cart. now destruct (Cart_instance w). Qed.

Lemma ensure_cart_lines (w : World) :
  cart_lines (ensure_cart w) =
  match Cart_instance w with Some _ => cart_lines w | None => Some [] end.
Proof.
  unfold ensure_cart. destruct (Cart_instance w) as [c|] eqn:Hc; [reflexivity|].
  unfold cart_lines; cbn [Cart_instance heap items].
  rewrite lookup_app_r by lia. now rewrite Nat.sub_diag.
Qed.

Lemma ensure_cart_idem (w : World) : ensure_cart (ensure_cart w) = ensure_cart w.
Proof. unfold ensure_cart. now destruct (Cart_instance w) eqn:Hc; rewrite ?Hc. Qed.

Lemma login_unfold (u pw : string) (w : World) :
  login u pw w =
  match fetch_user u (db w) with
  | Some r =>
      if String.eqb (u_password r) pw
      then Ok (mkUser (u_id r) u pw, ensure_cart w)
      else Raise (ValueError "Invalid username or password.")
  | None => Raise (ValueError "Invalid username or password.")
  end.
Proof.
  unfold login, bind, get_db. cbn [db].
  destruct (fetch_user u (db w)) as [r|]; [|reflexivity].
  destruct (String.eqb (u_password r) pw); [|reflexivity].
  apply User_init_ensure.
Qed.

Lemma insert_user_unique_lookup (u pw : string) (d : Database) :
  fetch_user u d = None ->
  fetch_user u (with_user u pw d) = Some (mkUserRow (seq_users d + 1) u pw).
Proof.
  intros Hf.
  assert (Hins : insert_user u pw d = Ok (with_user u pw d))
    by (unfold insert_user; now rewrite Hf).
  destruct (users_named_insert u pw d _ Hins) as (_ & _ & Hnamed & _).
  now rewrite fetch_user_named, Hnamed.
Qed.

Lemma register_user_unfold (u pw : string) (w : World) :
  register_user u pw w =
  match fetch_user u (db w) with
  | Some _ => Raise (ValueError "User already exists.")
  | None =>
      Ok (mkUser (seq_users (db w) + 1) u pw,
          ensure_cart (mkWorld (with_user u pw (db w)) (heap w) (Cart_instance w)))
  end.
Proof.
  unfold register_user, bind, get_db. cbn [db].
  destruct (fetch_user u (db w)) as [r|] eqn:Hf; [reflexivity|].
  assert (Hins : insert_user u pw (db w) = Ok (with_user u pw (db w)))
    by (unfold insert_user; now rewrite Hf).
  unfold lift, put_db. rewrite Hins. cbn [db].
  rewrite (insert_user_unique_lookup u pw (db w) Hf). apply User_init_ensure.
Qed.

(** [login] returns a user exactly when the store has a row of that
    username whose password is the one given, character for character;
    the user carries the id of the row. An unknown username and a wrong
    password end in the same [ValueError]. [login] writes nothing to the
    store. *)
Theorem login_checks_stored_password (u pw : string) (w : World) :
  (forall r, fetch_user u (db w) = Some r -> u_password r = pw ->
             exists w', login u pw w = Ok (mkUser (u_id r) u pw, w') /\
                        db w' = db w) /\
  (forall r, fetch_user u (db w) = Some r -> u_password r <> pw ->
             login u pw w = Raise (ValueError "Invalid username or password.")) /\
  (fetch_user u (db w) = None ->
   login u pw w = Raise (ValueError "Invalid username or password.")) /\
  (forall usr w', login u pw w = Ok (usr, w') ->
                  db w' = db w /\
                  exists r, r ∈ users (db w) /\ u_username r = u /\
                            u_password r = pw /\ usr = mkUser (u_id r) u pw).
Proof.
  rewrite login_unfold. split; [|split; [|split]].
  - intros r -> <-. rewrite String.eqb_refl. eexists. split; [reflexivity|].
    apply ensure_cart_db.
  - intros r -> Hne. destruct (String.eqb_spec (u_password r) pw); congruence.
  - now intros ->.
  - intros usr w'.
    destruct (fetch_user u (db w)) as [r|] eqn:Hf; [|discriminate].
    destruct (String.eqb_spec (u_password r) pw) as [Hpw|]; [|discriminate].
    intros [= <- <-]. split; [apply ensure_cart_db|].
    apply fetch_user_elem in Hf as [Hin Hu]. now exists r.
Qed.

(** After a registration, [login] with the same username and password
    returns the very user that [register_user] returned, and with any
    other password it is refused. *)
Theorem register_then_login (u pw : string) (w w1 : World) (usr : User) :
  register_user u pw w = Ok (usr, w1) ->
  (exists w2, login u pw w1 = Ok (usr, w2)) /\
  (forall pw', pw' <> pw ->
     login u pw' w1 = Raise (ValueError "Invalid username or password.")).
Proof.
  rewrite register_user_unfold.
  destruct (fetch_user u (db w)) as [r|] eqn:Hf; [discriminate|].
  intros [= <- <-].
  assert (Hlook : fetch_user u (db (ensure_cart
                    (mkWorld (with_user u pw (db w)) (heap w) (Cart_instance w))))
                  = Some (mkUserRow (seq_users (db w) + 1) u pw)).
  { rewrite ensure_cart_db. cbn [db]. now apply insert_user_unique_lookup. }
  split.
  - rewrite login_unfold, Hlook. cbn [u_password u_id].
    rewrite String.eqb_refl. eexists. reflexivity.
  - intros pw' Hne. rewrite login_unfold, Hlook. cbn [u_password].
    destruct (String.eqb_spec pw pw'); congruence.
Qed.

Lemma register_then_login_witness :
  (exists w2, login "alice" "pw1"
                (ensure_cart (mkWorld (with_user "alice" "pw1" (db fresh_world))
                                      [] None))
              = Ok (mkUser 1 "alice" "pw1", w2)) /\
  (forall pw', pw' <> "pw1" ->
     login "alice" pw'
       (ensure_cart (mkWorld (with_user "alice" "pw1" (db fresh_world)) [] None))
     = Raise (ValueError "Invalid username or password.")).
Proof.
  apply (register_then_login "alice" "pw1" fresh_world).
  reflexivity.
Defined.

(** ** The singleton *)

(** [Cart()] is refused once the singleton exists; [get_instance] always
    answers: with the singleton as it is, the world unchanged, when there
    is one, and otherwise with a new cart that has no lines, every
    dictionary of the heap and the store left as they were. Asking again
    gives the same cart and changes nothing. *)
Theorem cart_is_a_singleton (w : World) :
  (forall c, Cart_instance w = Some c ->
             Cart_init w = Raise (Exception "This class is a singleton!") /\
             get_instance w = Ok (c, w)) /\
  (Cart_instance w = None ->
   exists w', get_instance w = Ok (mkCart (length (heap w)), w') /\
              cart_lines w' = Some [] /\ db w' = db w /\
              heap w' = heap w ++ [[]]) /\
  (exists c w', get_instance w = Ok (c, w') /\ get_instance w' = Ok (c, w')).
Proof.
  split; [|split].
  - intros c Hc. split.
    + unfold Cart_init, bind, get_Cart_instance. now rewrite Hc.
    + destruct (get_instance_ensure w) as (c' & Hg & Hc').
      unfold ensure_cart in *. rewrite Hc in *. congruence.
  - intros Hc. destruct (get_instance_ensure w) as (c' & Hg & Hc').
    exists (ensure_cart w). rewrite ensure_cart_lines, ensure_cart_db.
    unfold ensure_cart in *. rewrite Hc in *. cbn [Cart_instance heap] in *.
    injection Hc' as <-. now repeat split.
  - destruct (get_instance_ensure w) as (c & Hg & Hc).
    exists c, (ensure_cart w). split; [exact Hg|].
    destruct (get_instance_ensure (ensure_cart w)) as (c' & Hg' & Hc').
    rewrite ensure_cart_idem in *. congruence.
Qed.

(** ** The cart: [add_item] and [remove_item] *)

Section dict_delete.
Context {V : Type}.
Implicit Types (d : dict V) (k : string) (v : V).

Lemma dict_get_delitem_eq k d : dict_get k (dict_delitem k d) = None.
Proof.
  induction d as [|[k' v'] d IH]; simpl; [reflexivity|].
  destruct (String.eqb k k') eqn:E; simpl; [exact IH|]. now rewrite E.
Qed.

Lemma dict_get_delitem_ne k k' d :
  k <> k' -> dict_get k' (dict_delitem k d) = dict_get k' d.
Proof.
  intros Hne. induction d as [|[k0 v0] d IH]; simpl; [reflexivity|].
  destruct (String.eqb_spec k k0) as [->|Hk]; simpl.
  - destruct (String.eqb_spec k' k0); congruence.
  - now rewrite IH.
Qed.

Lemma dict_delitem_absent k d : dict_get k d = None -> dict_delitem k d = d.
Proof.
  induction d as [|[k' v'] d IH]; simpl; [reflexivity|].
  destruct (String.eqb k k'); [discriminate|]. intros H. now rewrite IH.
Qed.

Lemma dict_delitem_setitem_absent k v d :
  dict_get k d = None -> dict_delitem k (dict_setitem k v d) = d.
Proof.
  induction d as [|[k' v'] d IH]; simpl.
  - now rewrite String.eqb_refl.
  - destruct (String.eqb k k') eqn:E; [discriminate|]. intros H.
    simpl. rewrite E. now rewrite IH.
Qed.

Lemma dict_contains_get k d :
  dict_contains k d = true <-> dict_get k d <> None.
Proof. unfold dict_contains. destruct (dict_get k d); split; congruence. Qed.
End dict_delete.

Lemma add_item_dict_frame (p : Product) (q : Z) (d : items_dict) (k : string) :
  k <> name p -> dict_get k (add_item_dict p q d) = dict_get k d.
Proof.
  intros Hne. unfold add_item_dict.
  destruct (dict_get (name p) d); apply dict_get_setitem_ne; congruence.
Qed.

Lemma add_item_dict_keys (p : Product) (q : Z) (d : items_dict) :
  dict_keys (add_item_dict p q d) =
  match dict_get (name p) d with
  | Some _ => dict_keys d
  | None => dict_keys d ++ [name p]
  end.
Proof.
  unfold add_item_dict. destruct (dict_get (name p) d) eqn:E.
  - apply dict_keys_setitem_present.
    destruct (decide (name p ∈ dict_keys d)) as [H|H]; [exact H|].
    apply dict_get_None_keys in H. congruence.
  - apply dict_keys_setitem_absent. now apply dict_get_None_keys.
Qed.

(** [add_item] changes the line of its product and no other: the lines of
    the other names are as before, the names keep their order, and a new
    name goes last. A line that exists keeps the product object it was
    created with, price included, whatever product is passed later under
    that name; only its quantity grows. The store is not touched. *)
Theorem add_item_changes_one_line (p : Product) (q : Z) (w : World)
    (d : items_dict) :
  cart_lines w = Some d ->
  exists w' d',
    add_item p q w = Ok (tt, w') /\
    cart_lines w' = Some d' /\
    db w' = db w /\
    (forall k, k <> name p -> dict_get k d' = dict_get k d) /\
    dict_keys d' = match dict_get (name p) d with
                   | Some _ => dict_keys d
                   | None => dict_keys d ++ [name p]
                   end /\
    dict_get (name p) d' =
      Some (match dict_get (name p) d with
            | Some l => mkLine (product l) (quantity l + q)
            | None => mkLine p q
            end).
Proof.
  intros Hw.
  destruct (update_cart_spec (add_item_dict p q) w d Hw)
    as (w' & Hrun & Hl & Hdb & _).
  exists w', (add_item_dict p q d). split; [exact Hrun|].
  split; [exact Hl|]. split; [exact Hdb|]. split; [|split].
  - intros k Hk. now apply add_item_dict_frame.
  - apply add_item_dict_keys.
  - apply add_item_dict_get.
Qed.

Lemma add_item_changes_one_line_witness :
  exists w' d',
    add_item (mkProduct "Laptop" 999%float "Refurbished") 3 laptops_world
    = Ok (tt, w') /\
    cart_lines w' = Some d' /\
    db w' = db laptops_world /\
    (forall k, k <> "Laptop" ->
               dict_get k d' = dict_get k [("Laptop", mkLine laptop 2)]) /\
    dict_keys d' = ["Laptop"] /\
    dict_get "Laptop" d' = Some (mkLine laptop 5).
Proof.
  apply (add_item_changes_one_line
           (mkProduct "Laptop" 999%float "Refurbished") 3 laptops_world
           [("Laptop", mkLine laptop 2)]).
  reflexivity.
Defined.

(** [remove_item] takes the line of its product away and leaves the other
    lines as they are, in their order; for a product that has no line it
    changes nothing at all. *)
Theorem remove_item_removes_one_line (p : Product) (w : World)
    (d : items_dict) :
  cart_lines w = Some d ->
  exists w' d',
    remove_item p w = Ok (tt, w') /\
    cart_lines w' = Some d' /\
    db w' = db w /\
    dict_get (name p) d' = None /\
    (forall k, k <> name p -> dict_get k d' = dict_get k d) /\
    dict_keys d' = filter (fun k => k <> name p) (dict_keys d) /\
    (dict_get (name p) d = None -> w' = w).
Proof.
  intros Hw. destruct (cart_lines_Some w d Hw) as (c & Hc & Hd).
  assert (Hrun : remove_item p w
                 = Ok (tt, mkWorld (db w) (<[items c := remove_item_dict p d]> (heap w))
                                   (Cart_instance w))).
  { unfold remove_item. unfold bind at 1. rewrite (the_cart_spec w c Hc).
    unfold update. now rewrite Hd. }
  assert (Hrm : remove_item_dict p d = dict_delitem (name p) d).
  { unfold remove_item_dict. destruct (dict_contains (name p) d) eqn:E;
      [reflexivity|]. symmetry. apply dict_delitem_absent.
    unfold dict_contains in E. now destruct (dict_get (name p) d). }
  eexists _, (dict_delitem (name p) d). split; [exact Hrun|].
  split.
  { unfold cart_lines; cbn [Cart_instance heap]. rewrite Hc, Hrm.
    apply list_lookup_insert_eq. eapply lookup_lt_Some, Hd. }
  split; [reflexivity|]. split; [apply dict_get_delitem_eq|].
  split; [intros k Hk; apply dict_get_delitem_ne; congruence|].
  split; [apply dict_keys_delitem|].
  intros Hnone. rewrite Hrm, (dict_delitem_absent _ _ Hnone).
  rewrite (list_insert_id _ _ _ Hd). now destruct w.
Qed.

Lemma remove_item_removes_one_line_witness :
  exists w' d',
    remove_item laptop laptops_world = Ok (tt, w') /\
    cart_lines w' = Some d' /\
    db w' = db laptops_world /\
    dict_get "Laptop" d' = None /\
    (forall k, k <> "Laptop" ->
               dict_get k d' = dict_get k [("Laptop", mkLine laptop 2)]) /\
    dict_keys d' = filter (fun k => k <> "Laptop") ["Laptop"] /\
    (dict_get "Laptop" [("Laptop", mkLine laptop 2)] = None -> w' = laptops_world).
Proof.
  apply (remove_item_removes_one_line laptop laptops_world
           [("Laptop", mkLine laptop 2)]).
  reflexivity.
Defined.

(** Putting a product that the cart does not hold into it and removing it
    again gives back the world as it was. *)
Theorem add_item_then_remove_item (p : Product) (q : Z) (w : World)
    (d : items_dict) :
  cart_lines w = Some d ->
  dict_get (name p) d = None ->
  (add_item p q ;;; remove_item p) w = Ok (tt, w).
Proof.
  intros Hw Hnone. destruct (cart_lines_Some w d Hw) as (c & Hc & Hd).
  unfold bind at 1. unfold add_item. unfold bind at 1.
  rewrite (the_cart_spec w c Hc). unfold update at 1. rewrite Hd.
  unfold remove_item. unfold bind at 1.
  rewrite (the_cart_spec _ c) by exact Hc. unfold update.
  cbn [heap db Cart_instance].
  rewrite list_lookup_insert_eq by (eapply lookup_lt_Some, Hd).
  rewrite list_insert_insert_eq.
  assert (Hback : remove_item_dict p (add_item_dict p q d) = d).
  { unfold remove_item_dict, add_item_dict. rewrite Hnone.
    unfold dict_contains. rewrite dict_get_setitem_eq.
    now apply dict_delitem_setitem_absent. }
  rewrite Hback, (list_insert_id _ _ _ Hd). now destruct w.
Qed.

Lemma add_item_then_remove_item_witness :
  (add_item shirt 4 ;;; remove_item shirt) laptops_world = Ok (tt, laptops_world).
Proof.
  apply (add_item_then_remove_item shirt 4 laptops_world
           [("Laptop", mkLine laptop 2)]); reflexivity.
Defined.

(** ** Orders and payment *)

(** [create_order] refuses an empty cart, yet an order can be empty when
    it is paid: when the lines that were in the cart at [create_order] are
    all removed before the next [clear], the order has no line left, the
    total is the integer [0] and that is the amount the gateway is asked
    to approve. *)
Theorem order_can_be_emptied_before_payment (gw : PaymentGateway) (u : User)
    (w : World) (d : items_dict) (os : list cart_op) (m : string) :
  cart_lines w = Some d ->
  d <> [] ->
  run_lines (until_clear os) d = [] ->
  exists o w2,
    create_order u w = Ok (o, w) /\
    run_ops os w = Ok (tt, w2) /\
    order_lines o w2 = Some [] /\
    process_order_payment o m w2 = Ok ((process_payment (PyInt 0), PyInt 0), w2).
Proof.
  intros Hw Hne Hempty. destruct (cart_lines_Some w d Hw) as (c & Hc & Hd).
  destruct (run_ops_spec os w d Hw) as (w2 & Hrun & _).
  exists (mkOrder u (items c)), w2.
  assert (Ho : order_lines (mkOrder u (items c)) w2 = Some []).
  { unfold order_lines; cbn [order_items].
    rewrite (run_ops_alias os w w2 c d Hc Hd Hrun). now rewrite Hempty. }
  split.
  { rewrite (create_order_spec u w c d Hc Hd). destruct d; congruence. }
  split; [exact Hrun|]. split; [exact Ho|].
  now rewrite (process_order_payment_spec gw _ m w2 [] Ho).
Qed.

Lemma order_can_be_emptied_before_payment_witness :
  exists o w2,
    create_order (mkUser 1 "alice" "pw1") laptops_world = Ok (o, laptops_world) /\
    run_ops [RemoveItem laptop] laptops_world = Ok (tt, w2) /\
    order_lines o w2 = Some [] /\
    process_order_payment (gw := MockPaymentGateway) o "card" w2
    = Ok ((true, PyInt 0), w2).
Proof.
  apply (order_can_be_emptied_before_payment MockPaymentGateway
           (mkUser 1 "alice" "pw1") laptops_world
           [("Laptop", mkLine laptop 2)] [RemoveItem laptop] "card").
  - reflexivity.
  - discriminate.
  - reflexivity.
Defined.

(** [process_order_payment] changes nothing, and the payment method it is
    given plays no part in its answer: the same order is approved or
    declined, for the same total, under every method. *)
Theorem process_order_payment_ignores_method (gw : PaymentGateway) (o : Order)
    (m : string) (w w' : World) (r : bool * number) :
  process_order_payment o m w = Ok (r, w') ->
  w' = w /\ forall m', process_order_payment o m' w = Ok (r, w).
Proof.
  unfold process_order_payment, bind, deref, lift, ret.
  destruct (heap w !! order_items o) as [d|]; [|discriminate].
  destruct (total_of d) as [t|]; [|discriminate].
  intros [= <- <-]. split; reflexivity.
Qed.

Lemma process_order_payment_ignores_method_witness :
  laptops_world = laptops_world /\
  forall m',
    process_order_payment (gw := MockPaymentGateway)
      (mkOrder (mkUser 1 "alice" "pw1") 0%nat) m' laptops_world
    = Ok ((true, PyFloat 2400%float), laptops_world).
Proof.
  apply (process_order_payment_ignores_method MockPaymentGateway
           (mkOrder (mkUser 1 "alice" "pw1") 0%nat) "card"
           laptops_world laptops_world).
  vm_compute. reflexivity.
Defined.

(** On a cart that holds the product already, a run of [add_item] calls
    under its name adds their quantities to the one the line had. *)
Lemma add_item_same_product_adds_witness :
  exists w' d',
    run_ops (add_calls [(laptop, 3); (laptop, 4)]) laptops_world = Ok (tt, w') /\
    cart_lines w' = Some d' /\
    dict_get "Laptop" d' = Some (mkLine laptop (2 + sum_quantities [(laptop, 3); (laptop, 4)])).
Proof.
  apply (add_item_same_product_adds "Laptop" [(laptop, 3); (laptop, 4)]
           laptops_world [("Laptop", mkLine laptop 2)] (mkLine laptop 2)).
  - reflexivity.
  - reflexivity.
  - repeat constructor.
Defined.

(** ** The routes [add_to_cart] and [checkout] *)

Lemma session_user_ensure (s : Session) (w : World) (r : UserRow) :
  fetch_user (s_username s) (db w) = Some r ->
  session_user s w
  = Ok (mkUser (u_id r) (u_username r) (u_password r), ensure_cart w).
Proof.
  intros Hr. unfold session_user, bind, get_db. cbn [db]. rewrite Hr.
  apply User_init_ensure.
Qed.

Lemma fetch_user_ensure_cart (u : string) (w : World) :
  fetch_user u (db (ensure_cart w)) = fetch_user u (db w).
Proof. now rewrite ensure_cart_db. Qed.

(** [add_to_cart] for a logged-in user: a name that the catalog does not
    have changes nothing; otherwise the first product of that name goes
    into the cart with the quantity of the form, whatever integer it is:
    zero and negative quantities are stored (or added to the line) like
    any other. The store is not written. *)
Theorem add_to_cart_takes_any_quantity (s : Session) (n : string) (q : Z)
    (w : World) (r : UserRow) (d : items_dict) :
  fetch_user (s_username s) (db w) = Some r ->
  cart_lines (ensure_cart w) = Some d ->
  (fetch_product_by_name n (db w) = None ->
   add_to_cart (Some s) n q w = Ok (Redirect "view_catalog", w)) /\
  (forall p,
     fetch_product_by_name n (db w) = Some p ->
     exists w',
       add_to_cart (Some s) n q w = Ok (Redirect "view_catalog", w') /\
       db w' = db w /\
       cart_lines w' = Some (add_item_dict p q d) /\
       dict_get n (add_item_dict p q d) =
         Some (match dict_get n d with
               | Some l => mkLine (product l) (quantity l + q)
               | None => mkLine p q
               end)).
Proof.
  intros Hr Hd. split.
  - intros Hp. unfold add_to_cart, get_product, bind, get_db, ret. cbn [db].
    now rewrite Hp.
  - intros p Hp.
    destruct (update_cart_spec (add_item_dict p q) (ensure_cart w) d Hd)
      as (w' & Hrun & Hl & Hdb & _).
    exists w'. split; [|split; [|split]].
    + unfold add_to_cart. unfold bind at 1. unfold get_product, bind, get_db, ret.
      cbn [db]. rewrite Hp. rewrite (session_user_ensure s w r Hr).
      change (add_item p q (ensure_cart w)) with
        ((c <- the_cart ;; update (items c) (add_item_dict p q)) (ensure_cart w)).
      now rewrite Hrun.
    + now rewrite Hdb, ensure_cart_db.
    + exact Hl.
    + destruct (fetch_product_by_name_elem n (db w) p Hp) as [<- _].
      apply add_item_dict_get.
Qed.

Lemma add_to_cart_takes_any_quantity_witness :
  (fetch_product_by_name "Shirt"
     (insert_product "Shirt" 30%float "Clothing" (db laptops_world)) = None ->
   add_to_cart (Some (mkSession 1 "alice")) "Shirt" (-3)
     (mkWorld (insert_product "Shirt" 30%float "Clothing" (db laptops_world))
              (heap laptops_world) (Cart_instance laptops_world))
   = Ok (Redirect "view_catalog",
         mkWorld (insert_product "Shirt" 30%float "Clothing" (db laptops_world))
                 (heap laptops_world) (Cart_instance laptops_world))) /\
  (forall p,
     fetch_product_by_name "Shirt"
       (insert_product "Shirt" 30%float "Clothing" (db laptops_world)) = Some p ->
     exists w',
       add_to_cart (Some (mkSession 1 "alice")) "Shirt" (-3)
         (mkWorld (insert_product "Shirt" 30%float "Clothing" (db laptops_world))
                  (heap laptops_world) (Cart_instance laptops_world))
       = Ok (Redirect "view_catalog", w') /\
       db w' = insert_product "Shirt" 30%float "Clothing" (db laptops_world) /\
       cart_lines w' =
         Some (add_item_dict p (-3) [("Laptop", mkLine laptop 2)]) /\
       dict_get "Shirt" (add_item_dict p (-3) [("Laptop", mkLine laptop 2)]) =
         Some (mkLine p (-3))).
Proof.
  apply (add_to_cart_takes_any_quantity (mkSession 1 "alice") "Shirt" (-3)
           (mkWorld (insert_product "Shirt" 30%float "Clothing" (db laptops_world))
                    (heap laptops_world) (Cart_instance laptops_world))
           (mkUserRow 1 "alice" "pw1") [("Laptop", mkLine laptop 2)]).
  - reflexivity.
  - reflexivity.
Defined.

(** A [POST] to [checkout] while the cart has no line (an empty cart, or
    no cart yet in this process) is not answered with a page: the
    [ValueError] of [create_order] leaves the route. *)
Theorem checkout_empty_cart_raises (gw : PaymentGateway) (s : Session)
    (pm : string) (w : World) (r : UserRow) :
  fetch_user (s_username s) (db w) = Some r ->
  cart_lines (ensure_cart w) = Some [] ->
  checkout_with gw (Some s) POST pm w = Raise (ValueError "Cart is empty.").
Proof.
  intros Hr Hd. destruct (cart_lines_Some _ _ Hd) as (c & Hc & Hl).
  unfold checkout_with. unfold bind at 1.
  rewrite (session_user_ensure s w r Hr).
  unfold bind at 1. now rewrite (create_order_spec _ _ c [] Hc Hl).
Qed.

Lemma checkout_empty_cart_raises_witness :
  checkout_with MockPaymentGateway (Some (mkSession 1 "alice")) POST "card"
    (mkWorld (db laptops_world) [] None)
  = Raise (ValueError "Cart is empty.").
Proof.
  apply (checkout_empty_cart_raises MockPaymentGateway (mkSession 1 "alice")
           "card" (mkWorld (db laptops_world) [] None)
           (mkUserRow 1 "alice" "pw1")); reflexivity.
Defined.

Lemma checkout_with_post (gw : PaymentGateway) (s : Session) (pm : string)
    (w : World) (r : UserRow) (c : Cart) (d : items_dict) :
  fetch_user (s_username s) (db w) = Some r ->
  Cart_instance w = Some c ->
  heap w !! items c = Some d ->
  d <> [] ->
  checkout_with gw (Some s) POST pm w =
  match total_of d with
  | Ok t =>
      if process_payment t then
        match render_summary d t with
        | Ok text =>
            match real_argument t with
            | Ok amount =>
                Ok (Redirect "order_history",
                    mkWorld (insert_order (u_id r) amount pm text (db w))
                            (heap w ++ [[]]) (Some (mkCart (length (heap w)))))
            | Raise e => Raise e
            end
        | Raise e => Raise e
        end
      else Ok (Render "checkout.html", w)
  | Raise e => Raise e
  end.
Proof.
  intros Hr Hc Hd Hne.
  unfold checkout_with. unfold bind at 1.
  rewrite (session_user_spec s w r c Hr Hc).
  unfold bind at 1. rewrite (create_order_spec _ w c d Hc Hd).
  destruct d as [|x d]; [congruence|].
  unfold bind at 1.
  rewrite (process_order_payment_spec gw (mkOrder _ (items c)) pm w (x :: d) Hd).
  destruct (total_of (x :: d)) as [t|e]; [|reflexivity].
  destruct (process_payment t); [|reflexivity].
  unfold bind at 1. unfold confirm_order, clear. unfold bind at 1.
  rewrite (the_cart_spec w c Hc).
  unfold bind at 1. unfold new_dict. unfold set_Cart_instance.
  unfold bind at 1. unfold deref.
  cbn [heap db Cart_instance order_items].
  rewrite lookup_app_l by (eapply lookup_lt_Some, Hd). rewrite Hd.
  unfold bind at 1. unfold lift at 1.
  destruct (render_summary (x :: d) t); [|reflexivity].
  unfold bind at 1. unfold lift.
  destruct (real_argument t); reflexivity.
Qed.

Lemma ensure_cart_nonempty (w : World) (c : Cart) (d : items_dict) :
  Cart_instance (ensure_cart w) = Some c ->
  heap (ensure_cart w) !! items c = Some d ->
  d <> [] ->
  ensure_cart w = w.
Proof.
  unfold ensure_cart. destruct (Cart_instance w) as [c'|] eqn:Hc; [reflexivity|].
  cbn [Cart_instance heap]. intros [= <-]. cbn [items].
  rewrite lookup_app_r by lia. rewrite Nat.sub_diag. simpl. congruence.
Qed.

(** [checkout] answers in one of three ways. Without a session it sends
    to the login page and touches nothing. It shows the checkout page,
    having done no more than make sure the singleton exists. Or, on a
    [POST] only, it sends to the order history, and then the store has
    exactly one more order row, nothing else of the store has changed,
    and the cart is empty: no order is written without the cart being
    emptied, and the cart is not emptied without an order. *)
Theorem checkout_outcomes (gw : PaymentGateway) (session : option Session)
    (method : http_method) (pm : string) (w w' : World) (resp : response) :
  checkout_with gw session method pm w = Ok (resp, w') ->
  (session = None /\ resp = Redirect "login" /\ w' = w) \/
  (session <> None /\ resp = Render "checkout.html" /\ w' = ensure_cart w) \/
  (session <> None /\ method = POST /\ resp = Redirect "order_history" /\
   cart_lines w' = Some [] /\
   users (db w') = users (db w) /\ products (db w') = products (db w) /\
   exists row, orders (db w') = orders (db w) ++ [row]).
Proof.
  destruct session as [s|]; [|intros [= <- <-]; left; now repeat split].
  intros H. right.
  destruct (fetch_user (s_username s) (db w)) as [r|] eqn:Hr.
  2:{ unfold checkout_with, bind, session_user, bind, get_db in H.
      cbn [db] in H. now rewrite Hr in H. }
  destruct method.
  { unfold checkout_with, bind in H. rewrite (session_user_ensure s w r Hr) in H.
    injection H as <- <-. left. now repeat split. }
  assert (Hco : exists o w1, create_order (mkUser (u_id r) (u_username r)
                                                   (u_password r))
                               (ensure_cart w) = Ok (o, w1)).
  { unfold checkout_with in H. unfold bind at 1 in H.
    rewrite (session_user_ensure s w r Hr) in H. unfold bind at 1 in H.
    destruct (create_order _ (ensure_cart w)) as [[o w1]|]; [|discriminate].
    now exists o, w1. }
  destruct Hco as (o & w1 & Hco).
  apply create_order_inv in Hco as (c & d & Hc & Hd & Hne & _ & _).
  pose proof (ensure_cart_nonempty w c d Hc Hd Hne) as Hw.
  rewrite Hw in *.
  rewrite (checkout_with_post gw s pm w r c d Hr Hc Hd Hne) in H.
  destruct (total_of d) as [t|]; [|discriminate].
  destruct (process_payment t).
  - destruct (render_summary d t) as [text|]; [|discriminate].
    destruct (real_argument t) as [amount|]; [|discriminate].
    injection H as <- <-. right. split; [discriminate|].
    split; [reflexivity|]. split; [reflexivity|]. split.
    { unfold cart_lines; cbn [Cart_instance heap items].
      rewrite lookup_app_r by lia. now rewrite Nat.sub_diag. }
    unfold insert_order; cbn [db users products orders].
    split; [reflexivity|]. split; [reflexivity|]. eexists. reflexivity.
  - injection H as <- <-. left. split; [discriminate|]. now split.
Qed.

Lemma checkout_outcomes_witness :
  (Some (mkSession 1 "alice") = None /\
   Redirect "order_history" = Redirect "login" /\
   mkWorld (insert_order 1 2400%float "card"
              (summary_text [("Laptop", mkLine laptop 2)] 2400%float)
              (db laptops_world))
           [[("Laptop", mkLine laptop 2)]; []] (Some (mkCart 1%nat))
   = laptops_world) \/
  (Some (mkSession 1 "alice") <> None /\
   Redirect "order_history" = Render "checkout.html" /\
   mkWorld (insert_order 1 2400%float "card"
              (summary_text [("Laptop", mkLine laptop 2)] 2400%float)
              (db laptops_world))
           [[("Laptop", mkLine laptop 2)]; []] (Some (mkCart 1%nat))
   = ensure_cart laptops_world) \/
  (Some (mkSession 1 "alice") <> None /\ POST = POST /\
   Redirect "order_history" = Redirect "order_history" /\
   cart_lines
     (mkWorld (insert_order 1 2400%float "card"
                 (summary_text [("Laptop", mkLine laptop 2)] 2400%float)
                 (db laptops_world))
              [[("Laptop", mkLine laptop 2)]; []] (Some (mkCart 1%nat)))
   = Some [] /\
   users (insert_order 1 2400%float "card"
            (summary_text [("Laptop", mkLine laptop 2)] 2400%float)
            (db laptops_world)) = users (db laptops_world) /\
   products (insert_order 1 2400%float "card"
               (summary_text [("Laptop", mkLine laptop 2)] 2400%float)
               (db laptops_world)) = products (db laptops_world) /\
   exists row,
     orders (insert_order 1 2400%float "card"
               (summary_text [("Laptop", mkLine laptop 2)] 2400%float)
               (db laptops_world)) = orders (db laptops_world) ++ [row]).
Proof.
  apply (checkout_outcomes MockPaymentGateway (Some (mkSession 1 "alice"))
           POST "card" laptops_world).
  vm_compute. reflexivity.
Defined.

Lemma fetch_user_insert_order (u : string) (uid : Z) (t : float)
    (m text : string) (d : Database) :
  fetch_user u (insert_order uid t m text d) = fetch_user u d.
Proof. reflexivity. Qed.

(** An approved checkout, in full: the answer and the world it leaves. *)
Lemma checkout_approved_world (gw : PaymentGateway) (s : Session) (pm : string)
    (w : World) (r : UserRow) (d : items_dict) (t : number) :
  fetch_user (s_username s) (db w) = Some r ->
  cart_lines w = Some d ->
  d <> [] ->
  total_of d = Ok t ->
  process_payment t = true ->
  exists f,
    t = PyFloat f /\
    checkout_with gw (Some s) POST pm w =
    Ok (Redirect "order_history",
        mkWorld (insert_order (u_id r) f pm (summary_text d f) (db w))
                (heap w ++ [[]]) (Some (mkCart (length (heap w))))).
Proof.
  intros Hr Hw Hne Ht Hpay. destruct (cart_lines_Some w d Hw) as (c & Hc & Hd).
  destruct (total_of_lines_is_float d t Hne Ht) as (f & ->).
  exists f. split; [reflexivity|].
  rewrite (checkout_with_spec gw s pm w r c d f Hr Hc Hd Hne Ht).
  now rewrite Hpay.
Qed.

(** A cart is paid once: after an approved checkout the cart is empty, so
    sending the same checkout again, with whatever payment method and
    gateway, ends in the [ValueError] of the empty cart and writes no
    second order. *)
Theorem checkout_again_raises (gw : PaymentGateway) (s : Session) (pm : string)
    (w : World) (r : UserRow) (d : items_dict) (t : number) :
  fetch_user (s_username s) (db w) = Some r ->
  cart_lines w = Some d ->
  d <> [] ->
  total_of d = Ok t ->
  process_payment t = true ->
  exists w',
    checkout_with gw (Some s) POST pm w = Ok (Redirect "order_history", w') /\
    forall (gw' : PaymentGateway) (pm' : string),
      checkout_with gw' (Some s) POST pm' w' = Raise (ValueError "Cart is empty.").
Proof.
  intros Hr Hw Hne Ht Hpay.
  destruct (checkout_approved_world gw s pm w r d t Hr Hw Hne Ht Hpay)
    as (f & -> & Hrun).
  eexists. split; [exact Hrun|]. intros gw' pm'.
  unfold checkout_with. unfold bind at 1.
  rewrite (session_user_ensure s _ r) by exact Hr.
  unfold bind at 1. unfold ensure_cart; cbn [Cart_instance].
  rewrite (create_order_spec _ _ (mkCart (length (heap w))) []); [reflexivity..|].
  cbn [heap items]. rewrite lookup_app_r by lia. now rewrite Nat.sub_diag.
Qed.

Lemma checkout_again_raises_witness :
  exists w',
    checkout_with MockPaymentGateway (Some (mkSession 1 "alice")) POST "card"
                  laptops_world = Ok (Redirect "order_history", w') /\
    forall (gw' : PaymentGateway) (pm' : string),
      checkout_with gw' (Some (mkSession 1 "alice")) POST pm' w'
      = Raise (ValueError "Cart is empty.").
Proof.
  apply (checkout_again_raises MockPaymentGateway (mkSession 1 "alice") "card"
           laptops_world (mkUserRow 1 "alice" "pw1")
           [("Laptop", mkLine laptop 2)] (PyFloat 2400%float)).
  - reflexivity.
  - reflexivity.
  - discriminate.
  - vm_compute. reflexivity.
  - reflexivity.
Defined.

(** The cart belongs to no user: what one logged-in user puts into it is
    what the next user to check out pays for. A product added under one
    session to a cart without lines is, at the checkout of any other
    session, recorded as an order of that other user. *)
Theorem cart_is_shared_between_users (s1 s2 : Session) (n pm : string) (q : Z)
    (w : World) (r1 r2 : UserRow) (p : Product) (x : float) :
  fetch_user (s_username s1) (db w) = Some r1 ->
  fetch_user (s_username s2) (db w) = Some r2 ->
  fetch_product_by_name n (db w) = Some p ->
  cart_lines (ensure_cart w) = Some [] ->
  float_mul_int (price p) q = Ok x ->
  exists w1 w2 row,
    add_to_cart (Some s1) n q w = Ok (Redirect "view_catalog", w1) /\
    checkout (Some s2) POST pm w1 = Ok (Redirect "order_history", w2) /\
    orders (db w2) = orders (db w) ++ [row] /\
    o_user_id row = u_id r2 /\
    total_amount row = stored_real (PrimFloat.add PrimFloat.zero x) /\
    cart_lines w2 = Some [].
Proof.
  intros Hr1 Hr2 Hp Hd Hx.
  destruct (update_cart_spec (add_item_dict p q) (ensure_cart w) [] Hd)
    as (w1 & Hrun & Hl & Hdb & _).
  assert (Hadd : add_to_cart (Some s1) n q w = Ok (Redirect "view_catalog", w1)).
  { unfold add_to_cart. unfold bind at 1. unfold get_product, bind, get_db, ret.
    cbn [db]. rewrite Hp. rewrite (session_user_ensure s1 w r1 Hr1).
    change (add_item p q (ensure_cart w)) with
      ((c <- the_cart ;; update (items c) (add_item_dict p q)) (ensure_cart w)).
    now rewrite Hrun. }
  rewrite ensure_cart_db in Hdb.
  assert (Ht : total_of [(name p, mkLine p q)]
               = Ok (PyFloat (PrimFloat.add PrimFloat.zero x))).
  { unfold total_of; cbn [dict_values map snd line_amounts product quantity].
    now rewrite Hx. }
  assert (Hr2' : fetch_user (s_username s2) (db w1) = Some r2) by now rewrite Hdb.
  destruct (checkout_approved_world MockPaymentGateway s2 pm w1 r2
              [(name p, mkLine p q)] _ Hr2' Hl ltac:(discriminate) Ht eq_refl)
    as (f & Hf & Hco).
  assert (f = PrimFloat.add PrimFloat.zero x) as ->.
  { apply (f_equal (fun t => match t with PyFloat g => g | PyInt _ => f end)) in Hf.
    now symmetry. }
  eexists w1, _, _. split; [exact Hadd|]. split; [exact Hco|].
  unfold insert_order; cbn [db orders]. rewrite Hdb.
  split; [reflexivity|]. split; [reflexivity|]. split; [reflexivity|].
  unfold cart_lines; cbn [Cart_instance heap items].
  rewrite lookup_app_r by lia. now rewrite Nat.sub_diag.
Qed.

Lemma cart_is_shared_between_users_witness :
  exists w1 w2 row,
    add_to_cart (Some (mkSession 1 "alice")) "Shirt" 2
      (mkWorld (insert_product "Shirt" 30%float "Clothing"
                  (with_user "bob" "pw2" (db laptops_world))) [] None)
    = Ok (Redirect "view_catalog", w1) /\
    checkout (Some (mkSession 2 "bob")) POST "card" w1
    = Ok (Redirect "order_history", w2) /\
    orders (db w2) = [] ++ [row] /\
    o_user_id row = 2 /\
    total_amount row = stored_real (PrimFloat.add PrimFloat.zero 60%float) /\
    cart_lines w2 = Some [].
Proof.
  apply (cart_is_shared_between_users (mkSession 1 "alice") (mkSession 2 "bob")
           "Shirt" "card" 2
           (mkWorld (insert_product "Shirt" 30%float "Clothing"
                       (with_user "bob" "pw2" (db laptops_world))) [] None)
           (mkUserRow 1 "alice" "pw1") (mkUserRow 2 "bob" "pw2") shirt
           60%float).
  - reflexivity.
  - reflexivity.
  - reflexivity.
  - reflexivity.
  - vm_compute. reflexivity.
Defined.

(** After an approved checkout, the order history of the user shows the
    orders it showed before followed by the new one, with the payment
    method, the summary text and the total as the store keeps it: the
    float that was paid, or [None] when that total is NaN. *)
Theorem order_history_after_checkout (gw : PaymentGateway) (s : Session)
    (pm : string) (w : World) (r : UserRow) (d : items_dict) (t : number) :
  fetch_user (s_username s) (db w) = Some r ->
  cart_lines w = Some d ->
  d <> [] ->
  total_of d = Ok t ->
  process_payment t = true ->
  exists w' earlier f,
    order_history (Some s) w = Ok ((Render "orders.html", earlier), w) /\
    checkout_with gw (Some s) POST pm w = Ok (Redirect "order_history", w') /\
    t = PyFloat f /\
    order_history (Some s) w' =
    Ok ((Render "orders.html",
         earlier ++ [mkOrderData (seq_orders (db w) + 1) (stored_real f) pm
                                 (summary_text d f)]),
        w') /\
    (stored_real f = None <-> Prim2SF f = S754_nan).
Proof.
  intros Hr Hw Hne Ht Hpay.
  destruct (checkout_approved_world gw s pm w r d t Hr Hw Hne Ht Hpay)
    as (f & -> & Hrun).
  eexists _, (fetch_orders_by_user_id (u_id r) (db w)), f.
  split; [|split; [exact Hrun|split; [reflexivity|split]]].
  - unfold order_history, bind, get_db. cbn [db]. now rewrite Hr.
  - unfold order_history, bind, get_db. cbn [db].
    rewrite fetch_user_insert_order, Hr.
    rewrite fetch_orders_insert_order, Z.eqb_refl. reflexivity.
  - unfold stored_real.
    destruct (Prim2SF f); split; intros E; first [reflexivity|discriminate E].
Qed.

Lemma order_history_after_checkout_witness :
  exists w' earlier f,
    order_history (Some (mkSession 1 "alice")) laptops_world
    = Ok ((Render "orders.html", earlier), laptops_world) /\
    checkout_with MockPaymentGateway (Some (mkSession 1 "alice")) POST "card"
                  laptops_world = Ok (Redirect "order_history", w') /\
    PyFloat 2400%float = PyFloat f /\
    order_history (Some (mkSession 1 "alice")) w' =
    Ok ((Render "orders.html",
         earlier ++ [mkOrderData (seq_orders (db laptops_world) + 1)
                       (stored_real f) "card"
                       (summary_text [("Laptop", mkLine laptop 2)] f)]),
        w') /\
    (stored_real f = None <-> Prim2SF f = S754_nan).
Proof.
  apply (order_history_after_checkout MockPaymentGateway (mkSession 1 "alice")
           "card" laptops_world (mkUserRow 1 "alice" "pw1")
           [("Laptop", mkLine laptop 2)] (PyFloat 2400%float)).
  - reflexivity.
  - reflexivity.
  - discriminate.
  - vm_compute. reflexivity.
  - reflexivity.
Defined.

(** ** The routes [register] and [login] *)

Lemma register_unfold (u pw : string) (session : option Session) (w : World) :
  register POST u pw session w =
  match fetch_user u (db w) with
  | Some _ => Ok ((Render "register.html", session), w)
  | None =>
      Ok ((Redirect "home", Some (mkSession (seq_users (db w) + 1) u)),
          ensure_cart (mkWorld (with_user u pw (db w)) (heap w) (Cart_instance w)))
  end.
Proof.
  unfold register, try_except_ValueError, bind. rewrite register_user_unfold.
  now destruct (fetch_user u (db w)).
Qed.

Lemma login_route_unfold (u pw : string) (session : option Session) (w : World) :
  login_route POST u pw session w =
  match fetch_user u (db w) with
  | Some r =>
      if String.eqb (u_password r) pw
      then Ok ((Redirect "home", Some (mkSession (u_id r) u)), ensure_cart w)
      else Ok ((Render "login.html", session), w)
  | None => Ok ((Render "login.html", session), w)
  end.
Proof.
  unfold login_route, try_except_ValueError, bind. rewrite login_unfold.
  destruct (fetch_user u (db w)) as [r|]; [|reflexivity].
  now destruct (String.eqb (u_password r) pw).
Qed.

(** The route [register] always answers. A [POST] with a username that is
    free stores the user, sends to the home page and leaves a session for
    the new user, under the id of the new row. Otherwise (a [GET], or a
    username that is taken) it shows the form and changes neither the
    world nor the session: whoever was logged in stays logged in. *)
Theorem register_route_outcomes (method : http_method) (u pw : string)
    (session : option Session) (w : World) :
  exists resp session' w',
    register method u pw session w = Ok ((resp, session'), w') /\
    (method = POST -> fetch_user u (db w) = None ->
     resp = Redirect "home" /\
     session' = Some (mkSession (seq_users (db w) + 1) u) /\
     session_ok (db w') session' /\
     users (db w') = users (db w) ++ [mkUserRow (seq_users (db w) + 1) u pw]) /\
    (method = GET \/ fetch_user u (db w) <> None ->
     resp = Render "register.html" /\ session' = session /\ w' = w).
Proof.
  destruct method.
  - exists (Render "register.html"), session, w. split; [reflexivity|].
    split; [discriminate|]. now intros _.
  - rewrite register_unfold. destruct (fetch_user u (db w)) as [r|] eqn:Hf.
    + exists (Render "register.html"), session, w. split; [reflexivity|].
      split; [discriminate|]. now intros _.
    + eexists _, _, _. split; [reflexivity|]. split.
      * intros _ _. split; [reflexivity|]. split; [reflexivity|].
        rewrite ensure_cart_db. cbn [db session_ok s_username s_user_id].
        split; [|reflexivity].
        eexists. split; [now apply insert_user_unique_lookup|reflexivity].
      * intros [H|H]; [discriminate|congruence].
Qed.

(** The route [login] always answers and never writes to the store. A
    [POST] with the stored password of a stored username sends to the home
    page and leaves a session with the id of that user. Otherwise (a
    [GET], an unknown username, another password) it shows the form, and
    neither the world nor the session changes: a failed login does not log
    out whoever was logged in. *)
Theorem login_route_outcomes (method : http_method) (u pw : string)
    (session : option Session) (w : World) :
  exists resp session' w',
    login_route method u pw session w = Ok ((resp, session'), w') /\
    db w' = db w /\
    (forall r, method = POST -> fetch_user u (db w) = Some r ->
               u_password r = pw ->
               resp = Redirect "home" /\
               session' = Some (mkSession (u_id r) u) /\
               session_ok (db w') session') /\
    (method = GET \/ fetch_user u (db w) = None \/
     (exists r, fetch_user u (db w) = Some r /\ u_password r <> pw) ->
     resp = Render "login.html" /\ session' = session /\ w' = w).
Proof.
  destruct method.
  - exists (Render "login.html"), session, w. split; [reflexivity|].
    split; [reflexivity|]. split; [discriminate|]. now intros _.
  - rewrite login_route_unfold. destruct (fetch_user u (db w)) as [r|] eqn:Hf.
    + destruct (String.eqb_spec (u_password r) pw) as [Hpw|Hpw].
      * eexists _, _, _. split; [reflexivity|].
        split; [apply ensure_cart_db|]. split.
        -- intros r' _ [= <-] _. split; [reflexivity|]. split; [reflexivity|].
           rewrite ensure_cart_db. cbn [session_ok s_username s_user_id].
           now exists r.
        -- intros [H|[H|(r' & [= <-] & H)]]; [discriminate..|congruence].
      * exists (Render "login.html"), session, w. split; [reflexivity|].
        split; [reflexivity|]. split; [|now intros _].
        intros r' _ [= <-] H. congruence.
    + exists (Render "login.html"), session, w. split; [reflexivity|].
      split; [reflexivity|]. split; [discriminate|]. now intros _.
Qed.

(** ** What every request keeps *)

Lemma ids_ok_snoc (ids : list Z) (last : Z) :
  ids_ok ids last -> ids_ok (ids ++ [last + 1]) (last + 1).
Proof.
  intros [Hs Hb]. split.
  - apply StronglySorted_app_2; [|exact Hs|repeat constructor].
    intros x1 x2 H1 H2. apply list_elem_of_singleton in H2. subst x2.
    rewrite Forall_forall in Hb. specialize (Hb x1 H1). lia.
  - apply Forall_app. split.
    + eapply Forall_impl; [exact Hb|]. intros x Hx. simpl in Hx. lia.
    + apply Forall_singleton. lia.
Qed.

Lemma store_ok_with_user (u pw : string) (d : Database) :
  store_ok d -> fetch_user u d = None -> store_ok (with_user u pw d).
Proof.
  intros (Hn & Hu & Ho & Hp & Hr) Hf. unfold store_ok, with_user.
  cbn [users orders products seq_users seq_orders seq_products].
  rewrite !map_app. cbn [map u_username u_id].
  split; [|split; [|split; [|split]]].
  - apply NoDup_app. split; [exact Hn|]. split; [|apply NoDup_singleton].
    intros x Hx Hx'. apply list_elem_of_singleton in Hx'. subst x.
    revert Hx. now apply fetch_user_None_usernames.
  - now apply ids_ok_snoc.
  - exact Ho.
  - exact Hp.
  - eapply Forall_impl; [exact Hr|]. intros o Hin. simpl in *.
    apply elem_of_app. now left.
Qed.

Lemma store_ok_insert_order (uid : Z) (t : float) (m text : string)
    (d : Database) :
  store_ok d -> uid ∈ map u_id (users d) ->
  store_ok (insert_order uid t m text d).
Proof.
  intros (Hn & Hu & Ho & Hp & Hr) Hin. unfold store_ok, insert_order.
  cbn [users orders products seq_users seq_orders seq_products].
  rewrite !map_app. cbn [map order_id].
  split; [exact Hn|]. split; [exact Hu|]. split; [now apply ids_ok_snoc|].
  split; [exact Hp|]. apply Forall_app. split; [exact Hr|].
  now apply Forall_singleton.
Qed.

Lemma store_ok_insert_product (n : string) (pr : float) (c : string)
    (d : Database) :
  store_ok d -> store_ok (insert_product n pr c d).
Proof.
  intros (Hn & Hu & Ho & Hp & Hr). unfold store_ok, insert_product.
  cbn [users orders products seq_users seq_orders seq_products].
  rewrite !map_app. cbn [map p_id].
  split; [exact Hn|]. split; [exact Hu|]. split; [exact Ho|].
  split; [now apply ids_ok_snoc|exact Hr].
Qed.

Lemma heap_ok_ensure_cart (w : World) : heap_ok w -> heap_ok (ensure_cart w).
Proof.
  unfold ensure_cart. destruct (Cart_instance w) as [c|] eqn:Hc; [trivial|].
  intros [_ Hd]. split; cbn [Cart_instance heap].
  - intros c [= <-]. rewrite length_app. simpl. lia.
  - apply Forall_app. split; [exact Hd|]. apply Forall_singleton.
    apply NoDup_nil_2.
Qed.

Lemma heap_ok_db (d : Database) (w : World) :
  heap_ok w -> heap_ok (mkWorld d (heap w) (Cart_instance w)).
Proof. trivial. Qed.

Lemma heap_ok_cart_lines (w : World) (c : Cart) :
  heap_ok w -> Cart_instance w = Some c ->
  exists d, heap w !! items c = Some d /\ NoDup (dict_keys d).
Proof.
  intros [Hc Hd] Hi. specialize (Hc c Hi).
  destruct (lookup_lt_is_Some_2 (heap w) (items c) Hc) as [d Hl].
  exists d. split; [exact Hl|].
  rewrite Forall_forall in Hd. apply Hd. eapply list_elem_of_lookup_2, Hl.
Qed.

Lemma ensure_cart_instance (w : World) :
  exists c, Cart_instance (ensure_cart w) = Some c.
Proof.
  unfold ensure_cart. destruct (Cart_instance w) as [c|] eqn:Hc.
  - exists c. exact Hc.
  - eexists. reflexivity.
Qed.

Lemma add_item_world (p : Product) (q : Z) (w : World) (c : Cart)
    (d : items_dict) :
  Cart_instance w = Some c ->
  heap w !! items c = Some d ->
  add_item p q w
  = Ok (tt, mkWorld (db w) (<[items c := add_item_dict p q d]> (heap w))
                    (Cart_instance w)).
Proof.
  intros Hc Hd. unfold add_item. unfold bind at 1.
  rewrite (the_cart_spec w c Hc). unfold update. now rewrite Hd.
Qed.

Lemma heap_ok_insert (w : World) (l : loc) (d : items_dict) :
  heap_ok w -> NoDup (dict_keys d) ->
  heap_ok (mkWorld (db w) (<[l := d]> (heap w)) (Cart_instance w)).
Proof.
  intros [Hc Hd] Hnd. split; cbn [Cart_instance heap].
  - intros c Hi. rewrite length_insert. now apply Hc.
  - now apply Forall_insert.
Qed.

Lemma heap_ok_new_cart (d : Database) (w : World) :
  heap_ok w ->
  heap_ok (mkWorld d (heap w ++ [[]]) (Some (mkCart (length (heap w))))).
Proof.
  intros [_ Hd]. split; cbn [Cart_instance heap].
  - intros c [= <-]. rewrite length_app. simpl. lia.
  - apply Forall_app. split; [exact Hd|]. apply Forall_singleton.
    apply NoDup_nil_2.
Qed.

Lemma session_ok_with_user (u pw : string) (d : Database)
    (session : option Session) :
  fetch_user u d = None -> session_ok d session ->
  session_ok (with_user u pw d) session.
Proof.
  intros Hf. destruct session as [s|]; [|trivial].
  intros (r & Hr & Hid). exists r. split; [|exact Hid].
  assert (Hins : insert_user u pw d = Ok (with_user u pw d))
    by (unfold insert_user; now rewrite Hf).
  pose proof (users_named_insert u pw d _ Hins) as (_ & Husers & _).
  unfold fetch_user. rewrite Husers, filter_app.
  rewrite filter_cons, filter_nil; cbn [u_username].
  destruct (String.eqb_spec u (s_username s)) as [E|E]; [congruence|].
  case_decide; [discriminate|]. rewrite app_nil_r. exact Hr.
Qed.

Lemma session_ok_user_id (d : Database) (s : Session) (r : UserRow) :
  fetch_user (s_username s) d = Some r -> u_id r ∈ map u_id (users d).
Proof.
  intros Hr. apply fetch_user_elem in Hr as [Hin _].
  apply list_elem_of_fmap. now exists r.
Qed.

Lemma float_of_int_error (z : Z) (e : exn) :
  float_of_int z = Raise e -> exists msg, e = OverflowError msg.
Proof.
  unfold float_of_int. destruct (binary_normalize prec emax z 0 false);
    try discriminate. intros [= <-]. eexists. reflexivity.
Qed.

Lemma line_amounts_error (ls : list CartLine) (e : exn) :
  line_amounts ls = Raise e -> exists msg, e = OverflowError msg.
Proof.
  induction ls as [|l ls IH]; simpl; [discriminate|].
  unfold float_mul_int.
  destruct (float_of_int (quantity l)) as [x|e'] eqn:E.
  - destruct (line_amounts ls) as [xs|e'']; [discriminate|].
    intros [= <-]. now apply IH.
  - intros [= <-]. now apply (float_of_int_error (quantity l)).
Qed.

Lemma total_of_error (d : items_dict) (e : exn) :
  total_of d = Raise e -> exists msg, e = OverflowError msg.
Proof.
  unfold total_of. destruct (line_amounts (dict_values d)) eqn:E;
    [discriminate|]. intros [= <-]. now apply (line_amounts_error _ _ E).
Qed.

(** What one request does to a well-formed world. *)
Lemma serve_step (rq : request) (session : option Session) (w : World) :
  store_ok (db w) -> heap_ok w -> session_ok (db w) session ->
  match serve rq session w with
  | Ok ((_, session'), w') =>
      store_ok (db w') /\ heap_ok w' /\ session_ok (db w') session' /\
      (forall s0, session_ok (db w) s0 -> session_ok (db w') s0)
  | Raise e => request_error e /\ exists pm, rq = ReqCheckout POST pm
  end.
Proof.
  intros Hs Hh Hsess. destruct rq as [|m u pw|m u pw| | |n q| |m pm|].
  - (* home *) cbn. auto.
  - (* register *)
    destruct m; [cbn; auto|]. unfold serve. rewrite register_unfold.
    destruct (fetch_user u (db w)) as [r|] eqn:Hf; [auto|].
    rewrite ensure_cart_db. cbn [db].
    split; [now apply store_ok_with_user|].
    split; [now apply heap_ok_ensure_cart|]. split.
    + cbn [session_ok s_username s_user_id]. eexists.
      split; [now apply insert_user_unique_lookup|reflexivity].
    + intros s0. now apply session_ok_with_user.
  - (* login *)
    destruct m; [cbn; auto|]. unfold serve. rewrite login_route_unfold.
    destruct (fetch_user u (db w)) as [r|] eqn:Hf; [|auto].
    destruct (String.eqb (u_password r) pw); [|auto].
    rewrite ensure_cart_db.
    split; [exact Hs|]. split; [now apply heap_ok_ensure_cart|].
    split; [|auto]. cbn [session_ok s_username s_user_id]. now exists r.
  - (* logout *) cbn. auto.
  - (* catalog *) cbn. auto.
  - (* add_to_cart *)
    unfold serve. unfold bind at 1.
    destruct session as [s|]; [|cbn; auto].
    destruct Hsess as (r & Hr & Hid).
    unfold add_to_cart. unfold bind at 1. unfold get_product, bind at 1, get_db, ret.
    cbn [db]. destruct (fetch_product_by_name n (db w)) as [p|].
    2:{ split; [exact Hs|]. split; [exact Hh|]. split; [|auto]. now exists r. }
    unfold bind at 1. rewrite (session_user_ensure s w r Hr). unfold bind at 1.
    destruct (ensure_cart_instance w) as (c & Hc).
    destruct (heap_ok_cart_lines _ c (heap_ok_ensure_cart w Hh) Hc) as (d & Hd & Hnd).
    rewrite (add_item_world p q _ c d Hc Hd).
    split; [cbn [db]; now rewrite ensure_cart_db|]. split.
    { apply heap_ok_insert; [now apply heap_ok_ensure_cart|].
      now apply add_item_dict_NoDup. }
    cbn [db]. rewrite ensure_cart_db. split; [|auto]. now exists r.
  - (* cart *)
    unfold serve. unfold bind at 1.
    destruct session as [s|]; [|cbn; auto].
    destruct Hsess as (r & Hr & Hid).
    unfold view_cart. unfold bind at 1. rewrite (session_user_ensure s w r Hr).
    destruct (ensure_cart_instance w) as (c & Hc).
    destruct (heap_ok_cart_lines _ c (heap_ok_ensure_cart w Hh) Hc) as (d & Hd & Hnd).
    unfold bind at 1. unfold get_items, bind at 1.
    rewrite (the_cart_spec _ c Hc). unfold ret at 1.
    unfold bind at 1. unfold deref. rewrite Hd. cbn.
    rewrite ensure_cart_db.
    split; [exact Hs|]. split; [now apply heap_ok_ensure_cart|].
    split; [|auto]. now exists r.
  - (* checkout *)
    unfold serve. unfold bind at 1. unfold checkout.
    destruct session as [s|]; [|cbn; auto].
    destruct Hsess as (r & Hr & Hid).
    destruct m.
    { unfold checkout_with. unfold bind at 1.
      rewrite (session_user_ensure s w r Hr). cbn. rewrite ensure_cart_db.
      split; [exact Hs|]. split; [now apply heap_ok_ensure_cart|].
      split; [|auto]. now exists r. }
    destruct (ensure_cart_instance w) as (c & Hc).
    destruct (heap_ok_cart_lines _ c (heap_ok_ensure_cart w Hh) Hc) as (d & Hd & Hnd).
    destruct d as [|x d].
    { unfold checkout_with. unfold bind at 1.
      rewrite (session_user_ensure s w r Hr). unfold bind at 1.
      rewrite (create_order_spec _ _ c [] Hc Hd).
      split; [now left|]. now exists pm. }
    assert (Hne : x :: d <> []) by discriminate.
    pose proof (ensure_cart_nonempty w c _ Hc Hd Hne) as Hw. rewrite Hw in *.
    rewrite (checkout_with_post MockPaymentGateway s pm w r c _ Hr Hc Hd Hne).
    destruct (total_of (x :: d)) as [t|e] eqn:Ht.
    2:{ split; [right; now apply (total_of_error _ _ Ht)|]. now exists pm. }
    destruct (total_of_lines_is_float _ t Hne Ht) as (f & ->).
    cbn [process_payment MockPaymentGateway render_summary format_2f_number].
    cbn [db].
    split; [apply store_ok_insert_order; [exact Hs|]|].
    { now apply (session_ok_user_id _ s). }
    split; [now apply heap_ok_new_cart|].
    split; [|auto]. now exists r.
  - (* orders *)
    unfold serve. unfold bind at 1.
    destruct session as [s|]; [|cbn; auto].
    destruct Hsess as (r & Hr & Hid).
    unfold order_history, bind, get_db. cbn [db]. rewrite Hr. cbn.
    split; [exact Hs|]. split; [exact Hh|]. split; [|auto]. now exists r.
Qed.

Lemma laptops_world_ok : store_ok (db laptops_world) /\ heap_ok laptops_world.
Proof.
  split.
  - unfold store_ok, ids_ok; simpl.
    repeat split; repeat constructor; try lia; apply not_elem_of_nil.
  - split; simpl.
    + intros c [= <-]. simpl. lia.
    + repeat constructor; apply not_elem_of_nil.
Qed.

Lemma fresh_world_ok : store_ok (db fresh_world) /\ heap_ok fresh_world.
Proof.
  split.
  - unfold store_ok, ids_ok; simpl. repeat split; constructor.
  - split; simpl; [discriminate|constructor].
Qed.

(** A request of [request], that is, one whose form fields are there and
    whose quantity, if it has one, [int] has read as an integer, and that
    comes with the session of a stored user or with none, ends in an error
    only if it is a [POST] to [checkout], and then the error is the
    [ValueError] of the empty cart or the [OverflowError] of a quantity
    too large for a [float]. No route raises after its fields are read:
    the [TypeError] of a session without its user row does not occur, and
    [register] and [login] handle their own errors. The error before
    that, the [ValueError] of [int] on a quantity that is no integer, is
    that of [add_to_cart_form]. *)
Theorem requests_fail_only_at_checkout (rq : request)
    (session : option Session) (w : World) :
  store_ok (db w) -> heap_ok w -> session_ok (db w) session ->
  match serve rq session w with
  | Ok _ => True
  | Raise e => request_error e /\ exists pm, rq = ReqCheckout POST pm
  end.
Proof.
  intros Hs Hh Hsess. pose proof (serve_step rq session w Hs Hh Hsess) as H.
  destruct (serve rq session w) as [[[resp s'] w']|e]; [trivial|exact H].
Qed.

Lemma requests_fail_only_at_checkout_witness :
  match serve (ReqCheckout POST "card") (Some (mkSession 1 "alice"))
              (mkWorld (db laptops_world) [] None) with
  | Ok _ => True
  | Raise e =>
      request_error e /\ exists pm, ReqCheckout POST "card" = ReqCheckout POST pm
  end.
Proof.
  apply (requests_fail_only_at_checkout (ReqCheckout POST "card")
           (Some (mkSession 1 "alice")) (mkWorld (db laptops_world) [] None)).
  - exact (proj1 laptops_world_ok).
  - split; simpl; [discriminate|constructor].
  - simpl. eexists. split; reflexivity.
Defined.

(** Whatever requests the clients send, each with its own session, a
    well-formed world stays well formed as long as they are answered:
    usernames stay unique, the ids of users, orders and products are
    increasing and never reused, every order carries the id of a stored
    user (the store itself does not check this), the cart refers to a
    dictionary without repeated names, and every session is that of a
    stored user. *)
Theorem requests_keep_the_world_well_formed (rqs : list (nat * request))
    (ss : clients) (w : World) :
  store_ok (db w) -> heap_ok w -> (forall c, session_ok (db w) (ss c)) ->
  match serve_all rqs ss w with
  | Ok (ss', w') =>
      store_ok (db w') /\ heap_ok w' /\ (forall c, session_ok (db w') (ss' c))
  | Raise _ => True
  end.
Proof.
  revert ss w. induction rqs as [|[c rq] rqs IH]; intros ss w Hs Hh Hss.
  - simpl. auto.
  - simpl. unfold bind.
    pose proof (serve_step rq (ss c) w Hs Hh (Hss c)) as H.
    destruct (serve rq (ss c) w) as [[[resp s'] w']|e]; [|trivial].
    destruct H as (Hs' & Hh' & Hsess' & Hmono). cbn [snd].
    apply IH; [exact Hs'|exact Hh'|]. intros c'. unfold set_session.
    destruct (Nat.eqb c' c); [exact Hsess'|]. apply Hmono, Hss.
Qed.

Lemma requests_keep_the_world_well_formed_witness :
  match serve_all [(0%nat, ReqRegister POST "bob" "pw2");
                   (1%nat, ReqLogin POST "alice" "pw1");
                   (0%nat, ReqCart);
                   (1%nat, ReqCheckout POST "card");
                   (0%nat, ReqOrders);
                   (1%nat, ReqLogout)]
                  (fun _ => None) laptops_world with
  | Ok (ss', w') =>
      store_ok (db w') /\ heap_ok w' /\ (forall c, session_ok (db w') (ss' c))
  | Raise _ => True
  end.
Proof.
  apply (requests_keep_the_world_well_formed
           [(0%nat, ReqRegister POST "bob" "pw2");
            (1%nat, ReqLogin POST "alice" "pw1");
            (0%nat, ReqCart);
            (1%nat, ReqCheckout POST "card");
            (0%nat, ReqOrders);
            (1%nat, ReqLogout)]
           (fun _ => None) laptops_world).
  - exact (proj1 laptops_world_ok).
  - exact (proj2 laptops_world_ok).
  - intros c. exact I.
Defined.

(** ** The catalog at start-up *)

Lemma for_each_add_product (cat : string) (prods : list (string * float))
    (w : World) :
  for_each (fun np : string * float =>
              let '(n, pr) := np in add_product (create_product n pr cat))
           prods w
  = Ok (tt, mkWorld (insert_products
                       (map (fun np : string * float => (fst np, snd np, cat)) prods)
                       (db w))
                    (heap w) (Cart_instance w)).
Proof.
  revert w. induction prods as [|[n pr] prods IH]; intros w.
  - now destruct w.
  - cbn [for_each]. unfold bind at 1.
    unfold add_product, bind, get_db, put_db, create_product.
    cbn [name price category db]. rewrite IH. reflexivity.
Qed.

Lemma insert_products_app (l1 l2 : list product_args) (d : Database) :
  insert_products (l1 ++ l2) d = insert_products l2 (insert_products l1 d).
Proof. unfold insert_products. apply fold_left_app. Qed.

Lemma for_each_categories (cats : list (string * list (string * float)))
    (w : World) :
  for_each (fun entry : string * list (string * float) =>
              let '(cat, prods) := entry in
              for_each (fun np : string * float =>
                          let '(n, pr) := np in
                          add_product (create_product n pr cat))
                       prods)
           cats w
  = Ok (tt, mkWorld (insert_products
                       (flat_map (fun entry : string * list (string * float) =>
                                    map (fun np : string * float =>
                                           (fst np, snd np, fst entry))
                                        (snd entry))
                                 cats)
                       (db w))
                    (heap w) (Cart_instance w)).
Proof.
  revert w. induction cats as [|[cat prods] cats IH]; intros w.
  - now destruct w.
  - cbn [for_each flat_map fst snd]. unfold bind at 1.
    rewrite for_each_add_product. rewrite IH. cbn [db heap Cart_instance].
    now rewrite insert_products_app.
Qed.

Lemma products_insert_products (calls : list product_args) (d : Database) :
  map product_of_row (products (insert_products calls d)) =
  map product_of_row (products d) ++ map args_product calls.
Proof.
  revert d. induction calls as [|[[n pr] c] calls IH]; intros d.
  - simpl. now rewrite app_nil_r.
  - unfold insert_products in *. cbn [fold_left]. rewrite IH.
    unfold insert_product; cbn [products]. rewrite map_app, <- app_assoc.
    reflexivity.
Qed.

Lemma insert_products_others (calls : list product_args) (d : Database) :
  users (insert_products calls d) = users d /\
  orders (insert_products calls d) = orders d.
Proof.
  revert d. induction calls as [|[[n pr] c] calls IH]; intros d; [now split|].
  unfold insert_products in *. cbn [fold_left].
  destruct (IH (insert_product n pr c d)) as [-> ->]. now split.
Qed.

Lemma fetch_product_by_name_products (n : string) (d : Database) :
  fetch_product_by_name n d =
  match filter (fun p => String.eqb (name p) n = true)
               (map product_of_row (products d)) with
  | p :: _ => Some p
  | [] => None
  end.
Proof.
  unfold fetch_product_by_name.
  assert (H : filter (fun p => String.eqb (name p) n = true)
                     (map product_of_row (products d))
              = map product_of_row
                    (filter (fun r => String.eqb (p_name r) n = true) (products d))).
  { induction (products d) as [|r rs IH]; [reflexivity|].
    cbn [map]. rewrite !filter_cons. cbn [product_of_row name].
    case_decide; cbn [map]; now rewrite IH. }
  rewrite H. now destruct (filter _ (products d)).
Qed.

(** An equation between two pairs, taken apart and substituted. *)
Ltac subst_pair H :=
  let H1 := fresh "H" in
  apply (f_equal fst) in H as H1; apply (f_equal snd) in H;
  cbn [fst snd] in H, H1; subst.

Lemma seed_lookup (cat : string) (prods : list (string * float)) (n : string)
    (pr : float) :
  (cat, prods) ∈ categories -> (n, pr) ∈ prods ->
  match filter (fun p => String.eqb (name p) n = true)
               (map args_product seed_args) with
  | p :: _ => Some p
  | [] => None
  end = Some (mkProduct n pr cat).
Proof.
  intros Hc Hin. unfold categories in Hc.
  repeat (apply elem_of_cons in Hc as [Hc|Hc];
          [subst_pair Hc;
           repeat (apply elem_of_cons in Hin as [Hin|Hin];
                   [subst_pair Hin; vm_compute; reflexivity|]);
           now apply elem_of_nil in Hin|]).
  now apply elem_of_nil in Hc.
Qed.

(** Seeding happens once: on a catalog without products it inserts the
    twelve products of the source, each of which is then found under its
    name with its price and category; on a catalog that has a product it
    does nothing, so seeding again changes nothing. Users and orders are
    not touched. *)
Theorem seed_catalog_only_once (w : World) :
  exists w1,
    seed_catalog w = Ok (tt, w1) /\
    seed_catalog w1 = Ok (tt, w1) /\
    (products (db w) <> [] -> w1 = w) /\
    (products (db w) = [] ->
     length (products (db w1)) = 12%nat /\
     forall cat prods n pr,
       (cat, prods) ∈ categories -> (n, pr) ∈ prods ->
       fetch_product_by_name n (db w1) = Some (mkProduct n pr cat)) /\
    users (db w1) = users (db w) /\ orders (db w1) = orders (db w).
Proof.
  destruct (products (db w)) as [|p ps] eqn:Hp.
  - exists (mkWorld (insert_products seed_args (db w)) (heap w) (Cart_instance w)).
    pose proof (products_insert_products seed_args (db w)) as Hmap.
    rewrite Hp in Hmap. cbn [map app] in Hmap.
    assert (Hseed : seed_catalog w
                    = Ok (tt, mkWorld (insert_products seed_args (db w))
                                      (heap w) (Cart_instance w))).
    { unfold seed_catalog. unfold bind at 1. unfold get_db, fetch_products.
      rewrite Hp. cbn [map]. apply for_each_categories. }
    split; [exact Hseed|]. split.
    { unfold seed_catalog. unfold bind at 1. unfold get_db, fetch_products.
      cbn [db]. rewrite Hmap. reflexivity. }
    split; [congruence|]. split; [|apply insert_products_others].
    intros _. cbn [db]. split.
    { rewrite <- (length_map product_of_row), Hmap. reflexivity. }
    intros cat prods n pr Hc Hin.
    rewrite fetch_product_by_name_products, Hmap.
    now apply (seed_lookup cat prods).
  - exists w.
    assert (Hseed : seed_catalog w = Ok (tt, w)).
    { unfold seed_catalog. unfold bind at 1. unfold get_db, fetch_products.
      now rewrite Hp. }
    split; [exact Hseed|]. split; [exact Hseed|]. split; [reflexivity|].
    split; [discriminate|now split].
Qed.

Lemma checkout_never_declined_witness :
  checkout (Some (mkSession 1 "alice")) GET "card" laptops_world
  = Ok (Render "checkout.html", laptops_world) /\ GET = GET.
Proof.
  split; [reflexivity|].
  apply (checkout_never_declined (mkSession 1 "alice") "card" laptops_world
           laptops_world GET).
  reflexivity.
Defined.

(** ** The quantity field of [add_to_cart] *)

Lemma ascii_digit_cases (c : Z) :
  ascii_digit c ->
  c = 48 \/ c = 49 \/ c = 50 \/ c = 51 \/ c = 52 \/ c = 53 \/ c = 54 \/
  c = 55 \/ c = 56 \/ c = 57.
Proof. unfold ascii_digit. lia. Qed.

Lemma ascii_digit_facts (c : Z) :
  ascii_digit c ->
  (c <? 0x80) = true /\ is_space c = false /\ (c =? underscore) = false /\
  (c =? 0x2b) = false /\ (c =? 0x2d) = false /\
  decimal_value c = Some (c - 0x30).
Proof.
  intros H.
  destruct (ascii_digit_cases c H) as [->|[->|[->|[->|[->|[->|[->|[->|[->| ->]]]]]]]]];
    repeat split; reflexivity.
Qed.

Lemma code_points_ascii_digits (ds rest : list Z) :
  Forall ascii_digit ds -> code_points (ds ++ rest) = ds ++ code_points rest.
Proof.
  induction 1 as [|c ds Hc _ IH]; [reflexivity|].
  destruct (ascii_digit_facts c Hc) as (Hlt & _).
  cbn [app code_points]. now rewrite Hlt, IH.
Qed.

Lemma scan_ascii_digits (ds : list Z) (n k : Z) :
  Forall ascii_digit ds ->
  scan_digits false n k ds = Some (digits_value ds n, k + Z.of_nat (length ds), []).
Proof.
  intros H. revert n k. induction H as [|c ds Hc _ IH]; intros n k.
  - cbn. do 3 f_equal. lia.
  - destruct (ascii_digit_facts c Hc) as (_ & _ & Hu & _ & _ & Hv).
    cbn [scan_digits]. rewrite Hu, Hv, IH. cbn [digits_value fold_left length].
    do 3 f_equal. lia.
Qed.

Lemma byte_values_String (a : ascii) (s : string) :
  byte_values (String a s) = Z.of_N (N_of_ascii a) :: byte_values s.
Proof. reflexivity. Qed.

Lemma pretty_N_char_byte (x : N) :
  (x < 10)%N -> Z.of_N (N_of_ascii (pretty_N_char x)) = 0x30 + Z.of_N x.
Proof.
  intros H.
  assert (x = 0 \/ x = 1 \/ x = 2 \/ x = 3 \/ x = 4 \/ x = 5 \/ x = 6 \/
          x = 7 \/ x = 8 \/ x = 9)%N
    as [->|[->|[->|[->|[->|[->|[->|[->|[->| ->]]]]]]]]] by lia;
    reflexivity.
Qed.

(** The digits that [pretty] writes for a natural number. *)
Lemma pretty_N_go_digits (x : N) (s : string) :
  exists ds,
    byte_values (pretty_N_go x s) = ds ++ byte_values s /\
    Forall ascii_digit ds /\
    (forall n, digits_value ds n = n * 10 ^ Z.of_nat (length ds) + Z.of_N x) /\
    Z.of_N x < 10 ^ Z.of_nat (length ds) /\
    ((0 < x)%N -> 10 ^ (Z.of_nat (length ds) - 1) <= Z.of_N x) /\
    (x = 0%N -> ds = []).
Proof.
  revert s. induction (N.lt_wf_0 x) as [x _ IH]. intros s.
  assert (x = 0 \/ 0 < x)%N as [->|Hpos] by lia.
  - exists []. rewrite pretty_N_go_0. cbn.
    split; [reflexivity|]. split; [constructor|]. split; [intros n; lia|].
    split; [lia|]. split; [lia|reflexivity].
  - rewrite pretty_N_go_step by exact Hpos.
    destruct (IH (x `div` 10)%N (N.div_lt x 10 Hpos eq_refl)
                 (String (pretty_N_char (x `mod` 10)) s))
      as (ds & Hb & Hd & Hv & Hup & Hlow & Hnil).
    assert (Hm : (x `mod` 10 < 10)%N) by (apply N.mod_lt; lia).
    rewrite byte_values_String, (pretty_N_char_byte _ Hm) in Hb.
    exists (ds ++ [0x30 + Z.of_N (x `mod` 10)]).
    assert (Hx : Z.of_N x = 10 * Z.of_N (x `div` 10) + Z.of_N (x `mod` 10)).
    { rewrite (N.div_mod x 10) at 1 by lia. lia. }
    assert (Hm' : 0 <= Z.of_N (x `mod` 10) < 10).
    { split; [apply N2Z.is_nonneg|]. change 10 with (Z.of_N 10). now apply N2Z.inj_lt. }
    assert (Hlen : Z.of_nat (length (ds ++ [0x30 + Z.of_N (x `mod` 10)]))
                   = Z.of_nat (length ds) + 1).
    { rewrite length_app. cbn. lia. }
    rewrite Hlen.
    assert (Hpow : 10 ^ (Z.of_nat (length ds) + 1) = 10 * 10 ^ Z.of_nat (length ds)).
    { rewrite Z.pow_add_r by lia. change (10 ^ 1) with 10. lia. }
    split; [now rewrite <- app_assoc|]. split.
    { apply Forall_app. split; [exact Hd|].
      constructor; [unfold ascii_digit; lia|constructor]. }
    split.
    { intros n. unfold digits_value. rewrite fold_left_app. cbn [fold_left].
      fold (digits_value ds n). rewrite Hv, Hpow. lia. }
    split; [rewrite Hpow; lia|]. split; [|lia].
    intros _. replace (Z.of_nat (length ds) + 1 - 1) with (Z.of_nat (length ds)) by lia.
    assert (x `div` 10 = 0 \/ 0 < x `div` 10)%N as [H0|H1] by lia.
    + rewrite (Hnil H0). cbn. lia.
    + specialize (Hlow H1).
      assert (Hl : (0 < length ds)%nat).
      { destruct ds; [|cbn; lia]. cbn in Hup. lia. }
      replace (Z.of_nat (length ds)) with (Z.of_nat (length ds) - 1 + 1) by lia.
      rewrite Z.pow_add_r by lia. change (10 ^ 1) with 10. lia.
Qed.

Lemma int_digits_ascii (shown : string -> string) (text : string) (sign : Z)
    (ds : list Z) :
  Forall ascii_digit ds -> ds <> [] ->
  int_digits shown text sign ds
  = if 4300 <? Z.of_nat (length ds)
    then Raise (too_many_digits (Z.of_nat (length ds)))
    else Ok (sign * digits_value ds 0).
Proof.
  intros Hd Hne. destruct ds as [|c ds']; [congruence|].
  unfold int_digits. rewrite (scan_ascii_digits _ 0 0 Hd).
  inversion Hd as [|? ? Hc _]; subst.
  destruct (ascii_digit_facts c Hc) as (_ & _ & -> & _).
  replace (0 + Z.of_nat (length (c :: ds'))) with (Z.of_nat (length (c :: ds')))
    by lia.
  destruct (Z.eqb_spec (Z.of_nat (length (c :: ds'))) 0) as [E|_];
    [cbn in E; lia|].
  reflexivity.
Qed.

(** [int] raises nothing but its two [ValueError]s. *)
Lemma py_int_error (shown : string -> string) (text : string) (e : exn) :
  py_int shown text = Raise e ->
  e = invalid_literal shown text \/
  exists digits, 4300 < digits /\ e = too_many_digits digits.
Proof.
  assert (H : forall sign body,
             int_digits shown text sign body = Raise e ->
             e = invalid_literal shown text \/
             exists digits, 4300 < digits /\ e = too_many_digits digits).
  { intros sign body. unfold int_digits. destruct body as [|c body']; [left; congruence|].
    destruct (c =? underscore); [left; congruence|].
    destruct (scan_digits false 0 0 (c :: body')) as [[[n digits] rest]|];
      [|left; congruence].
    destruct (digits =? 0); [left; congruence|].
    destruct (Z.ltb_spec 4300 digits) as [Hlt|_].
    - intros [= <-]. right. now exists digits.
    - destruct (skip_spaces rest); [discriminate|left; congruence]. }
  unfold py_int.
  destruct (skip_spaces (code_points (byte_values text))) as [|c rest];
    [left; congruence|].
  destruct (c =? 43); [apply H|]. destruct (c =? 45); apply H.
Qed.

Lemma add_to_cart_answers (s : Session) (n : string) (q : Z) (w : World) :
  heap_ok w -> session_ok (db w) (Some s) ->
  exists w', add_to_cart (Some s) n q w = Ok (Redirect "view_catalog", w').
Proof.
  intros Hh (r & Hr & Hid).
  unfold add_to_cart. unfold bind at 1. unfold get_product, bind at 1, get_db, ret.
  cbn [db]. destruct (fetch_product_by_name n (db w)) as [p|]; [|now exists w].
  unfold bind at 1. rewrite (session_user_ensure s w r Hr). unfold bind at 1.
  destruct (ensure_cart_instance w) as (c & Hc).
  destruct (heap_ok_cart_lines _ c (heap_ok_ensure_cart w Hh) Hc) as (d & Hd & Hnd).
  rewrite (add_item_world p q _ c d Hc Hd). eexists. reflexivity.
Qed.

(** [add_to_cart] on the text of the quantity field. Without a session the
    route redirects to the login page and does not read the field. For a
    logged-in user in a well-formed world the route raises exactly when
    [int] refuses the text, with the [ValueError] of [int] (no integer
    there, or more than 4300 digits), which nothing in the route handles;
    when [int] reads [q], the route does what [add_to_cart] does with [q]
    and answers with the redirect to the catalog. *)
Theorem add_to_cart_form_reads_quantity (shown : string -> string)
    (s : Session) (n text : string) (w : World) :
  heap_ok w -> session_ok (db w) (Some s) ->
  add_to_cart_form shown None n text w = Ok (Redirect "login", w) /\
  match py_int shown text with
  | Ok q =>
      add_to_cart_form shown (Some s) n text w = add_to_cart (Some s) n q w /\
      exists w', add_to_cart (Some s) n q w = Ok (Redirect "view_catalog", w')
  | Raise e =>
      add_to_cart_form shown (Some s) n text w = Raise e /\
      (e = invalid_literal shown text \/
       exists digits, 4300 < digits /\ e = too_many_digits digits)
  end.
Proof.
  intros Hh Hsess. split; [reflexivity|].
  destruct (py_int shown text) as [q|e] eqn:E.
  - split; [|now apply add_to_cart_answers].
    unfold add_to_cart_form, bind, lift. now rewrite E.
  - split; [|now apply py_int_error].
    unfold add_to_cart_form, bind, lift. now rewrite E.
Qed.

Lemma add_to_cart_form_reads_quantity_witness :
  add_to_cart_form (fun text => text) None "Shirt" "two" laptops_world
  = Ok (Redirect "login", laptops_world) /\
  match py_int (fun text => text) "two" with
  | Ok q =>
      add_to_cart_form (fun text => text) (Some (mkSession 1 "alice")) "Shirt"
                       "two" laptops_world
      = add_to_cart (Some (mkSession 1 "alice")) "Shirt" q laptops_world /\
      exists w',
        add_to_cart (Some (mkSession 1 "alice")) "Shirt" q laptops_world
        = Ok (Redirect "view_catalog", w')
  | Raise e =>
      add_to_cart_form (fun text => text) (Some (mkSession 1 "alice")) "Shirt"
                       "two" laptops_world
      = Raise e /\
      (e = invalid_literal (fun text => text) "two" \/
       exists digits, 4300 < digits /\ e = too_many_digits digits)
  end.
Proof.
  apply (add_to_cart_form_reads_quantity (fun text => text)
           (mkSession 1 "alice") "Shirt" "two" laptops_world).
  - exact (proj2 laptops_world_ok).
  - simpl. eexists. split; reflexivity.
Defined.

Lemma pretty_pos_digits (p : positive) :
  exists c ds,
    byte_values (pretty (N.pos p)) = c :: ds /\
    Forall ascii_digit (c :: ds) /\
    digits_value (c :: ds) 0 = Z.pos p /\
    forall k, 0 <= k -> Z.pos p < 10 ^ k <-> Z.of_nat (length (c :: ds)) <= k.
Proof.
  destruct (pretty_N_go_digits (N.pos p) "") as (ds & Hb & Hd & Hv & Hup & Hlow & _).
  change (byte_values "") with (@nil Z) in Hb. rewrite app_nil_r in Hb.
  change (Z.of_N (N.pos p)) with (Z.pos p) in *.
  destruct ds as [|c ds]; [cbn in Hup; lia|].
  exists c, ds. split; [exact Hb|]. split; [exact Hd|]. split.
  { rewrite Hv. lia. }
  specialize (Hlow eq_refl). intros k Hk. split.
  - intros Hlt.
    assert (H : 10 ^ (Z.of_nat (length (c :: ds)) - 1) < 10 ^ k) by lia.
    apply Z.pow_lt_mono_r_iff in H; lia.
  - intros Hle.
    assert (H : 10 ^ Z.of_nat (length (c :: ds)) <= 10 ^ k)
      by (apply Z.pow_le_mono_r; lia).
    lia.
Qed.

Lemma skip_spaces_digit (c : Z) (ds : list Z) :
  ascii_digit c -> skip_spaces (c :: ds) = c :: ds.
Proof.
  intros Hc. destruct (ascii_digit_facts c Hc) as (_ & Hs & _).
  cbn [skip_spaces]. now rewrite Hs.
Qed.

Lemma code_points_digits (ds : list Z) :
  Forall ascii_digit ds -> code_points ds = ds.
Proof.
  intros H. rewrite <- (app_nil_r ds) at 1.
  rewrite (code_points_ascii_digits ds [] H). apply app_nil_r.
Qed.

(** The outcome of [int] on the digits of a positive number: [lim] stands
    for the 4300th power of ten. *)
Lemma digits_outcome (A : Type) (len x lim : Z) (r : result A) (a : A)
    (e : Z -> exn) :
  (x < lim <-> len <= 4300) ->
  r = (if 4300 <? len then Raise (e len) else Ok a) ->
  (x < lim -> r = Ok a) /\
  (lim <= x -> exists digits, 4300 < digits /\ r = Raise (e digits)).
Proof.
  intros Hlen ->. destruct (Z.ltb_spec 4300 len) as [Hgt|Hle].
  - split; [lia|]. intros _. now exists len.
  - split; [reflexivity|]. lia.
Qed.

Lemma py_int_pos (shown : string -> string) (text : string) (p : positive) :
  byte_values text = byte_values (pretty (N.pos p)) ->
  (Z.pos p < 10 ^ 4300 -> py_int shown text = Ok (Z.pos p)) /\
  (10 ^ 4300 <= Z.pos p ->
   exists digits, 4300 < digits /\ py_int shown text = Raise (too_many_digits digits)).
Proof.
  intros Ht. destruct (pretty_pos_digits p) as (c & ds & Hb & Hd & Hv & Hlen).
  apply (digits_outcome Z (Z.of_nat (length (c :: ds)))).
  { apply Hlen. discriminate. }
  clear Hlen. unfold py_int. rewrite Ht, Hb, (code_points_digits _ Hd).
  inversion Hd as [|? ? Hc _]; subst.
  rewrite (skip_spaces_digit c ds Hc).
  destruct (ascii_digit_facts c Hc) as (_ & _ & _ & -> & -> & _).
  rewrite (int_digits_ascii shown text 1 (c :: ds) Hd) by discriminate.
  rewrite Hv. reflexivity.
Qed.

Lemma py_int_neg (shown : string -> string) (text : string) (p : positive) :
  byte_values text = 0x2d :: byte_values (pretty (N.pos p)) ->
  (Z.pos p < 10 ^ 4300 -> py_int shown text = Ok (Z.neg p)) /\
  (10 ^ 4300 <= Z.pos p ->
   exists digits, 4300 < digits /\ py_int shown text = Raise (too_many_digits digits)).
Proof.
  intros Ht. destruct (pretty_pos_digits p) as (c & ds & Hb & Hd & Hv & Hlen).
  apply (digits_outcome Z (Z.of_nat (length (c :: ds)))).
  { apply Hlen. discriminate. }
  clear Hlen. unfold py_int. rewrite Ht, Hb.
  change (code_points (45 :: c :: ds)) with (45 :: code_points (c :: ds)).
  rewrite (code_points_digits _ Hd).
  change (skip_spaces (45 :: c :: ds)) with (45 :: c :: ds).
  change (45 =? 43) with false. change (45 =? 45) with true. cbv iota.
  rewrite (int_digits_ascii shown text (-1) (c :: ds) Hd) by discriminate.
  rewrite Hv. reflexivity.
Qed.

(** A quantity written in decimal, as [str] writes an [int], is read as
    that integer when it has at most 4300 digits, and is refused for its
    length otherwise. *)
Theorem py_int_reads_decimal (shown : string -> string) (z : Z) :
  (Z.abs z < 10 ^ 4300 -> py_int shown (pretty z) = Ok z) /\
  (10 ^ 4300 <= Z.abs z ->
   exists digits,
     4300 < digits /\ py_int shown (pretty z) = Raise (too_many_digits digits)).
Proof.
  destruct z as [|p|p].
  - split; [intros _; reflexivity|]. intros H. exfalso.
    apply (Z.lt_irrefl 0), (Z.lt_le_trans _ _ _ (Z.pow_pos_nonneg 10 4300 eq_refl
                                                   ltac:(discriminate)) H).
  - now apply py_int_pos.
  - now apply py_int_neg.
Qed.

Lemma py_int_reads_decimal_witness :
  py_int (fun text => text) (pretty (-12)) = Ok (-12).
Proof.
  apply (py_int_reads_decimal (fun text => text) (-12)).
  vm_compute. reflexivity.
Defined.
